(** * LDAP authentication provider: query building, search and group resolution

    A shallow embedding of [pkg/auth/providers/ldap/ldap_client.go].
    Go strings are byte strings ([string]); slices are lists (a nil slice
    and an empty slice are both [[]]); the directory connection is an
    abstract state machine behind the [Client] class, threaded explicitly
    through every function that talks to the directory. *)

From Stdlib Require Import ZArith Ascii String List Lia Bool.
From stdpp Require Import base option list strings gmap.

Local Open Scope Z_scope.
Local Open Scope stdpp_scope.

#[local] Arguments String.append !_ _ : simpl nomatch.

(** ** Strings *)

Module Str.

Definition eqb (a b : string) : bool := String.eqb a b.

Lemma eqb_eq a b : eqb a b = true <-> a = b.
Proof. apply String.eqb_eq. Qed.

Lemma eqb_neq a b : eqb a b = false <-> a <> b.
Proof. apply String.eqb_neq. Qed.

Lemma eqb_refl a : eqb a a = true.
Proof. apply String.eqb_refl. Qed.

(** The bytes of a string. *)
Fixpoint bytes (s : string) : list ascii :=
  match s with
  | EmptyString => []
  | String c r => c :: bytes r
  end.

Fixpoint concat (l : list string) : string :=
  match l with
  | [] => EmptyString
  | s :: r => s +:+ concat r
  end.

Lemma append_nil_r s : s +:+ "" = s.
Proof. induction s as [|c s IH]; simpl; [done | by rewrite IH]. Qed.

Lemma append_assoc a b c : (a +:+ b) +:+ c = a +:+ (b +:+ c).
Proof. induction a as [|x a IH]; simpl; [done | by rewrite IH]. Qed.

Lemma bytes_app a b : bytes (a +:+ b) = bytes a ++ bytes b.
Proof. induction a as [|x a IH]; simpl; [done | by rewrite IH]. Qed.

Lemma bytes_inj a b : bytes a = bytes b -> a = b.
Proof.
  revert b; induction a as [|x a IH]; intros [|y b]; simpl; try done.
  intros [= -> H]. f_equal. by apply IH.
Qed.

(** [strings.Split(s, sep)] for a one-byte separator: the pieces
    between the occurrences of [sep]; never the empty list. *)
Fixpoint Split (s : string) (sep : ascii) : list string :=
  match s with
  | EmptyString => [EmptyString]
  | String c r =>
      if Ascii.eqb c sep then EmptyString :: Split r sep
      else match Split r sep with
           | [] => [String c EmptyString]
           | p :: ps => String c p :: ps
           end
  end.

Definition percent : ascii := "%"%char.

(** The operand list left over once the format is consumed,
    rendered the way [fmt] does. *)
Fixpoint extra_operands (args : list string) : string :=
  match args with
  | [] => ""
  | [a] => "string=" +:+ a
  | a :: r => "string=" +:+ a +:+ ", " +:+ extra_operands r
  end.

(** One verb applied to a string operand: [%s] and [%v] print the
    operand; a verb that does not apply to strings prints
    [%!c(string=operand)]. *)
Definition verb (v : ascii) (a : string) : string :=
  if Ascii.eqb v "s"%char || Ascii.eqb v "v"%char then a
  else "%!" +:+ String v ("(string=" +:+ a +:+ ")").

(** [fmt.Sprintf] on string operands, for the fragment of the format
    language this file uses: literal bytes, [%s], [%v], [%%], the
    missing-operand and extra-operand renderings.  Flags, widths and
    the quoting and hexadecimal verbs are outside the fragment. *)
Fixpoint Sprintf (format : string) (args : list string) : string :=
  match format with
  | EmptyString =>
      match args with
      | [] => ""
      | _ => "%!(EXTRA " +:+ extra_operands args +:+ ")"
      end
  | String c r =>
      if Ascii.eqb c percent then
        match r with
        | EmptyString => "%!(NOVERB)"
        | String v r' =>
            if Ascii.eqb v percent then String percent (Sprintf r' args)
            else match args with
                 | a :: args' => verb v a +:+ Sprintf r' args'
                 | [] => "%!" +:+ String v ("(MISSING)" +:+ Sprintf r' [])
                 end
        end
      else String c (Sprintf r args)
  end.

(** No byte of [s] is the percent sign. *)
Definition percent_free (s : string) : bool :=
  forallb (fun c => negb (Ascii.eqb c percent)) (bytes s).

Lemma Sprintf_literal_prefix lit fmt args :
  percent_free lit = true ->
  Sprintf (lit +:+ fmt) args = lit +:+ Sprintf fmt args.
Proof.
  induction lit as [|c lit IH]; simpl; [done|].
  unfold percent_free; simpl.
  intros [Hc Hl]%andb_prop.
  destruct (Ascii.eqb c percent); [done|].
  f_equal. by apply IH.
Qed.

End Str.

(** ** Filter escaping (go-ldap)

    [ldapv3.EscapeFilter] escapes the bytes [( ) * \] and NUL and every
    byte above 0x7f as a backslash followed by two lower-case
    hexadecimal digits (RFC 4515); every other byte is copied. *)

Module Filter.

Definition byte_val (c : ascii) : N := N_of_ascii c.

Definition mustEscape (c : ascii) : bool :=
  (N.ltb 127 (byte_val c))
  || Ascii.eqb c "("%char || Ascii.eqb c ")"%char
  || Ascii.eqb c "\"%char || Ascii.eqb c "*"%char
  || N.eqb (byte_val c) 0.

Definition hex (n : N) : ascii :=
  nth (N.to_nat n) (Str.bytes "0123456789abcdef") "0"%char.

Fixpoint EscapeFilter (s : string) : string :=
  match s with
  | EmptyString => EmptyString
  | String c r =>
      if mustEscape c then
        String "\"%char
          (String (hex (N.shiftr (byte_val c) 4))
             (String (hex (N.land (byte_val c) 15)) (EscapeFilter r)))
      else String c (EscapeFilter r)
  end.

(** The value of a hexadecimal digit, either case. *)
Definition unhex (c : ascii) : option N :=
  let n := byte_val c in
  if N.leb 48 n && N.leb n 57 then Some (n - 48)%N
  else if N.leb 97 n && N.leb n 102 then Some (n - 87)%N
  else if N.leb 65 n && N.leb n 70 then Some (n - 55)%N
  else None.

(** A filter operator or wildcard when it stands unescaped. *)
Definition is_meta (c : ascii) : bool :=
  Ascii.eqb c "("%char || Ascii.eqb c ")"%char || Ascii.eqb c "*"%char.

(** Reading an assertion value as a plain literal (RFC 4515): an
    escape [\hh] stands for the byte [hh]; an unescaped parenthesis
    or asterisk, or a backslash not followed by two hexadecimal
    digits, means the text is not a plain literal ([None]). *)
Fixpoint literal_value (s : string) : option string :=
  match s with
  | EmptyString => Some EmptyString
  | String c r =>
      if Ascii.eqb c "\"%char then
        match r with
        | String h (String l r') =>
            match unhex h, unhex l, literal_value r' with
            | Some a, Some b, Some v =>
                Some (String (ascii_of_N (16 * a + b)) v)
            | _, _, _ => None
            end
        | _ => None
        end
      else if is_meta c then None
      else option_map (String c) (literal_value r)
  end.

(** A property of bytes checked on each of the 256 bytes. *)
Lemma all_bytes (P : ascii -> bool) :
  forallb P (map ascii_of_nat (seq 0 256)) = true -> forall c, P c = true.
Proof.
  intros H c. rewrite forallb_forall in H. apply H.
  rewrite <- (ascii_nat_embedding c). apply in_map, in_seq.
  pose proof (nat_ascii_bounded c). lia.
Qed.

Definition hi (c : ascii) : N := N.shiftr (byte_val c) 4.
Definition lo (c : ascii) : N := N.land (byte_val c) 15.

(** What one byte contributes to the escaped text. *)
Definition escape_byte (c : ascii) (rest : string) : string :=
  if mustEscape c then String "\"%char (String (hex (hi c)) (String (hex (lo c)) rest))
  else String c rest.

Lemma EscapeFilter_cons c r :
  EscapeFilter (String c r) = escape_byte c (EscapeFilter r).
Proof. reflexivity. Qed.

Definition escape_byte_ok (c : ascii) : bool :=
  if mustEscape c then
    match unhex (hex (hi c)), unhex (hex (lo c)) with
    | Some a, Some b => Ascii.eqb (ascii_of_N (16 * a + b)) c
    | _, _ => false
    end
    && negb (is_meta (hex (hi c))) && negb (is_meta (hex (lo c)))
    && negb (N.eqb (byte_val (hex (hi c))) 0)
    && negb (N.eqb (byte_val (hex (lo c))) 0)
  else negb (Ascii.eqb c "\"%char) && negb (is_meta c)
       && negb (N.eqb (byte_val c) 0).

Lemma escape_byte_ok_all c : escape_byte_ok c = true.
Proof. apply all_bytes. vm_compute. reflexivity. Qed.

Lemma byte_val_zero c : N.eqb (byte_val c) 0 = false -> c <> "000"%char.
Proof. intros H ->. discriminate H. Qed.

Lemma literal_value_escape_step c r :
  literal_value (EscapeFilter (String c r))
  = option_map (String c) (literal_value (EscapeFilter r)).
Proof.
  rewrite EscapeFilter_cons. generalize (EscapeFilter r) as e; intros e.
  pose proof (escape_byte_ok_all c) as H.
  unfold escape_byte_ok, escape_byte in *.
  destruct (mustEscape c).
  - change (literal_value (String "\"%char (String (hex (hi c)) (String (hex (lo c)) e))))
      with (match unhex (hex (hi c)), unhex (hex (lo c)), literal_value e with
            | Some a, Some b, Some v => Some (String (ascii_of_N (16 * a + b)) v)
            | _, _, _ => None
            end).
    destruct (unhex (hex (hi c))) as [a|]; [|discriminate H].
    destruct (unhex (hex (lo c))) as [b|]; [|discriminate H].
    repeat (apply andb_prop in H as [H _]).
    apply Ascii.eqb_eq in H. rewrite H.
    destruct (literal_value e); reflexivity.
  - apply andb_prop in H as [[H1 H2]%andb_prop _].
    apply negb_true_iff in H1, H2.
    simpl. rewrite H1, H2. reflexivity.
Qed.

(** Escaping loses nothing: the escaped text reads back, as a plain
    literal, to the original bytes. *)
Lemma literal_value_EscapeFilter s :
  literal_value (EscapeFilter s) = Some s.
Proof.
  induction s as [|c r IH]; [reflexivity|].
  rewrite literal_value_escape_step, IH. reflexivity.
Qed.

(** No operator or wildcard byte, and no NUL, survives escaping. *)
Lemma EscapeFilter_no_meta s c :
  In c (Str.bytes (EscapeFilter s)) ->
  is_meta c = false /\ c <> "000"%char.
Proof.
  induction s as [|x r IH]; [simpl; tauto|].
  rewrite EscapeFilter_cons.
  pose proof (escape_byte_ok_all x) as H.
  unfold escape_byte_ok, escape_byte in *.
  destruct (mustEscape x); simpl.
  - apply andb_prop in H as [[[[_ H1]%andb_prop H2]%andb_prop H3]%andb_prop H4].
    apply negb_true_iff in H1, H2, H3, H4.
    intros [<-|[<-|[<-|Hin]]]; auto using byte_val_zero.
  - apply andb_prop in H as [[_ H1]%andb_prop H2].
    apply negb_true_iff in H1, H2.
    intros [<-|Hin]; auto using byte_val_zero.
Qed.

Lemma EscapeFilter_app a b :
  EscapeFilter (a +:+ b) = EscapeFilter a +:+ EscapeFilter b.
Proof.
  induction a as [|c a IH]; simpl; [done|].
  destruct (mustEscape c); simpl; by rewrite IH.
Qed.

End Filter.

(** ** Errors

    Go's [error] values, as far as this file tells them apart:
    a directory error with its LDAP result code ([*ldapv3.Error]), an
    API error with its code, message and cause ([*httperror.APIError]),
    an error wrapping a cause ([fmt.Errorf] with [%w], [errors.Wrapf];
    the text is the message without the cause's own text), and any other
    error value. *)

Inductive ErrorCode :=
| MissingRequired | InvalidOption | Unauthorized
| ServerError | PermissionDenied | NotFound.

#[local] Set Warnings "-register-all".
Inductive error :=
| LdapError (ResultCode : Z) (text : string)
| APIError (Code : ErrorCode) (Message : string) (Cause : option error)
| WrapError (text : string) (cause : error)
| PlainError (text : string).
#[local] Set Warnings "register-all".

Definition LDAPResultInvalidCredentials : Z := 49.
Definition LDAPResultNoSuchObject : Z := 32.

(** [httperror.NewAPIError] and [httperror.WrapAPIError]. *)
Definition NewAPIError (code : ErrorCode) (message : string) : error :=
  APIError code message None.
Definition WrapAPIError (err : option error) (code : ErrorCode) (message : string) : error :=
  APIError code message err.

(** The code of an API error, if it is one. *)
Definition api_code (e : error) : option ErrorCode :=
  match e with APIError c _ _ => Some c | _ => None end.
Definition api_message (e : error) : option string :=
  match e with APIError _ m _ => Some m | _ => None end.

(** The type assertion of [err] to [*ldapv3.Error]: the result code when the
    error value itself is a directory error. *)
Definition as_ldap_error (e : error) : option Z :=
  match e with LdapError c _ => Some c | _ => None end.

(** ** Data model *)

(** [v3.Principal], the fields this file reads or writes;
    [Name] is [ObjectMeta.Name], the principal id. *)
Record Principal := {
  Name : string;
  DisplayName : string;
  LoginName : string;
  PrincipalType : string;
}.

(** The zero value [v3.Principal{}]. *)
Definition Principal_zero : Principal :=
  {| Name := ""; DisplayName := ""; LoginName := ""; PrincipalType := "" |}.

Definition ids (l : list Principal) : list string := map Name l.

(** [ldapv3.EntryAttribute], [ldapv3.Entry], [ldapv3.SearchResult]. *)
Record EntryAttribute := { AttrName : string; Values : list string }.
Record Entry := { DN : string; Attributes : list EntryAttribute }.
Record SearchResult := { Entries : list Entry }.

(** The [GetAttributeValues] method of [Entry]: the values of the first attribute of
    that name, or none. *)
Fixpoint GetAttributeValues (attrs : list EntryAttribute) (attribute : string) : list string :=
  match attrs with
  | [] => []
  | a :: r => if Str.eqb (AttrName a) attribute then Values a
              else GetAttributeValues r attribute
  end.

Inductive SearchScope := ScopeBaseObject | ScopeWholeSubtree.

Record SearchRequest := {
  BaseDN : string;
  Scope : SearchScope;
  Filter : string;
  ReqAttributes : list string;
}.

(** Modelled from the spec: the request constructors of the shared LDAP
    helper package are not in this file; the spec gives the two query
    shapes, base-object (single DN, no recursion) and whole-subtree. *)
Definition NewWholeSubtreeSearchRequest (base filter : string) (attrs : list string) : SearchRequest :=
  {| BaseDN := base; Scope := ScopeWholeSubtree; Filter := filter; ReqAttributes := attrs |}.
Definition NewBaseObjectSearchRequest (base filter : string) (attrs : list string) : SearchRequest :=
  {| BaseDN := base; Scope := ScopeBaseObject; Filter := filter; ReqAttributes := attrs |}.

(** [v3.LdapConfig], the fields this file reads. *)
Record LdapConfig := {
  Enabled : bool;
  AccessMode : string;
  AllowedPrincipalIDs : list string;
  ServiceAccountDistinguishedName : string;
  ServiceAccountPassword : string;
  SearchUsingServiceAccount : bool;
  UserSearchBase : string;
  UserObjectClass : string;
  UserLoginAttribute : string;
  UserNameAttribute : string;
  UserMemberAttribute : string;
  UserSearchAttribute : string;
  UserLoginFilter : string;
  UserSearchFilter : string;
  UserEnabledAttribute : string;
  UserDisabledBitMask : Z;
  GroupSearchBase : string;
  GroupObjectClass : string;
  GroupNameAttribute : string;
  GroupDNAttribute : string;
  GroupMemberUserAttribute : string;
  GroupMemberMappingAttribute : string;
  GroupSearchAttribute : string;
  GroupSearchFilter : string;
  NestedGroupMembershipEnabled : bool;
}.

(** [ldap.ConfigAttributes], built for the nested-group traversal. *)
Record ConfigAttributes := {
  caGroupMemberMappingAttribute : string;
  caGroupNameAttribute : string;
  caGroupObjectClass : string;
  caGroupSearchAttribute : string;
  caObjectClass : string;
  caProviderName : string;
  caUserLoginAttribute : string;
  caUserNameAttribute : string;
  caUserObjectClass : string;
}.

(** [BasicLogin] credentials. *)
Record BasicLogin := { Username : string; Password : string }.

(** The provider: its two scope tags and its name. *)
Record ldapProvider := {
  providerName : string;
  userScope : string;
  groupScope : string;
}.

(** Modelled from the spec: the package constants [ObjectClass] and
    [OpenLdapName] are declared outside this file; the spec writes the
    filters as [(objectClass=<class>)] and names the scope tag
    [openldap_group]. *)
Definition ObjectClass : string := "objectClass".
Definition OpenLdapName : string := "openldap".

Definition operationalAttrList : list string := ["1.1"; "+"; "*"].

(** ** The directory connection

    [ldapv3.Client] is an interface; a connection is a state of some
    type [C] and each operation returns its reply with the next state.
    A search returns the pair Go returns: a result pointer that may be
    nil and an error that may be nil. *)

Definition SearchReply : Type := option SearchResult * option error.

Class Client (C : Type) := {
  conn_Bind : string -> string -> C -> option error * C;
  conn_Search : SearchRequest -> C -> SearchReply * C;
  conn_SearchWithPaging : SearchRequest -> Z -> C -> SearchReply * C;
}.

(** What was asked of the connection, in order. *)
Inductive Event :=
| EvBind (dn password : string)
| EvSearch (req : SearchRequest)
| EvSearchWithPaging (req : SearchRequest) (pagingSize : Z)
| EvClose.

Definition is_search (e : Event) : bool :=
  match e with
  | EvSearch _ | EvSearchWithPaging _ _ => true
  | _ => false
  end.

(** ** Computations over a connection

    A computation runs from a connection state and the log of
    operations so far; it returns a value with the next state and log,
    or panics (a nil dereference or an index out of range), or runs out
    of fuel (only loops whose length the directory decides take fuel). *)

Inductive outcome (A : Type) :=
| Ret (a : A)
| Panic
| OutOfFuel.
Arguments Ret {A} a.
Arguments Panic {A}.
Arguments OutOfFuel {A}.

Definition World (C : Type) : Type := C * list Event.

Definition M (C A : Type) : Type := World C -> outcome (A * World C).

Definition ret {C A} (a : A) : M C A := fun w => Ret (a, w).

Definition bind {C A B} (m : M C A) (k : A -> M C B) : M C B :=
  fun w => match m w with
           | Ret (a, w') => k a w'
           | Panic => Panic
           | OutOfFuel => OutOfFuel
           end.

Definition panic {C A} : M C A := fun _ => Panic.
Definition out_of_fuel {C A} : M C A := fun _ => OutOfFuel.

Notation "'let*' x := m 'in' k" := (bind m (fun x => k))
  (at level 10, x pattern, m at level 100, k at level 200, only parsing).

(** [s[i]] on a slice: a panic when out of range. *)
Definition index {C A} (l : list A) (i : nat) : M C A :=
  match nth_error l i with
  | Some a => ret a
  | None => panic
  end.

(** Dereferencing a pointer that may be nil. *)
Definition deref {C A} (p : option A) : M C A :=
  match p with
  | Some a => ret a
  | None => panic
  end.

Section Connection.
Context {C : Type} `{!Client C}.

Definition Bind (dn password : string) : M C (option error) :=
  fun '(c, log) =>
    let '(err, c') := conn_Bind dn password c in
    Ret (err, (c', log ++ [EvBind dn password])).

Definition SearchConn (req : SearchRequest) : M C SearchReply :=
  fun '(c, log) =>
    let '(r, c') := conn_Search req c in
    Ret (r, (c', log ++ [EvSearch req])).

Definition SearchWithPaging (req : SearchRequest) (pagingSize : Z) : M C SearchReply :=
  fun '(c, log) =>
    let '(r, c') := conn_SearchWithPaging req pagingSize c in
    Ret (r, (c', log ++ [EvSearchWithPaging req pagingSize])).

End Connection.

(** ** Collaborators outside this file

    Functions of the shared LDAP helper package, of the configuration
    type, of the user manager and of the go-ldap and Go libraries that
    this file calls and that are declared elsewhere.  They are
    parameters of the development: every theorem holds for each
    implementation of them. *)

Class Helpers := {
  SanitizeAttr : string -> string;
  GetUserExternalID : string -> string -> string;
  IsType : list EntryAttribute -> string -> bool;
  HasPermission : list EntryAttribute -> string -> string -> Z -> bool;
  AttributesToPrincipal :
    list EntryAttribute -> string -> string -> string ->
    string -> string -> string -> string -> string ->
    option Principal * option error;
  GetAttributeValuesByName : list EntryAttribute -> string -> list string;
  FindNonDuplicateBetweenGroupPrincipals :
    list Principal -> list Principal -> list Principal -> list Principal;
  GetUserSearchAttributes : LdapConfig -> string -> list string;
  GetGroupSearchAttributes : LdapConfig -> string -> list string;
  CompileFilter : string -> option error;
  ParseDN : string -> list (list (string * string)) + error;
  IsErrorWithCode : error -> Z -> bool;
  EqualFold : string -> string -> bool;
  samlSearchProvider : ldapProvider -> bool;
  CheckAccess :
    string -> list string -> string -> list Principal -> bool * option error;
}.

(** The collaborators that use the connection.  [GatherParentGroups]
    takes the visited map and the list of nested groups and returns
    them as it leaves them (Go passes a map and a pointer to a slice). *)
Class Collaborators (C : Type) := {
  CertPool : Type;
  Connect : LdapConfig -> CertPool -> option C * option error;
  AuthenticateServiceAccountUser : string -> string -> string -> M C (option error);
  GatherParentGroups :
    Principal -> string -> string -> ConfigAttributes ->
    gmap string bool -> list Principal -> list string ->
    M C (option error * gmap string bool * list Principal);
}.

(** [s[lo:hi]] for [lo <= hi <= len(s)]. *)
Definition slice {A} (l : list A) (lo hi : nat) : list A :=
  firstn (hi - lo) (skipn lo l).

Section Provider.
Context {C : Type} `{!Client C} `{!Helpers} `{!Collaborators C}.

Definition permissionCheck (attributes : list EntryAttribute) (config : LdapConfig) : bool :=
  HasPermission attributes (UserObjectClass config)
    (UserEnabledAttribute config) (UserDisabledBitMask config).

(** *** searchLdap *)

(** The external id of a result entry (lines 480-495). *)
Definition externalIDOf (p : ldapProvider) (entityType : string)
    (config : LdapConfig) (entry : Entry) : string :=
  if samlSearchProvider p then
    if EqualFold "user" entityType then
      match GetAttributeValuesByName (Attributes entry) (UserLoginAttribute config) with
      | v :: _ => v
      | [] => DN entry
      end
    else
      match GetAttributeValuesByName (Attributes entry) (GroupDNAttribute config) with
      | v :: _ => v
      | [] => DN entry
      end
  else DN entry.

(** The loop over the result entries (lines 479-511). *)
Fixpoint searchLdap_entries (p : ldapProvider) (scope entityType : string)
    (config : LdapConfig) (entries : list Entry) (principals : list Principal)
  : M C (list Principal * option error) :=
  match entries with
  | [] => ret (principals, None)
  | entry :: rest =>
      let '(principal, err) :=
        AttributesToPrincipal (Attributes entry)
          (externalIDOf p entityType config entry) scope (providerName p)
          (UserObjectClass config) (UserNameAttribute config)
          (UserLoginAttribute config) (GroupObjectClass config)
          (GroupNameAttribute config) in
      match err with
      | Some e => ret ([], Some e)
      | None =>
          let* pr := deref principal in
          searchLdap_entries p scope entityType config rest (principals ++ [pr])
      end
  end.

(** The request [searchLdap] builds (lines 445-462). *)
Definition searchLdap_request (query entityType : string) (config : LdapConfig) : SearchRequest :=
  let searchDomain := UserSearchBase config in
  if EqualFold "user" entityType then
    NewWholeSubtreeSearchRequest searchDomain query
      (GetUserSearchAttributes config ObjectClass)
  else
    let searchDomain :=
      if negb (Str.eqb (GroupSearchBase config) "") then GroupSearchBase config
      else searchDomain in
    NewWholeSubtreeSearchRequest searchDomain query
      (GetGroupSearchAttributes config ObjectClass).

(** Whether the search error is returned to the caller (line 474):
    the error value is a directory error and its code is not
    "no such object". *)
Definition search_error_returned (err : error) : bool :=
  match as_ldap_error err with
  | Some code => negb (code =? LDAPResultNoSuchObject)
  | None => false
  end.

Definition searchLdap (p : ldapProvider) (query scope : string) (config : LdapConfig)
  : M C (list Principal * option error) :=
  let* entityType := index (Str.Split scope "_"%char) 1 in
  let search := searchLdap_request query entityType config in
  let serviceAccountUsername :=
    GetUserExternalID (ServiceAccountDistinguishedName config) "" in
  let* err := Bind serviceAccountUsername (ServiceAccountPassword config) in
  match err with
  | Some e => ret ([], Some (WrapError "ldap: error binding service account: " e))
  | None =>
      let* (results, err) := SearchWithPaging search 1000 in
      match err with
      | Some e =>
          if search_error_returned e then
            ret ([], Some (WrapError
              (Str.Sprintf "ldap: error searching for query %s:, error: " [query]) e))
          else
            let* results := deref results in
            searchLdap_entries p scope entityType config (Entries results) []
      | None =>
          let* results := deref results in
          searchLdap_entries p scope entityType config (Entries results) []
      end
  end.

(** *** getPrincipalsFromSearchResult *)

(** The filter of one batch of group DNs (lines 160-166). *)
Definition batchQuery (config : LdapConfig) (batchGroupDN : list string) : string :=
  let filter := Str.Sprintf "(%s=%s)" [ObjectClass; SanitizeAttr (GroupObjectClass config)] in
  let query :=
    fold_left
      (fun query gdn =>
         query +:+ Str.Sprintf "(%s=%s)" [GroupDNAttribute config; Filter.EscapeFilter gdn])
      batchGroupDN "(|" in
  let query := query +:+ ")" in
  Str.Sprintf "(&%s%s)" [filter; query].

(** The loop over the forward-membership DNs, fifty at a time
    (lines 158-174): [i] is the loop index, [groupPrincipals] the
    list accumulated so far.  Each iteration takes one unit of fuel. *)
Fixpoint forwardBatches (fuel : nat) (p : ldapProvider) (config : LdapConfig)
    (userMemberAttribute : list string) (i : nat) (groupPrincipals : list Principal)
  : M C (list Principal * option error) :=
  if (i <? length userMemberAttribute)%nat then
    match fuel with
    | O => out_of_fuel
    | S fuel' =>
        let batchGroupDN :=
          slice userMemberAttribute i (Nat.min (i + 50) (length userMemberAttribute)) in
        let* (userMemberGroupPrincipals, err) :=
          searchLdap p (batchQuery config batchGroupDN) (groupScope p) config in
        let groupPrincipals := groupPrincipals ++ userMemberGroupPrincipals in
        match err with
        | Some e => ret (groupPrincipals, Some e)
        | None =>
            forwardBatches fuel' p config userMemberAttribute (i + 50) groupPrincipals
        end
    end
  else ret (groupPrincipals, None).

(** The scan of the operational attributes (lines 178-183): the
    values of the first attribute of that name. *)
Fixpoint scanAttribute (attrs : list EntryAttribute) (name : string)
    (current : list string) : list string :=
  match attrs with
  | [] => current
  | attr :: r =>
      if Str.eqb (AttrName attr) name then Values attr
      else scanAttribute r name current
  end.

(** The reverse-membership query of lines 187-193 and 210-216. *)
Definition memberQuery (config : LdapConfig) (value : string) : string :=
  Str.Sprintf "(&(%s=%s)(%s=%s))"
    [SanitizeAttr (GroupMemberMappingAttribute config);
     Filter.EscapeFilter value;
     ObjectClass;
     SanitizeAttr (GroupObjectClass config)].

(** Where lines 125-224 leave the function: it has returned, or it
    goes on to the nested-group step with these variables. *)
Inductive Resolved :=
| Returned (r : Principal * list Principal * option error)
| Groups (userPrincipal : Principal) (groupPrincipals : list Principal)
    (freeipaNonEntrydnApproach : bool).

(** Lines 176-224: reverse membership and the fallback query. *)
Definition reverseGroups (p : ldapProvider) (entry : Entry) (opResult : SearchResult)
    (config : LdapConfig) (userPrincipal : Principal) (groupPrincipals : list Principal)
  : M C Resolved :=
  let userDN := DN entry in
  let groupMemberUserAttribute :=
    GetAttributeValues (Attributes entry) (GroupMemberUserAttribute config) in
  let* groupMemberUserAttribute :=
    if (length groupMemberUserAttribute =? 0)%nat then
      let* op := index (Entries opResult) 0 in
      ret (scanAttribute (Attributes op) (GroupMemberUserAttribute config)
             groupMemberUserAttribute)
    else ret groupMemberUserAttribute in
  let* (groupPrincipals, err) :=
    match groupMemberUserAttribute with
    | first :: _ =>
        let* (newGroupPrincipals, err) :=
          searchLdap p (memberQuery config first) (groupScope p) config in
        let nonDupGroupPrincipals :=
          FindNonDuplicateBetweenGroupPrincipals newGroupPrincipals groupPrincipals [] in
        ret (groupPrincipals ++ nonDupGroupPrincipals, err)
    | [] => ret (groupPrincipals, None)
    end in
  match err with
  | Some e => ret (Returned (userPrincipal, groupPrincipals, Some e))
  | None =>
      if (length groupPrincipals =? 0)%nat then
        let* (groupPrincipals, err) :=
          searchLdap p (memberQuery config userDN) (groupScope p) config in
        match err with
        | Some e => ret (Returned (userPrincipal, groupPrincipals, Some e))
        | None => ret (Groups userPrincipal groupPrincipals true)
        end
      else ret (Groups userPrincipal groupPrincipals false)
  end.

(** Lines 125-224: the user principal and the groups found by the
    forward, reverse and fallback queries. *)
Definition directGroups (p : ldapProvider) (result opResult : SearchResult)
    (config : LdapConfig) : M C Resolved :=
  let* entry := index (Entries result) 0 in
  let userAttributes := Attributes entry in
  if negb (permissionCheck userAttributes config) then
    ret (Returned (Principal_zero, [], Some (PlainError "permission denied")))
  else
    let userMemberAttribute :=
      GetAttributeValues (Attributes entry) (UserMemberAttribute config) in
    let* userMemberAttribute :=
      if (length userMemberAttribute =? 0)%nat then
        let* op := index (Entries opResult) 0 in
        ret (GetAttributeValues (Attributes op) (UserMemberAttribute config))
      else ret userMemberAttribute in
    if negb (IsType userAttributes (UserObjectClass config)) then
      ret (Returned (Principal_zero, [], None))
    else
      let '(user, err) :=
        AttributesToPrincipal (Attributes entry) (DN entry) (userScope p)
          (providerName p) (UserObjectClass config) (UserNameAttribute config)
          (UserLoginAttribute config) (GroupObjectClass config)
          (GroupNameAttribute config) in
      match err with
      | Some e => ret (Returned (Principal_zero, [], Some e))
      | None =>
          let* userPrincipal := deref user in
          let* (groupPrincipals, err) :=
            forwardBatches (length userMemberAttribute) p config
              userMemberAttribute 0 [] in
          match err with
          | Some e => ret (Returned (userPrincipal, groupPrincipals, Some e))
          | None => reverseGroups p entry opResult config userPrincipal groupPrincipals
          end
      end.

(** The loop over the groups found (lines 247-252): it stops at the
    first traversal error. *)
Fixpoint gatherLoop (groupPrincipals : list Principal) (searchDomain groupScope : string)
    (commonConfig : ConfigAttributes) (groupMap : gmap string bool)
    (nestedGroupPrincipals : list Principal) (searchAttributes : list string)
  : M C (option error * gmap string bool * list Principal) :=
  match groupPrincipals with
  | [] => ret (None, groupMap, nestedGroupPrincipals)
  | groupPrincipal :: rest =>
      let* (err, groupMap, nestedGroupPrincipals) :=
        GatherParentGroups groupPrincipal searchDomain groupScope commonConfig
          groupMap nestedGroupPrincipals searchAttributes in
      match err with
      | Some e => ret (Some e, groupMap, nestedGroupPrincipals)
      | None =>
          gatherLoop rest searchDomain groupScope commonConfig
            groupMap nestedGroupPrincipals searchAttributes
      end
  end.

(** The condition of line 226. *)
Definition traversalEnabled (p : ldapProvider) (config : LdapConfig)
    (freeipaNonEntrydnApproach : bool) : bool :=
  (NestedGroupMembershipEnabled config && Str.eqb (groupScope p) "openldap_group")
  || freeipaNonEntrydnApproach.

Definition nestedSearchDomain (config : LdapConfig) : string :=
  if negb (Str.eqb (GroupSearchBase config) "") then GroupSearchBase config
  else UserSearchBase config.

Definition nestedCommonConfig (config : LdapConfig) : ConfigAttributes :=
  {| caGroupMemberMappingAttribute := GroupMemberMappingAttribute config;
     caGroupNameAttribute := GroupNameAttribute config;
     caGroupObjectClass := GroupObjectClass config;
     caGroupSearchAttribute := GroupSearchAttribute config;
     caObjectClass := ObjectClass;
     caProviderName := OpenLdapName;
     caUserLoginAttribute := UserLoginAttribute config;
     caUserNameAttribute := UserNameAttribute config;
     caUserObjectClass := UserObjectClass config |}.

Definition nestedSearchAttributes (config : LdapConfig) : list string :=
  [GroupMemberUserAttribute config; GroupMemberMappingAttribute config;
   ObjectClass; GroupObjectClass config; UserLoginAttribute config;
   GroupNameAttribute config; GroupSearchAttribute config].

(** Lines 226-257: the nested-group step. *)
Definition nestedGroups (p : ldapProvider) (config : LdapConfig)
    (userPrincipal : Principal) (groupPrincipals : list Principal)
    (freeipaNonEntrydnApproach : bool)
  : M C (Principal * list Principal * option error) :=
  if traversalEnabled p config freeipaNonEntrydnApproach then
    let* (err, groupMap, nestedGroupPrincipals) :=
      gatherLoop groupPrincipals (nestedSearchDomain config) (groupScope p)
        (nestedCommonConfig config) ∅ [] (nestedSearchAttributes config) in
    match err with
    | Some _ => ret (userPrincipal, groupPrincipals, None)
    | None =>
        let nonDupGroupPrincipals :=
          FindNonDuplicateBetweenGroupPrincipals nestedGroupPrincipals groupPrincipals [] in
        ret (userPrincipal, groupPrincipals ++ nonDupGroupPrincipals, None)
    end
  else ret (userPrincipal, groupPrincipals, None).

Definition getPrincipalsFromSearchResult (p : ldapProvider)
    (result opResult : SearchResult) (config : LdapConfig)
  : M C (Principal * list Principal * option error) :=
  let* r := directGroups p result opResult config in
  match r with
  | Returned r => ret r
  | Groups userPrincipal groupPrincipals freeipaNonEntrydnApproach =>
      nestedGroups p config userPrincipal groupPrincipals freeipaNonEntrydnApproach
  end.

(** *** loginUser *)

(** The login search filter (lines 40-47). *)
Definition loginFilter (credentials : BasicLogin) (config : LdapConfig) : string :=
  Str.Sprintf "(&(%s=%s)(%s=%s)%s)"
    [ObjectClass;
     SanitizeAttr (UserObjectClass config);
     SanitizeAttr (UserLoginAttribute config);
     Filter.EscapeFilter (Username credentials);
     UserLoginFilter config].

Definition loginSearchRequest (credentials : BasicLogin) (config : LdapConfig) : SearchRequest :=
  NewWholeSubtreeSearchRequest (UserSearchBase config)
    (loginFilter credentials config) (GetUserSearchAttributes config ObjectClass).

(** Lines 55-62: the error of the user search, or the one made up
    for zero entries or for more than one. *)
Definition loginSearchError (searchRequest : SearchRequest) (reply : SearchReply)
  : M C (option error) :=
  match snd reply with
  | Some e => ret (Some e)
  | None =>
      let* result := deref (fst reply) in
      let nEntries := length (Entries result) in
      if (nEntries <? 1)%nat then
        ret (Some (PlainError
          (Str.Sprintf "cannot locate user information for %s" [Filter searchRequest])))
      else if (1 <? nEntries)%nat then
        ret (Some (PlainError "ldap user search found more than one result"))
      else ret None
  end.

Definition failed (err : error) : Principal * list Principal * option error :=
  (Principal_zero, [], Some err).

(** Lines 67-112: from the bind as the user to the access check. *)
Definition loginFound (p : ldapProvider) (credentials : BasicLogin)
    (config : LdapConfig) (result : SearchResult)
  : M C (Principal * list Principal * option error) :=
  let* first := index (Entries result) 0 in
  let userDN := DN first in
  let* err := Bind userDN (Password credentials) in
  match err with
  | Some e =>
      if IsErrorWithCode e LDAPResultInvalidCredentials then
        ret (failed (WrapAPIError (Some e) Unauthorized "Unauthorized"))
      else
        ret (failed (WrapAPIError (Some e) ServerError "server error while authenticating"))
  | None =>
      let* err :=
        if SearchUsingServiceAccount config then
          AuthenticateServiceAccountUser (ServiceAccountPassword config)
            (ServiceAccountDistinguishedName config) ""
        else ret None in
      match err with
      | Some e => ret (failed (WrapAPIError (Some e) Unauthorized "authentication failed"))
      | None =>
          let searchOpRequest :=
            NewWholeSubtreeSearchRequest userDN
              (Str.Sprintf "(%s=%s)" [ObjectClass; SanitizeAttr (UserObjectClass config)])
              operationalAttrList in
          let* (opResult, err) := SearchConn searchOpRequest in
          match err with
          | Some e => ret (failed (WrapAPIError (Some e) Unauthorized "authentication failed"))
          | None =>
              let* opResult := deref opResult in
              if (length (Entries opResult) <? 1)%nat then
                ret (failed (WrapAPIError None Unauthorized
                  ("Cannot locate user information for " +:+ Filter searchOpRequest)))
              else
                let* (userPrincipal, groupPrincipals, err) :=
                  getPrincipalsFromSearchResult p result opResult config in
                match err with
                | Some e => ret (failed e)
                | None =>
                    let '(allowed, err) :=
                      CheckAccess (AccessMode config) (AllowedPrincipalIDs config)
                        (Name userPrincipal) groupPrincipals in
                    match err with
                    | Some e => ret (failed e)
                    | None =>
                        if negb allowed then
                          ret (failed (NewAPIError PermissionDenied "Permission denied"))
                        else ret (userPrincipal, groupPrincipals, None)
                    end
                end
          end
      end
  end.

Definition loginUser (p : ldapProvider) (credentials : BasicLogin) (config : LdapConfig)
  : M C (Principal * list Principal * option error) :=
  if Str.eqb (Password credentials) "" then
    ret (failed (NewAPIError MissingRequired "password not provided"))
  else
    let* err :=
      AuthenticateServiceAccountUser (ServiceAccountPassword config)
        (ServiceAccountDistinguishedName config) "" in
    match err with
    | Some e => ret (failed e)
    | None =>
        let invalid :=
          if negb (Str.eqb (UserLoginFilter config) "") then
            CompileFilter (UserLoginFilter config)
          else None in
        match invalid with
        | Some e => ret (failed (WrapAPIError (Some e) InvalidOption "invalid userLoginFilter"))
        | None =>
            let searchRequest := loginSearchRequest credentials config in
            let* reply := SearchConn searchRequest in
            let* err := loginSearchError searchRequest reply in
            match err with
            | Some e => ret (failed (WrapAPIError (Some e) Unauthorized "Unauthorized"))
            | None =>
                let* result := deref (fst reply) in
                loginFound p credentials config result
            end
        end
    end.

(** *** getPrincipal *)

(** Lines 273-278: one attribute per type-and-value pair of the DN. *)
Definition dnAttributes (rdns : list (list (string * string))) : list EntryAttribute :=
  flat_map (fun rdn => map (fun tv => {| AttrName := fst tv; Values := [snd tv] |}) rdn) rdns.

Definition objectClassFilter (entityType : string) (config : LdapConfig) : string :=
  if EqualFold "user" entityType then
    Str.Sprintf "(%s=%s)" [ObjectClass; SanitizeAttr (UserObjectClass config)]
  else
    Str.Sprintf "(%s=%s)" [ObjectClass; SanitizeAttr (GroupObjectClass config)].

(** Lines 306-317: the principal formed from the DN alone. *)
Definition principalFromDN (distinguishedName scope entityType : string) : Principal :=
  let kind :=
    if EqualFold "user" entityType then "user"
    else if EqualFold "group" entityType then "group"
    else "" in
  {| Name := scope +:+ "://" +:+ distinguishedName;
     DisplayName := distinguishedName;
     LoginName := distinguishedName;
     PrincipalType := kind |}.

(** Lines 299-362, on the connection just opened. *)
Definition getPrincipal_connected (p : ldapProvider)
    (distinguishedName scope entityType : string) (config : LdapConfig)
  : M C (option Principal * option error) :=
  let filter := objectClassFilter entityType config in
  let serviceAccountUsername :=
    GetUserExternalID (ServiceAccountDistinguishedName config) "" in
  let* err := Bind serviceAccountUsername (ServiceAccountPassword config) in
  match err with
  | Some e =>
      if IsErrorWithCode e LDAPResultInvalidCredentials && Enabled config then
        ret (Some (principalFromDN distinguishedName scope entityType), None)
      else ret (None, Some (WrapError "Error in ldap bind: " e))
  | None =>
      let attrs :=
        if EqualFold "user" entityType then GetUserSearchAttributes config ObjectClass
        else GetGroupSearchAttributes config ObjectClass in
      let search := NewBaseObjectSearchRequest distinguishedName filter attrs in
      let* (result, err) := SearchConn search in
      match err with
      | Some e =>
          match as_ldap_error e with
          | Some 32 =>
              ret (None, Some (NewAPIError NotFound
                (Str.Sprintf "%s not found" [distinguishedName])))
          | _ =>
              ret (None, Some (WrapAPIError
                (Some (WrapError
                   (Str.Sprintf "server returned error for search %s %s: "
                      [BaseDN search; filter]) e))
                ServerError "Internal server error"))
          end
      | None =>
          let* result := deref result in
          match Entries result with
          | [] => ret (None, Some (PlainError "no identities can be retrieved"))
          | [entry] =>
              if negb (permissionCheck (Attributes entry) config) then
                ret (None, Some (PlainError "permission denied"))
              else
                let '(principal, err) :=
                  AttributesToPrincipal (Attributes entry) distinguishedName scope
                    (providerName p) (UserObjectClass config) (UserNameAttribute config)
                    (UserLoginAttribute config) (GroupObjectClass config)
                    (GroupNameAttribute config) in
                match err with
                | Some e => ret (None, Some e)
                | None => ret (principal, None)
                end
          | _ => ret (None, Some (PlainError "more than one result found"))
          end
      end
  end.

(** [getPrincipal] opens its own connection and closes it on the way
    out; the result comes with the log of what it asked of it. *)
Definition getPrincipal (p : ldapProvider) (distinguishedName scope : string)
    (config : LdapConfig) (caPool : CertPool)
  : outcome ((option Principal * option error) * list Event) :=
  if negb (Str.eqb scope (userScope p)) && negb (Str.eqb scope (groupScope p)) then
    Ret ((None, Some (PlainError "invalid scope")), [])
  else
    match ParseDN distinguishedName with
    | inr e => Ret ((None, Some e), [])
    | inl rdns =>
        let attribs := dnAttributes rdns in
        if negb (IsType attribs scope) && negb (permissionCheck attribs config) then
          Ret ((None, None), [])
        else
          match nth_error (Str.Split scope "_"%char) 1 with
          | None => Panic
          | Some entityType =>
              let '(lConn, err) := Connect config caPool in
              match err with
              | Some e => Ret ((None, Some e), [])
              | None =>
                  match lConn with
                  | None => Panic
                  | Some c =>
                      match getPrincipal_connected p distinguishedName scope
                              entityType config (c, []) with
                      | Ret (r, (_, log)) => Ret (r, log ++ [EvClose])
                      | Panic => Panic
                      | OutOfFuel => OutOfFuel
                      end
                  end
              end
          end
    end.

(** *** searchUser, searchGroup, searchPrincipals *)

(** One clause of the user query (lines 400-405). *)
Definition userClause (name attr : string) : string :=
  if Str.eqb attr "uidNumber" then
    Str.Sprintf "(%s=%s)" [Filter.EscapeFilter attr; Filter.EscapeFilter name]
  else
    Str.Sprintf "(%s=%s*)" [Filter.EscapeFilter attr; Filter.EscapeFilter name].

(** The query of [searchUser] (lines 396-409). *)
Definition searchUser_query (name : string) (config : LdapConfig) : string :=
  let srchAttributes := Str.Split (UserSearchAttribute config) "|"%char in
  let query := Str.Sprintf "(&(%s=%s)" [ObjectClass; SanitizeAttr (UserObjectClass config)] in
  let srchAttrs :=
    fold_left (fun srchAttrs attr => srchAttrs +:+ userClause name attr)
      srchAttributes "(|" in
  query +:+ (srchAttrs +:+ ")" +:+ UserSearchFilter config +:+ ")").

Definition searchUser (p : ldapProvider) (name : string) (config : LdapConfig)
  : M C (list Principal * option error) :=
  let invalid :=
    if negb (Str.eqb (UserSearchFilter config) "") then
      CompileFilter (UserSearchFilter config)
    else None in
  match invalid with
  | Some _ => ret ([], Some (PlainError "invalid user search filter"))
  | None => searchLdap p (searchUser_query name config) (userScope p) config
  end.

(** The format of the group clause (lines 423-427). *)
Definition searchFmt (config : LdapConfig) : string :=
  if Str.eqb (GroupSearchAttribute config) "gidNumber" then
    SanitizeAttr (GroupSearchAttribute config) +:+ "=%s"
  else SanitizeAttr (GroupSearchAttribute config) +:+ "=*%s*".

(** The query of [searchGroup] (lines 429-435). *)
Definition searchGroup_query (name : string) (config : LdapConfig) : string :=
  Str.Sprintf "(&(%s=%s)(%s)%s)"
    [ObjectClass;
     SanitizeAttr (GroupObjectClass config);
     Str.Sprintf (searchFmt config) [Filter.EscapeFilter name];
     GroupSearchFilter config].

Definition searchGroup (p : ldapProvider) (name : string) (config : LdapConfig)
  : M C (list Principal * option error) :=
  let invalid :=
    if negb (Str.eqb (GroupSearchFilter config) "") then
      CompileFilter (GroupSearchFilter config)
    else None in
  match invalid with
  | Some _ => ret ([], Some (PlainError "invalid group search filter"))
  | None => searchLdap p (searchGroup_query name config) (groupScope p) config
  end.

Definition searchPrincipals (p : ldapProvider) (name principalType : string)
    (config : LdapConfig) : M C (list Principal * option error) :=
  let* (principals, err) :=
    if Str.eqb principalType "" || Str.eqb principalType "user" then
      let* (userPrincipals, err) := searchUser p name config in
      match err with
      | Some e => ret ([], Some e)
      | None => ret (userPrincipals, None)
      end
    else ret ([], None) in
  match err with
  | Some e => ret ([], Some e)
  | None =>
      if Str.eqb principalType "" || Str.eqb principalType "group" then
        let* (groupPrincipals, err) := searchGroup p name config in
        match err with
        | Some e => ret ([], Some e)
        | None => ret (principals ++ groupPrincipals, None)
        end
      else ret (principals, None)
  end.

End Provider.

(** * Query building *)

Section Queries.
Context `{!Helpers}.

(** The spec's reading of the group query: the same prefix match
    [attr=name*] as the user clauses, exact for [gidNumber]. *)
Definition searchGroup_query_prefix (name : string) (config : LdapConfig) : string :=
  "(&(objectClass=" +:+ SanitizeAttr (GroupObjectClass config) +:+ ")("
    +:+ SanitizeAttr (GroupSearchAttribute config) +:+ "="
    +:+ Filter.EscapeFilter name
    +:+ (if Str.eqb (GroupSearchAttribute config) "gidNumber" then "" else "*")
    +:+ ")" +:+ GroupSearchFilter config +:+ ")".

Lemma loginFilter_eq credentials config :
  loginFilter credentials config
  = "(&(objectClass=" +:+ SanitizeAttr (UserObjectClass config) +:+ ")("
      +:+ SanitizeAttr (UserLoginAttribute config) +:+ "="
      +:+ Filter.EscapeFilter (Username credentials) +:+ ")"
      +:+ UserLoginFilter config +:+ ")".
Proof. reflexivity. Qed.

(** C9.  The login filter of [loginUser] is fixed text from the
    configuration around the escaped user name: the user name enters
    the filter only as [EscapeFilter (Username credentials)], no byte
    of which is an unescaped parenthesis or asterisk or a NUL, and
    which reads back as a plain literal to the user name itself; this
    is the filter of the search request [loginUser] issues. *)
Theorem loginUser_filter_escapes_username (credentials : BasicLogin) (config : LdapConfig) :
  Filter (loginSearchRequest credentials config)
  = "(&(objectClass=" +:+ SanitizeAttr (UserObjectClass config) +:+ ")("
      +:+ SanitizeAttr (UserLoginAttribute config) +:+ "="
      +:+ Filter.EscapeFilter (Username credentials) +:+ ")"
      +:+ UserLoginFilter config +:+ ")"
  /\ (forall c, In c (Str.bytes (Filter.EscapeFilter (Username credentials))) ->
                Filter.is_meta c = false /\ c <> "000"%char)
  /\ Filter.literal_value (Filter.EscapeFilter (Username credentials))
     = Some (Username credentials).
Proof.
  split; [apply loginFilter_eq|].
  split; [intros c; apply Filter.EscapeFilter_no_meta|].
  apply Filter.literal_value_EscapeFilter.
Qed.

Lemma fold_left_append (f : string -> string) (l : list string) (acc : string) :
  fold_left (fun a x => a +:+ f x) l acc = acc +:+ Str.concat (map f l).
Proof.
  revert acc; induction l as [|x l IH]; intros acc; simpl.
  - by rewrite Str.append_nil_r.
  - by rewrite IH, Str.append_assoc.
Qed.

Lemma userClause_eq name attr :
  userClause name attr
  = "(" +:+ Filter.EscapeFilter attr +:+ "=" +:+ Filter.EscapeFilter name
      +:+ (if Str.eqb attr "uidNumber" then ")" else "*)").
Proof. unfold userClause. destruct (Str.eqb attr "uidNumber"); reflexivity. Qed.

Lemma searchUser_query_eq name config :
  searchUser_query name config
  = "(&(objectClass=" +:+ SanitizeAttr (UserObjectClass config) +:+ ")"
      +:+ "(|"
      +:+ Str.concat (map (userClause name) (Str.Split (UserSearchAttribute config) "|"%char))
      +:+ ")" +:+ UserSearchFilter config +:+ ")".
Proof.
  unfold searchUser_query. rewrite fold_left_append.
  cbn. rewrite !Str.append_assoc. cbn. reflexivity.
Qed.

Lemma searchGroup_query_eq name config :
  Str.percent_free (SanitizeAttr (GroupSearchAttribute config)) = true ->
  searchGroup_query name config
  = "(&(objectClass=" +:+ SanitizeAttr (GroupObjectClass config) +:+ ")("
      +:+ SanitizeAttr (GroupSearchAttribute config)
      +:+ (if Str.eqb (GroupSearchAttribute config) "gidNumber"
           then "=" +:+ Filter.EscapeFilter name
           else "=*" +:+ Filter.EscapeFilter name +:+ "*")
      +:+ ")" +:+ GroupSearchFilter config +:+ ")".
Proof.
  intros Hfree. unfold searchGroup_query, searchFmt.
  destruct (Str.eqb (GroupSearchAttribute config) "gidNumber");
    rewrite (Str.Sprintf_literal_prefix _ _ _ Hfree); cbn;
    repeat (progress (rewrite ?Str.append_nil_r, ?Str.append_assoc; cbn));
    reflexivity.
Qed.

(** C5 (as amended).  The user query ORs one clause per attribute of
    the pipe-delimited list, a prefix match [attr=name*], exact for
    [uidNumber]; the group query, for a sanitised attribute name free
    of percent signs, is a contains match [attr=*name*] on the one
    configured attribute, exact for [gidNumber]. *)
Theorem search_queries_shape (name : string) (config : LdapConfig) :
  Str.percent_free (SanitizeAttr (GroupSearchAttribute config)) = true ->
  searchUser_query name config
  = "(&(objectClass=" +:+ SanitizeAttr (UserObjectClass config) +:+ ")"
      +:+ "(|"
      +:+ Str.concat
            (map (fun attr =>
                    "(" +:+ Filter.EscapeFilter attr +:+ "=" +:+ Filter.EscapeFilter name
                      +:+ (if Str.eqb attr "uidNumber" then ")" else "*)"))
                 (Str.Split (UserSearchAttribute config) "|"%char))
      +:+ ")" +:+ UserSearchFilter config +:+ ")"
  /\ searchGroup_query name config
     = "(&(objectClass=" +:+ SanitizeAttr (GroupObjectClass config) +:+ ")("
         +:+ SanitizeAttr (GroupSearchAttribute config)
         +:+ (if Str.eqb (GroupSearchAttribute config) "gidNumber"
              then "=" +:+ Filter.EscapeFilter name
              else "=*" +:+ Filter.EscapeFilter name +:+ "*")
         +:+ ")" +:+ GroupSearchFilter config +:+ ")".
Proof.
  intros Hfree. split; [|by apply searchGroup_query_eq].
  rewrite searchUser_query_eq. do 2 f_equal.
  rewrite (map_ext _ _ (userClause_eq name)). reflexivity.
Qed.

End Queries.

(** * Running computations *)

Lemma bind_Ret {C A B} (m : M C A) (k : A -> M C B) w a w' :
  m w = Ret (a, w') -> bind m k w = k a w'.
Proof. unfold bind. by intros ->. Qed.

Lemma bind_ret_l {C A B} (a : A) (k : A -> M C B) w : bind (ret a) k w = k a w.
Proof. reflexivity. Qed.

Lemma bind_inv {C A B} (m : M C A) (k : A -> M C B) w r :
  bind m k w = Ret r -> exists a w', m w = Ret (a, w') /\ k a w' = Ret r.
Proof.
  unfold bind. destruct (m w) as [[a w']| |]; try discriminate. eauto.
Qed.

Lemma Bind_run {C} `{!Client C} dn pw (c : C) log err c' :
  conn_Bind dn pw c = (err, c') ->
  Bind dn pw (c, log) = Ret (err, (c', log ++ [EvBind dn pw])).
Proof. unfold Bind. by intros ->. Qed.

Lemma SearchConn_run {C} `{!Client C} req (c : C) log r c' :
  conn_Search req c = (r, c') ->
  SearchConn req (c, log) = Ret (r, (c', log ++ [EvSearch req])).
Proof. unfold SearchConn. by intros ->. Qed.

Lemma SearchWithPaging_run {C} `{!Client C} req n (c : C) log r c' :
  conn_SearchWithPaging req n c = (r, c') ->
  SearchWithPaging req n (c, log) = Ret (r, (c', log ++ [EvSearchWithPaging req n])).
Proof. unfold SearchWithPaging. by intros ->. Qed.

(** * loginUser *)

Section Login.
Context {C : Type} `{!Client C} `{!Helpers} `{!Collaborators C}.

(** What [loginUser] does when the configured login filter does not
    compile: it stops at the first guard that fires, and none of them
    is past the filter check. *)
Definition loginUser_invalid_filter (credentials : BasicLogin) (config : LdapConfig)
    (e : error) : M C (Principal * list Principal * option error) :=
  fun w =>
    if Str.eqb (Password credentials) "" then
      Ret (failed (NewAPIError MissingRequired "password not provided"), w)
    else
      match AuthenticateServiceAccountUser (ServiceAccountPassword config)
              (ServiceAccountDistinguishedName config) "" w with
      | Ret (Some e', w1) => Ret (failed e', w1)
      | Ret (None, w1) =>
          Ret (failed (WrapAPIError (Some e) InvalidOption "invalid userLoginFilter"), w1)
      | Panic => Panic
      | OutOfFuel => OutOfFuel
      end.

(** C7 (as amended).  When the configured login filter does not
    compile, [loginUser] returns an error and issues no search of its
    own: with an empty password the error is MissingRequired and the
    connection is untouched; otherwise the service account is
    authenticated and, when that fails, its error is returned; when it
    succeeds the error is InvalidOption wrapping the compile error, and
    the connection and its log are as the authentication left them. *)
Theorem loginUser_rejects_invalid_filter (p : ldapProvider) (credentials : BasicLogin)
    (config : LdapConfig) (e : error) (w : World C) :
  UserLoginFilter config <> "" ->
  CompileFilter (UserLoginFilter config) = Some e ->
  loginUser p credentials config w = loginUser_invalid_filter credentials config e w.
Proof.
  intros Hne Hbad. unfold loginUser, loginUser_invalid_filter.
  destruct (Str.eqb (Password credentials) ""); [reflexivity|].
  unfold bind.
  destruct (AuthenticateServiceAccountUser _ _ _ w) as [[[e'|] w1]| |];
    try reflexivity.
  apply Str.eqb_neq in Hne. rewrite Hne. simpl. rewrite Hbad. reflexivity.
Qed.

(** C6.  When the user search of [loginUser] succeeds with zero
    entries, and when it succeeds with more than one, [loginUser]
    fails with the same API error code and message, Unauthorized. *)
Theorem loginUser_wrong_entry_count_unauthorized (p : ldapProvider)
    (credentials : BasicLogin) (config : LdapConfig)
    (w w1 : World C) (c2 : C) (result : SearchResult) :
  Password credentials <> "" ->
  AuthenticateServiceAccountUser (ServiceAccountPassword config)
    (ServiceAccountDistinguishedName config) "" w = Ret (None, w1) ->
  (UserLoginFilter config = "" \/ CompileFilter (UserLoginFilter config) = None) ->
  conn_Search (loginSearchRequest credentials config) (fst w1)
    = ((Some result, None), c2) ->
  (length (Entries result) = 0 \/ 1 < length (Entries result))%nat ->
  exists cause,
    loginUser p credentials config w
    = Ret ((Principal_zero, [],
             Some (APIError Unauthorized "Unauthorized" (Some cause))),
           (c2, snd w1 ++ [EvSearch (loginSearchRequest credentials config)])).
Proof.
  intros Hpw Hauth Hfilter Hsearch Hn.
  unfold loginUser.
  apply Str.eqb_neq in Hpw. rewrite Hpw.
  rewrite (bind_Ret _ _ _ _ _ Hauth).
  assert ((if negb (Str.eqb (UserLoginFilter config) "")
           then CompileFilter (UserLoginFilter config) else None) = None) as ->.
  { destruct Hfilter as [->| ->]; [reflexivity|].
    by destruct (negb _). }
  destruct w1 as [c1 log1]. simpl in Hsearch.
  rewrite (bind_Ret _ _ _ _ _ (SearchConn_run _ _ _ _ _ Hsearch)).
  unfold loginSearchError, bind; simpl.
  destruct Hn as [H0|H1].
  - rewrite H0. simpl. eauto.
  - destruct (Entries result) as [|x [|y l]]; simpl in H1; try lia.
    simpl. eauto.
Qed.

End Login.

(** * getPrincipal *)

Section GetPrincipal.
Context {C : Type} `{!Client C} `{!Helpers} `{!Collaborators C}.

(** C10.  When [getPrincipal] gets as far as the service-account
    bind, the bind fails with the invalid-credentials code and the
    configuration is enabled, it returns, with a nil error, the
    principal made from the DN alone: id [scope://DN], display name
    and login name the DN.  The connection saw the bind and the close
    and no search. *)
Theorem getPrincipal_invalid_credentials_principal_from_dn (p : ldapProvider)
    (distinguishedName scope entityType : string) (config : LdapConfig)
    (caPool : CertPool) (rdns : list (list (string * string)))
    (c c' : C) (e : error) :
  (scope = userScope p \/ scope = groupScope p) ->
  ParseDN distinguishedName = inl rdns ->
  (IsType (dnAttributes rdns) scope = true
   \/ permissionCheck (dnAttributes rdns) config = true) ->
  nth_error (Str.Split scope "_"%char) 1 = Some entityType ->
  Connect config caPool = (Some c, None) ->
  conn_Bind (GetUserExternalID (ServiceAccountDistinguishedName config) "")
    (ServiceAccountPassword config) c = (Some e, c') ->
  IsErrorWithCode e LDAPResultInvalidCredentials = true ->
  Enabled config = true ->
  exists kind,
    getPrincipal p distinguishedName scope config caPool
    = Ret ((Some {| Name := scope +:+ "://" +:+ distinguishedName;
                    DisplayName := distinguishedName;
                    LoginName := distinguishedName;
                    PrincipalType := kind |}, None),
           [EvBind (GetUserExternalID (ServiceAccountDistinguishedName config) "")
              (ServiceAccountPassword config); EvClose]).
Proof.
  intros Hscope Hdn Hperm Hsplit Hconn Hbind Hcode Hen.
  exists (PrincipalType (principalFromDN distinguishedName scope entityType)).
  unfold getPrincipal.
  assert (negb (Str.eqb scope (userScope p)) && negb (Str.eqb scope (groupScope p))
          = false) as ->.
  { destruct Hscope as [<-|<-]; rewrite Str.eqb_refl; simpl;
      [reflexivity | apply andb_false_r]. }
  rewrite Hdn.
  assert (negb (IsType (dnAttributes rdns) scope)
          && negb (permissionCheck (dnAttributes rdns) config) = false) as ->.
  { destruct Hperm as [-> | ->]; simpl; [reflexivity | apply andb_false_r]. }
  rewrite Hsplit, Hconn.
  unfold getPrincipal_connected.
  rewrite (bind_Ret _ _ _ _ _ (Bind_run _ _ _ _ _ _ Hbind)).
  rewrite Hcode, Hen. reflexivity.
Qed.

End GetPrincipal.

(** * searchLdap *)

Section SearchLdap.
Context {C : Type} `{!Client C} `{!Helpers} `{!Collaborators C}.

(** [searchLdap] after the bind and the paged search. *)
Lemma searchLdap_run (p : ldapProvider) (query scope entityType : string)
    (config : LdapConfig) (c c1 c2 : C) (log : list Event) (reply : SearchReply) :
  let sa := GetUserExternalID (ServiceAccountDistinguishedName config) "" in
  let req := searchLdap_request query entityType config in
  let w2 := (c2, (log ++ [EvBind sa (ServiceAccountPassword config)])
                   ++ [EvSearchWithPaging req 1000]) in
  nth_error (Str.Split scope "_"%char) 1 = Some entityType ->
  conn_Bind sa (ServiceAccountPassword config) c = (None, c1) ->
  conn_SearchWithPaging req 1000 c1 = (reply, c2) ->
  searchLdap p query scope config (c, log)
  = match snd reply with
    | Some e =>
        if search_error_returned e then
          Ret (([], Some (WrapError
                 (Str.Sprintf "ldap: error searching for query %s:, error: " [query]) e)),
               w2)
        else
          match fst reply with
          | Some results =>
              searchLdap_entries p scope entityType config (Entries results) [] w2
          | None => Panic
          end
    | None =>
        match fst reply with
        | Some results =>
            searchLdap_entries p scope entityType config (Entries results) [] w2
        | None => Panic
        end
    end.
Proof.
  intros sa req w2 Hsplit Hbind Hsearch.
  unfold searchLdap, index. rewrite Hsplit. rewrite bind_ret_l.
  rewrite (bind_Ret _ _ _ _ _ (Bind_run _ _ _ _ _ _ Hbind)).
  rewrite (bind_Ret _ _ _ _ _ (SearchWithPaging_run _ _ _ _ _ _ Hsearch)).
  destruct reply as [[results|] [e|]]; simpl;
    try destruct (search_error_returned e); reflexivity.
Qed.

(** A search that fails with "no such object" and brings no entries
    gives the empty list and no error. *)
Lemma searchLdap_no_such_object p query scope entityType config
    (c c1 c2 : C) log results text :
  nth_error (Str.Split scope "_"%char) 1 = Some entityType ->
  conn_Bind (GetUserExternalID (ServiceAccountDistinguishedName config) "")
    (ServiceAccountPassword config) c = (None, c1) ->
  conn_SearchWithPaging (searchLdap_request query entityType config) 1000 c1
    = ((Some results, Some (LdapError LDAPResultNoSuchObject text)), c2) ->
  Entries results = [] ->
  exists w2, searchLdap p query scope config (c, log) = Ret (([], None), w2).
Proof.
  intros Hsplit Hbind Hsearch Hnil.
  rewrite (searchLdap_run _ _ _ _ _ _ _ _ _ _ Hsplit Hbind Hsearch).
  simpl. rewrite Hnil. simpl. eauto.
Qed.

(** A search that fails with a directory error of any other code is
    returned to the caller. *)
Lemma searchLdap_directory_error_returned p query scope entityType config
    (c c1 c2 : C) log results code text :
  nth_error (Str.Split scope "_"%char) 1 = Some entityType ->
  conn_Bind (GetUserExternalID (ServiceAccountDistinguishedName config) "")
    (ServiceAccountPassword config) c = (None, c1) ->
  conn_SearchWithPaging (searchLdap_request query entityType config) 1000 c1
    = ((results, Some (LdapError code text)), c2) ->
  code <> LDAPResultNoSuchObject ->
  exists msg w2,
    searchLdap p query scope config (c, log)
    = Ret (([], Some (WrapError msg (LdapError code text))), w2).
Proof.
  intros Hsplit Hbind Hsearch Hcode.
  rewrite (searchLdap_run _ _ _ _ _ _ _ _ _ _ Hsplit Hbind Hsearch).
  simpl. unfold search_error_returned. simpl.
  apply Z.eqb_neq in Hcode. rewrite Hcode. simpl. eauto.
Qed.

(** A search that fails with an error that is not a directory error
    is not returned: the entries that came with it are mapped as if
    the search had succeeded. *)
Lemma searchLdap_other_error_dropped p query scope entityType config
    (c c1 c2 : C) log results e :
  nth_error (Str.Split scope "_"%char) 1 = Some entityType ->
  conn_Bind (GetUserExternalID (ServiceAccountDistinguishedName config) "")
    (ServiceAccountPassword config) c = (None, c1) ->
  conn_SearchWithPaging (searchLdap_request query entityType config) 1000 c1
    = ((Some results, Some e), c2) ->
  as_ldap_error e = None ->
  exists w2,
    searchLdap p query scope config (c, log)
    = searchLdap_entries p scope entityType config (Entries results) [] w2.
Proof.
  intros Hsplit Hbind Hsearch Hcode.
  rewrite (searchLdap_run _ _ _ _ _ _ _ _ _ _ Hsplit Hbind Hsearch).
  simpl. unfold search_error_returned. rewrite Hcode. eauto.
Qed.

End SearchLdap.

(** * Batches of forward-membership DNs *)

(** The consecutive batches of at most fifty the loop takes. *)
Fixpoint chunks (fuel : nat) (l : list string) : list (list string) :=
  match fuel with
  | O => []
  | S fuel' =>
      match l with
      | [] => []
      | _ :: _ => firstn 50 l :: chunks fuel' (skipn 50 l)
      end
  end.

Definition batchesOf (l : list string) : list (list string) := chunks (length l) l.

Lemma chunks_concat fuel l : (length l <= fuel)%nat -> concat (chunks fuel l) = l.
Proof.
  revert l; induction fuel as [|fuel IH]; intros l Hlen.
  - destruct l; [reflexivity | simpl in Hlen; lia].
  - destruct l as [|x l]; [reflexivity|].
    cbn [chunks concat]. rewrite IH.
    + apply firstn_skipn.
    + rewrite length_skipn. simpl in *. lia.
Qed.

Lemma chunks_bounds fuel l :
  Forall (fun b => 1 <= length b <= 50)%nat (chunks fuel l).
Proof.
  revert l; induction fuel as [|fuel IH]; intros l; [constructor|].
  destruct l as [|x l]; [constructor|].
  cbn [chunks]. constructor; [|apply IH].
  rewrite length_firstn. change (length (x :: l)) with (S (length l)). lia.
Qed.

Lemma chunks_length fuel l :
  (length l <= fuel)%nat -> length (chunks fuel l) = ((length l + 49) / 50)%nat.
Proof.
  revert l; induction fuel as [|fuel IH]; intros l Hlen.
  - destruct l; [reflexivity | simpl in Hlen; lia].
  - destruct l as [|x l]; [reflexivity|].
    cbn [chunks length]. rewrite IH by (rewrite length_skipn; simpl in *; lia).
    rewrite length_skipn.
    change (length (x :: l)) with (S (length l)).
    generalize (length l) as n; intros n.
    pose proof (Nat.div_mod_eq (S n - 50 + 49) 50).
    pose proof (Nat.div_mod_eq (S n + 49) 50).
    pose proof (Nat.mod_upper_bound (S n - 50 + 49) 50).
    pose proof (Nat.mod_upper_bound (S n + 49) 50).
    nia.
Qed.

(** All batches but the last hold exactly fifty DNs. *)
Lemma chunks_full fuel l b rest :
  chunks fuel l = b :: rest -> rest <> [] -> length b = 50%nat.
Proof.
  destruct fuel as [|fuel]; [discriminate|].
  destruct l as [|x l]; [discriminate|].
  cbn [chunks]. intros [= <- <-] Hrest.
  destruct (Nat.le_gt_cases 50 (length (x :: l))) as [Hbig|Hsmall].
  - simpl in *. rewrite length_firstn. lia.
  - exfalso. apply Hrest. simpl in Hsmall.
    rewrite skipn_all2 by lia. by destruct fuel.
Qed.

Section Batches.
Context {C : Type} `{!Client C} `{!Helpers} `{!Collaborators C}.

(** One search per batch, in order, up to the first error; the
    principals of each batch are kept apart. *)
Fixpoint batchResults (p : ldapProvider) (config : LdapConfig)
    (batches : list (list string)) : M C (list (list Principal) * option error) :=
  match batches with
  | [] => ret ([], None)
  | b :: rest =>
      let* (ps, err) := searchLdap p (batchQuery config b) (groupScope p) config in
      match err with
      | Some e => ret ([ps], Some e)
      | None =>
          let* (rs, err) := batchResults p config rest in
          ret (ps :: rs, err)
      end
  end.

Lemma slice_batch (l : list string) i :
  slice l i (Nat.min (i + 50) (length l)) = firstn 50 (skipn i l).
Proof.
  unfold slice.
  destruct (Nat.le_gt_cases (i + 50) (length l)) as [Hle|Hgt].
  - rewrite Nat.min_l by lia. f_equal. lia.
  - rewrite Nat.min_r by lia.
    rewrite !firstn_all2; [reflexivity | rewrite length_skipn; lia ..].
Qed.

Lemma forwardBatches_chunks p config l fuel i acc (w : World C) :
  (length l - i <= fuel)%nat ->
  forwardBatches fuel p config l i acc w
  = bind (batchResults p config (chunks fuel (skipn i l)))
      (fun r => ret (acc ++ concat (fst r), snd r)) w.
Proof.
  revert i acc w. induction fuel as [|fuel IH]; intros i acc w Hfuel.
  - simpl. assert ((i <? length l)%nat = false) as ->
      by (apply Nat.ltb_ge; lia).
    unfold bind, ret; simpl. by rewrite app_nil_r.
  - cbn [forwardBatches].
    destruct (i <? length l)%nat eqn:Hi.
    + apply Nat.ltb_lt in Hi.
      destruct (skipn i l) as [|x r] eqn:Hskip.
      { apply (f_equal (@length _)) in Hskip.
        rewrite length_skipn in Hskip. simpl in Hskip. lia. }
      cbn [chunks batchResults]. rewrite <- Hskip.
      rewrite slice_batch.
      unfold bind.
      destruct (searchLdap p _ (groupScope p) config w) as [[[ps [e|]] w']| |];
        try reflexivity.
      * unfold ret; simpl. by rewrite app_nil_r.
      * rewrite IH by lia.
        rewrite skipn_skipn, (Nat.add_comm 50 i).
        unfold bind.
        destruct (batchResults p config _ w') as [[[rs err] w'']| |];
          try reflexivity.
        unfold ret; simpl. by rewrite app_assoc.
    + apply Nat.ltb_ge in Hi.
      rewrite skipn_all2 by lia. simpl.
      unfold bind, ret; simpl. by rewrite app_nil_r.
Qed.

(** C2 (as amended).  The loop splits the DN list into consecutive
    batches of at most fifty that cover every DN exactly once, in
    order; it issues one search per batch and the accumulated list is
    the results of the batches appended in that order, up to the first
    search error; nothing is removed from it. *)
Theorem forwardBatches_partition (p : ldapProvider) (config : LdapConfig)
    (userMemberAttribute : list string) (w : World C) :
  concat (batchesOf userMemberAttribute) = userMemberAttribute
  /\ Forall (fun b => 1 <= length b <= 50)%nat (batchesOf userMemberAttribute)
  /\ length (batchesOf userMemberAttribute)
     = ((length userMemberAttribute + 49) / 50)%nat
  /\ forwardBatches (length userMemberAttribute) p config userMemberAttribute 0 [] w
     = bind (batchResults p config (batchesOf userMemberAttribute))
         (fun r => ret (concat (fst r), snd r)) w.
Proof.
  unfold batchesOf. split; [by apply chunks_concat|].
  split; [apply chunks_bounds|].
  split; [by apply chunks_length|].
  rewrite forwardBatches_chunks by lia. reflexivity.
Qed.

End Batches.

(** * The nested-group step *)

Section Nested.
Context {C : Type} `{!Client C} `{!Helpers} `{!Collaborators C}.

Lemma gatherLoop_app pre post sd gs cc gm nested attrs (w : World C) :
  gatherLoop (pre ++ post) sd gs cc gm nested attrs w
  = match gatherLoop pre sd gs cc gm nested attrs w with
    | Ret ((Some e, gm', nested'), w') => Ret ((Some e, gm', nested'), w')
    | Ret ((None, gm', nested'), w') => gatherLoop post sd gs cc gm' nested' attrs w'
    | Panic => Panic
    | OutOfFuel => OutOfFuel
    end.
Proof.
  revert gm nested w. induction pre as [|g pre IH]; intros gm nested w; [reflexivity|].
  cbn [app gatherLoop]. unfold bind.
  destruct (GatherParentGroups g sd gs cc gm nested attrs w)
    as [[[[[e|] gm1] n1] w1]| |]; try reflexivity.
  apply IH.
Qed.

(** [getPrincipalsFromSearchResult] once the direct groups are known. *)
Lemma getPrincipalsFromSearchResult_groups p result opResult config
    (w w1 : World C) u gs fb :
  directGroups p result opResult config w = Ret (Groups u gs fb, w1) ->
  getPrincipalsFromSearchResult p result opResult config w
  = nestedGroups p config u gs fb w1.
Proof.
  intros Hd. unfold getPrincipalsFromSearchResult.
  by rewrite (bind_Ret _ _ _ _ _ Hd).
Qed.

(** C8.  If the traversal call fails for some group, the calls for
    the groups before it having succeeded, the function returns the
    user principal and the groups found before the traversal, with a
    nil error: the traversal error is not returned. *)
Theorem traversal_error_not_propagated (p : ldapProvider)
    (result opResult : SearchResult) (config : LdapConfig)
    (w w1 w2 w3 : World C) (u : Principal) (pre post : list Principal)
    (g : Principal) (fb : bool)
    (gm1 gm2 : gmap string bool) (n1 n2 : list Principal) (e : error) :
  directGroups p result opResult config w = Ret (Groups u (pre ++ g :: post) fb, w1) ->
  traversalEnabled p config fb = true ->
  gatherLoop pre (nestedSearchDomain config) (groupScope p)
    (nestedCommonConfig config) ∅ [] (nestedSearchAttributes config) w1
    = Ret ((None, gm1, n1), w2) ->
  GatherParentGroups g (nestedSearchDomain config) (groupScope p)
    (nestedCommonConfig config) gm1 n1 (nestedSearchAttributes config) w2
    = Ret ((Some e, gm2, n2), w3) ->
  getPrincipalsFromSearchResult p result opResult config w
  = Ret ((u, pre ++ g :: post, None), w3).
Proof.
  intros Hd Hen Hpre Hg.
  rewrite (getPrincipalsFromSearchResult_groups _ _ _ _ _ _ _ _ _ Hd).
  unfold nestedGroups. rewrite Hen.
  unfold bind at 1. rewrite gatherLoop_app, Hpre.
  cbn [gatherLoop]. unfold bind at 1. rewrite Hg. reflexivity.
Qed.

(** C1 (as amended).  The nested traversal runs exactly when nested
    resolution is enabled and the group scope is [openldap_group], or
    the fallback query was used; then the result is the groups found
    so far followed by the traversed groups not among them (only the
    groups found so far when the traversal fails).  In every other
    case the groups found so far are the result and the connection is
    not used again. *)
Theorem nested_traversal_condition (p : ldapProvider)
    (result opResult : SearchResult) (config : LdapConfig)
    (w w1 : World C) (u : Principal) (gs : list Principal) (fb : bool) :
  directGroups p result opResult config w = Ret (Groups u gs fb, w1) ->
  getPrincipalsFromSearchResult p result opResult config w
  = if (NestedGroupMembershipEnabled config && Str.eqb (groupScope p) "openldap_group")
       || fb
    then
      match gatherLoop gs (nestedSearchDomain config) (groupScope p)
              (nestedCommonConfig config) ∅ [] (nestedSearchAttributes config) w1 with
      | Ret ((Some _, _, _), w2) => Ret ((u, gs, None), w2)
      | Ret ((None, _, nested), w2) =>
          Ret ((u, gs ++ FindNonDuplicateBetweenGroupPrincipals nested gs [], None), w2)
      | Panic => Panic
      | OutOfFuel => OutOfFuel
      end
    else Ret ((u, gs, None), w1).
Proof.
  intros Hd.
  rewrite (getPrincipalsFromSearchResult_groups _ _ _ _ _ _ _ _ _ Hd).
  unfold nestedGroups, traversalEnabled.
  destruct (_ || fb); [|reflexivity].
  unfold bind.
  destruct (gatherLoop gs _ _ _ _ _ _ w1) as [[[[[e|] gm] nested] w2]| |];
    reflexivity.
Qed.

(** The fallback flag is set exactly when the forward and reverse
    queries found no group. *)
Lemma reverseGroups_fallback p entry opResult config u gs0 (w w1 : World C) gs fb :
  reverseGroups p entry opResult config u gs0 w = Ret (Groups u gs fb, w1) ->
  fb = true ->
  exists w0,
    searchLdap p (memberQuery config (DN entry)) (groupScope p) config w0
    = Ret ((gs, None), w1).
Proof.
  unfold reverseGroups. intros Hr ->.
  apply bind_inv in Hr as (gmua & wa & _ & Hr).
  apply bind_inv in Hr as ([gs1 err] & wb & _ & Hr).
  destruct err as [e|]; [discriminate Hr|].
  destruct (length gs1 =? 0)%nat; [|discriminate Hr].
  apply bind_inv in Hr as ([gs2 err] & wc & Hs & Hr).
  destruct err as [e|]; [discriminate Hr|].
  injection Hr as <- <-. eauto.
Qed.

End Nested.

(** * The helpers the spec describes *)

(** Modelled from the spec: [FindNonDuplicateBetweenGroupPrincipals] is
    declared in the shared helper package.  The spec merges new groups
    by "a pairwise de-dup pass against the already-accumulated set, not
    a global set", "keyed by Principal id", first seen wins: the new
    principals whose id is not among the accumulated ones are appended
    to the list passed in. *)
Definition FindNonDuplicateBetweenGroupPrincipals_model
    (newGroupPrincipals groupPrincipals nonDupGroupPrincipals : list Principal)
  : list Principal :=
  nonDupGroupPrincipals
    ++ List.filter
         (fun gp => negb (existsb (fun x => Str.eqb (Name gp) (Name x)) groupPrincipals))
         newGroupPrincipals.

(** Modelled from the spec: the principal id is [scope://externalID];
    the identifying value of a group is the text after the first
    [://] of its id. *)
Fixpoint externalIDOfName (id : string) : option string :=
  match id with
  | EmptyString => None
  | String c r =>
      match c, r with
      | ":"%char, String "/"%char (String "/"%char r') => Some r'
      | _, _ => externalIDOfName r
      end
  end.

Section TraversalModel.
Context {C : Type} `{!Client C} `{!Helpers}.

(** The group principals among the entries of a parent search; an
    entry that does not map to a principal is passed over. *)
Definition entryGroups (cc : ConfigAttributes) (groupScope : string)
    (entries : list Entry) : list Principal :=
  flat_map
    (fun entry =>
       match AttributesToPrincipal (Attributes entry) (DN entry) groupScope
               (caProviderName cc) (caUserObjectClass cc) (caUserNameAttribute cc)
               (caUserLoginAttribute cc) (caGroupObjectClass cc)
               (caGroupNameAttribute cc) with
       | (Some pr, None) => [pr]
       | _ => []
       end)
    entries.

(** Modelled from the spec: the parent query of the nested traversal
    is part of [GatherParentGroups], declared in the shared helper
    package.  The spec: "query for its parent groups (groups whose
    membership-mapping attribute equals this group's own identifying
    value)", a paged whole-subtree search. *)
Definition parentGroups (cc : ConfigAttributes) (searchDomain groupScope : string)
    (searchAttributes : list string) (g : Principal)
  : M C (list Principal * option error) :=
  match externalIDOfName (Name g) with
  | None => ret ([], Some (PlainError ("invalid id " +:+ Name g)))
  | Some groupDN =>
      let req :=
        NewWholeSubtreeSearchRequest searchDomain
          (Str.Sprintf "(&(%s=%s)(%s=%s))"
             [caGroupMemberMappingAttribute cc; Filter.EscapeFilter groupDN;
              caObjectClass cc; caGroupObjectClass cc])
          searchAttributes in
      let* (result, err) := SearchWithPaging req 1000 in
      match err with
      | Some e => ret ([], Some e)
      | None =>
          ret (entryGroups cc groupScope
                 (match result with Some r => Entries r | None => [] end), None)
      end
  end.

(** The loop over the parents found for one group: a parent whose id
    is in the visited map is passed over; any other is added to the
    nested groups and traversed in turn by [rec]. *)
Fixpoint visitParents
    (rec : Principal -> gmap string bool -> list Principal ->
           M C (option error * gmap string bool * list Principal))
    (parents : list Principal) (groupMap : gmap string bool)
    (nestedGroupPrincipals : list Principal)
  : M C (option error * gmap string bool * list Principal) :=
  match parents with
  | [] => ret (None, groupMap, nestedGroupPrincipals)
  | gp :: rest =>
      match groupMap !! Name gp with
      | Some _ => visitParents rec rest groupMap nestedGroupPrincipals
      | None =>
          let* (err, groupMap, nestedGroupPrincipals) :=
            rec gp groupMap (nestedGroupPrincipals ++ [gp]) in
          match err with
          | Some e => ret (Some e, groupMap, nestedGroupPrincipals)
          | None => visitParents rec rest groupMap nestedGroupPrincipals
          end
      end
  end.

(** Modelled from the spec: [GatherParentGroups] is declared in the
    shared helper package.  The spec: "for every group already found,
    query for its parent groups, using a visited-set keyed by group
    Principal id to guarantee termination on cyclic or redundant group
    graphs and to avoid re-querying the same group twice.  Every newly
    discovered parent group is itself traversed."  The group is marked
    visited when its traversal starts; the depth of the traversal is
    decided by the directory, so each level takes one unit of fuel. *)
Fixpoint GatherParentGroups_model (fuel : nat) (groupPrincipal : Principal)
    (searchDomain groupScope : string) (config : ConfigAttributes)
    (groupMap : gmap string bool) (nestedGroupPrincipals : list Principal)
    (searchAttributes : list string)
  : M C (option error * gmap string bool * list Principal) :=
  match fuel with
  | O => out_of_fuel
  | S fuel' =>
      let groupMap := <[Name groupPrincipal := true]> groupMap in
      let* (principals, err) :=
        parentGroups config searchDomain groupScope searchAttributes groupPrincipal in
      match err with
      | Some e => ret (Some e, groupMap, nestedGroupPrincipals)
      | None =>
          visitParents
            (fun gp gm nested =>
               GatherParentGroups_model fuel' gp searchDomain groupScope config
                 gm nested searchAttributes)
            principals groupMap nestedGroupPrincipals
      end
  end.

(** Modelled from the spec: [AuthenticateServiceAccountUser] is
    declared in the shared helper package.  The spec: "Bind as service
    account". *)
Definition AuthenticateServiceAccountUser_model
    (serviceAccountPassword serviceAccountUsername defaultLoginDomain : string)
  : M C (option error) :=
  Bind (GetUserExternalID serviceAccountUsername defaultLoginDomain)
    serviceAccountPassword.

End TraversalModel.

(** * Termination of the nested traversal *)

Section Traversal.
Context {C : Type} `{!Client C} `{!Helpers}.
Variables (cc : ConfigAttributes) (sd scope : string) (attrs : list string).

(** The ids of the directory's groups: every parent a query returns
    has its id in [U]. *)
Variable U : gset string.
Hypothesis parents_in_U :
  forall g (w w' : World C) ps,
    parentGroups cc sd scope attrs g w = Ret ((ps, None), w') ->
    forall pr, In pr ps -> Name pr ∈ U.

(** The ids marked in the visited map. *)
Definition visited (gm : gmap string bool) : gset string := dom gm.

(** The groups of the directory not yet visited. *)
Definition unvisited (gm : gmap string bool) : nat := size (U ∖ visited gm).

Lemma visited_insert (gm : gmap string bool) (x : string) :
  visited (<[x := true]> gm) = {[x]} ∪ visited gm.
Proof. unfold visited. apply dom_insert_L. Qed.

Lemma unvisited_mono (gm gm' : gmap string bool) :
  visited gm ⊆ visited gm' -> (unvisited gm' <= unvisited gm)%nat.
Proof.
  intros Hsub. unfold unvisited. apply subseteq_size.
  intros x [Hx Hn]%elem_of_difference. apply elem_of_difference.
  split; [exact Hx|]. intros Hin. apply Hn, Hsub, Hin.
Qed.

Lemma unvisited_insert (gm : gmap string bool) (x : string) :
  x ∈ U -> gm !! x = None ->
  (unvisited (<[x := true]> gm) < unvisited gm)%nat.
Proof.
  intros HU Hnone. unfold unvisited.
  apply subset_size. rewrite visited_insert.
  apply not_elem_of_dom in Hnone. fold (visited gm) in Hnone.
  split.
  - intros y [Hy Hn]%elem_of_difference. apply elem_of_difference.
    split; [exact Hy|]. intros Hin. apply Hn, elem_of_union. by right.
  - intros Hsub.
    assert (x ∈ U ∖ visited gm) as Hx by (by apply elem_of_difference).
    apply Hsub, elem_of_difference in Hx as [_ Hn].
    apply Hn, elem_of_union. left. by apply elem_of_singleton.
Qed.

Lemma parentGroups_total g (w : World C) :
  exists ps err w', parentGroups cc sd scope attrs g w = Ret ((ps, err), w').
Proof.
  unfold parentGroups. destruct (externalIDOfName (Name g)); [|unfold ret; eauto].
  destruct w as [c log]. unfold bind, SearchWithPaging.
  destruct (conn_SearchWithPaging _ _ c) as [[result [e|]] c']; unfold ret; eauto.
Qed.

(** What a traversal keeps true: the visited map only grows, the
    nested groups have distinct ids, all of them visited. *)
Definition traversal_ok (gm0 : gmap string bool)
    (r : outcome ((option error * gmap string bool * list Principal) * World C)) : Prop :=
  exists err gm' nested' w',
    r = Ret ((err, gm', nested'), w')
    /\ visited gm0 ⊆ visited gm'
    /\ NoDup (ids nested')
    /\ (forall x, In x (ids nested') -> x ∈ visited gm').

Lemma visitParents_ok
    (rec : Principal -> gmap string bool -> list Principal ->
           M C (option error * gmap string bool * list Principal))
    (bound : nat) :
  (forall g gm nested w,
      (unvisited (<[Name g := true]> gm) < bound)%nat ->
      NoDup (ids nested) ->
      (forall x, In x (ids nested) -> x ∈ visited (<[Name g := true]> gm)) ->
      traversal_ok (<[Name g := true]> gm) (rec g gm nested w)) ->
  forall ps gm nested w,
    (forall pr, In pr ps -> Name pr ∈ U) ->
    (unvisited gm <= bound)%nat ->
    NoDup (ids nested) ->
    (forall x, In x (ids nested) -> x ∈ visited gm) ->
    traversal_ok gm (visitParents rec ps gm nested w).
Proof.
  intros Hrec ps. induction ps as [|gp rest IH]; intros gm nested w HU Hb Hnd Hvis.
  - simpl. exists None, gm, nested, w. auto.
  - cbn [visitParents].
    destruct (gm !! Name gp) as [b|] eqn:Hlook.
    + apply IH; auto. intros pr Hin. apply HU. by right.
    + assert (Name gp ∈ U) as HgpU by (apply HU; by left).
      assert (Name gp ∉ visited gm) as Hfresh by (by apply not_elem_of_dom).
      destruct (Hrec gp gm (nested ++ [gp]) w) as (err & gm1 & n1 & w1 & Hrun & Hsub & Hnd1 & Hvis1).
      * pose proof (unvisited_insert gm (Name gp) HgpU Hlook). lia.
      * unfold ids. rewrite map_app. simpl.
        apply NoDup_app. split; [exact Hnd|]. split.
        -- intros x Hx [<-|[]]%list_elem_of_In.
           apply list_elem_of_In in Hx. apply Hfresh. by apply Hvis.
        -- apply NoDup_singleton.
      * intros x. unfold ids. rewrite map_app, in_app_iff. simpl.
        rewrite visited_insert. intros [Hx|[<-|[]]]; [|set_solver].
        apply Hvis in Hx. set_solver.
      * unfold bind. rewrite Hrun.
        assert (visited gm ⊆ visited gm1) as Hsub' by (rewrite visited_insert in Hsub; set_solver).
        destruct err as [e|].
        -- exists (Some e), gm1, n1, w1. auto.
        -- destruct (IH gm1 n1 w1) as (err2 & gm2 & n2 & w2 & Hrun2 & Hsub2 & Hnd2 & Hvis2); auto.
           ++ intros pr Hin. apply HU. by right.
           ++ pose proof (unvisited_mono gm gm1 Hsub'). lia.
           ++ exists err2, gm2, n2, w2. split; [exact Hrun2|].
              split; [set_solver|]. auto.
Qed.

Lemma GatherParentGroups_model_ok fuel :
  forall g gm nested (w : World C),
    (unvisited (<[Name g := true]> gm) < fuel)%nat ->
    NoDup (ids nested) ->
    (forall x, In x (ids nested) -> x ∈ visited (<[Name g := true]> gm)) ->
    traversal_ok (<[Name g := true]> gm)
      (GatherParentGroups_model fuel g sd scope cc gm nested attrs w).
Proof.
  induction fuel as [|fuel IH]; intros g gm nested w Hb Hnd Hvis; [lia|].
  cbn [GatherParentGroups_model].
  destruct (parentGroups_total g w) as (ps & err & w1 & Hp).
  unfold bind at 1. rewrite Hp.
  destruct err as [e|].
  - exists (Some e), (<[Name g := true]> gm), nested, w1. auto.
  - apply (visitParents_ok _ fuel); auto.
    + eapply parents_in_U; eauto.
    + lia.
Qed.

End Traversal.

Lemma existsb_name_In (x : Principal) (gs : list Principal) :
  existsb (fun y => Str.eqb (Name x) (Name y)) gs = true <-> In (Name x) (ids gs).
Proof.
  unfold ids. rewrite existsb_exists, in_map_iff. split.
  - intros (y & Hin & Heq). apply Str.eqb_eq in Heq. eauto.
  - intros (y & Heq & Hin). exists y. split; [exact Hin|]. by apply Str.eqb_eq.
Qed.

Lemma NoDup_ids_filter (f : Principal -> bool) (l : list Principal) :
  NoDup (ids l) -> NoDup (ids (List.filter f l)).
Proof.
  induction l as [|x l IH]; simpl; [done|].
  intros [Hx Hl]%NoDup_cons. destruct (f x); simpl; [|by apply IH].
  apply NoDup_cons. split; [|by apply IH].
  intros Hin. apply Hx. apply list_elem_of_In in Hin. apply list_elem_of_In.
  unfold ids in *. apply in_map_iff in Hin as (y & Heq & Hy).
  apply filter_In in Hy as [Hy _]. apply in_map_iff. eauto.
Qed.

(** The groups the spec's de-duplication adds have distinct ids when
    the new groups do, and none of them is among the accumulated. *)
Lemma FindNonDuplicate_model_fresh (new gs : list Principal) :
  NoDup (ids new) ->
  NoDup (ids (FindNonDuplicateBetweenGroupPrincipals_model new gs []))
  /\ forall x, In x (ids (FindNonDuplicateBetweenGroupPrincipals_model new gs [])) ->
               ~ In x (ids gs).
Proof.
  intros Hnd. unfold FindNonDuplicateBetweenGroupPrincipals_model. simpl.
  split; [by apply NoDup_ids_filter|].
  intros x Hin Hgs. unfold ids in Hin.
  apply in_map_iff in Hin as (y & <- & Hy).
  apply filter_In in Hy as [_ Hy]. apply negb_true_iff in Hy.
  apply existsb_name_In in Hgs. congruence.
Qed.

Section NestedModel.
Context {C : Type} `{!Client C} `{!Helpers} `{!Collaborators C}.

Lemma gatherLoop_model_ok (cc : ConfigAttributes) (sd scope : string)
    (attrs : list string) (U : gset string) (fuel : nat) :
  GatherParentGroups = GatherParentGroups_model fuel ->
  (forall g (w w' : World C) ps,
      parentGroups cc sd scope attrs g w = Ret ((ps, None), w') ->
      forall pr, In pr ps -> Name pr ∈ U) ->
  (size U < fuel)%nat ->
  forall gs gm nested (w : World C),
    NoDup (ids nested) ->
    (forall x, In x (ids nested) -> x ∈ visited gm) ->
    traversal_ok gm (gatherLoop gs sd scope cc gm nested attrs w).
Proof.
  intros Hmodel HU Hfuel gs.
  induction gs as [|g gs IH]; intros gm nested w Hnd Hvis.
  - exists None, gm, nested, w. auto.
  - cbn [gatherLoop]. rewrite Hmodel.
    destruct (GatherParentGroups_model_ok cc sd scope attrs U HU fuel g gm nested w)
      as (err & gm1 & n1 & w1 & Hrun & Hsub & Hnd1 & Hvis1); auto.
    + assert (unvisited U (<[Name g := true]> gm) <= size U)%nat; [|lia].
      unfold unvisited. apply subseteq_size.
      intros x [Hx _]%elem_of_difference. exact Hx.
    + intros x Hx. rewrite visited_insert. apply elem_of_union. right. by apply Hvis.
    + unfold bind. rewrite Hrun.
      assert (visited gm ⊆ visited gm1) as Hsub'.
      { intros x Hx. apply Hsub. rewrite visited_insert. apply elem_of_union. by right. }
      destruct err as [e|].
      * exists (Some e), gm1, n1, w1. auto.
      * destruct (IH gm1 n1 w1 Hnd1 Hvis1)
          as (err2 & gm2 & n2 & w2 & Hrun2 & Hsub2 & Hnd2 & Hvis2).
        exists err2, gm2, n2, w2. split; [exact Hrun2|].
        split; [|auto]. intros x Hx. by apply Hsub2, Hsub'.
Qed.

(** C3.  With the traversal and the de-duplication the spec describes,
    over a directory with finitely many groups ([U] holds the ids of
    all groups a parent query can return), whatever their membership
    graph, cycles included: given fuel above the number of groups the
    nested-group step returns, and the groups it adds to the result
    have distinct ids, none of them already in the result. *)
Theorem nested_traversal_terminates_without_duplicates
    (p : ldapProvider) (config : LdapConfig) (u : Principal)
    (gs : list Principal) (fb : bool) (w : World C)
    (U : gset string) (fuel : nat) :
  GatherParentGroups = GatherParentGroups_model fuel ->
  FindNonDuplicateBetweenGroupPrincipals = FindNonDuplicateBetweenGroupPrincipals_model ->
  (forall g (w w' : World C) ps,
      parentGroups (nestedCommonConfig config) (nestedSearchDomain config)
        (groupScope p) (nestedSearchAttributes config) g w = Ret ((ps, None), w') ->
      forall pr, In pr ps -> Name pr ∈ U) ->
  (size U < fuel)%nat ->
  exists added w',
    nestedGroups p config u gs fb w = Ret ((u, gs ++ added, None), w')
    /\ NoDup (ids added)
    /\ (forall x, In x (ids added) -> ~ In x (ids gs)).
Proof.
  intros Hmodel Hdedup HU Hfuel. unfold nestedGroups.
  destruct (traversalEnabled p config fb).
  - destruct (gatherLoop_model_ok _ _ _ _ U fuel Hmodel HU Hfuel gs ∅ [] w)
      as (err & gm & nested & w' & Hrun & _ & Hnd & _).
    { constructor. }
    { intros x []. }
    unfold bind. rewrite Hrun. destruct err as [e|].
    + exists [], w'. rewrite app_nil_r. repeat split; [constructor | intros x []].
    + rewrite Hdedup.
      exists (FindNonDuplicateBetweenGroupPrincipals_model nested gs []), w'.
      split; [reflexivity|]. by apply FindNonDuplicate_model_fresh.
  - exists [], w. rewrite app_nil_r. repeat split; [constructor | intros x []].
Qed.

End NestedModel.

(** * A small directory to run the functions on

    A connection that answers every request from a fixed table, simple
    implementations of the helpers, and a FreeIPA-style configuration.
    They serve to evaluate the functions above on concrete inputs. *)

Module Sample.

(** A directory that never changes: the error every bind gets (if
    any), the replies to the filters of a table, and group entries
    kept under their DN, returned when no filter of the table matches
    and the filter has the clause [(entryDN=<their DN>)]. *)
Record Directory := {
  bindError : option error;
  table : list (string * SearchReply);
  byEntryDN : list Entry;
}.

Fixpoint lookupFilter (table : list (string * SearchReply)) (filter : string)
  : option SearchReply :=
  match table with
  | [] => None
  | (f, reply) :: r => if Str.eqb f filter then Some reply else lookupFilter r filter
  end.

(** Whether [sub] occurs in [s]. *)
Fixpoint contains (s sub : string) : bool :=
  String.prefix sub s
  || match s with
     | EmptyString => false
     | String _ r => contains r sub
     end.

Definition answerSearch (d : Directory) (req : SearchRequest) : SearchReply :=
  match lookupFilter (table d) (Filter req) with
  | Some reply => reply
  | None =>
      (Some {| Entries :=
                 List.filter
                   (fun e => contains (Filter req)
                               ("(entryDN=" +:+ Filter.EscapeFilter (DN e) +:+ ")"))
                   (byEntryDN d) |},
       None)
  end.

#[export] Instance Directory_Client : Client Directory := {|
  conn_Bind _ _ d := (bindError d, d);
  conn_Search req d := (answerSearch d req, d);
  conn_SearchWithPaging req _ d := (answerSearch d req, d);
|}.

Definition found (entries : list Entry) : SearchReply :=
  (Some {| Entries := entries |}, None).

Definition is_attr_char (c : ascii) : bool :=
  let n := N_of_ascii c in
  (N.leb 48 n && N.leb n 57) || (N.leb 65 n && N.leb n 90)
  || (N.leb 97 n && N.leb n 122) || N.eqb n 45.

(** Modelled from the spec: [SanitizeAttr] is declared in the shared
    helper package; the spec has attribute names "sanitized (rejecting
    characters outside the attribute-name grammar)": letters, digits
    and the hyphen are kept. *)
Fixpoint SanitizeAttr_model (s : string) : string :=
  match s with
  | EmptyString => EmptyString
  | String c r =>
      if is_attr_char c then String c (SanitizeAttr_model r)
      else SanitizeAttr_model r
  end.

Definition lower_byte (c : ascii) : ascii :=
  let n := N_of_ascii c in
  if N.leb 65 n && N.leb n 90 then ascii_of_N (n + 32) else c.

Fixpoint lower (s : string) : string :=
  match s with
  | EmptyString => EmptyString
  | String c r => String (lower_byte c) (lower r)
  end.

Definition hasObjectClass (attrs : list EntryAttribute) (class : string) : bool :=
  existsb (fun a => Str.eqb (AttrName a) "objectClass"
                    && existsb (Str.eqb class) (Values a)) attrs.

Definition firstOr (l : list string) (d : string) : string :=
  match l with v :: _ => v | [] => d end.

Definition toPrincipal (attrs : list EntryAttribute)
    (dn scope provider uoc una ula goc gna : string) : option Principal * option error :=
  if hasObjectClass attrs uoc then
    (Some {| Name := scope +:+ "://" +:+ dn;
             DisplayName := firstOr (GetAttributeValues attrs una) dn;
             LoginName := firstOr (GetAttributeValues attrs ula) dn;
             PrincipalType := "user" |}, None)
  else if hasObjectClass attrs goc then
    (Some {| Name := scope +:+ "://" +:+ dn;
             DisplayName := firstOr (GetAttributeValues attrs gna) dn;
             LoginName := firstOr (GetAttributeValues attrs gna) dn;
             PrincipalType := "group" |}, None)
  else (None, Some (PlainError ("Failed to get attributes for " +:+ dn))).

(** Parentheses balanced, the first byte an opening one. *)
Fixpoint balanced (depth : nat) (s : string) : bool :=
  match s with
  | EmptyString => (depth =? 0)%nat
  | String c r =>
      if Ascii.eqb c "("%char then balanced (S depth) r
      else if Ascii.eqb c ")"%char then
        match depth with O => false | S d => balanced d r end
      else balanced depth r
  end.

Definition compiles (s : string) : option error :=
  match s with
  | String "("%char _ =>
      if balanced 0 s then None else Some (LdapError 201 "unexpected end of filter")
  | _ => Some (LdapError 201 "filter does not start with an '('")
  end.

Definition parseDN (s : string) : list (list (string * string)) + error :=
  inl (map (fun rdn =>
              match Str.Split rdn "="%char with
              | t :: v :: _ => [(t, v)]
              | _ => []
              end)
           (Str.Split s ","%char)).

#[export] Instance helpers : Helpers := {|
  SanitizeAttr := SanitizeAttr_model;
  GetUserExternalID := fun dn _ => dn;
  IsType := hasObjectClass;
  HasPermission := fun _ _ _ _ => true;
  AttributesToPrincipal := toPrincipal;
  GetAttributeValuesByName := GetAttributeValues;
  FindNonDuplicateBetweenGroupPrincipals := FindNonDuplicateBetweenGroupPrincipals_model;
  GetUserSearchAttributes := fun config oc =>
    [oc; UserLoginAttribute config; UserNameAttribute config; UserMemberAttribute config];
  GetGroupSearchAttributes := fun config oc =>
    [oc; GroupNameAttribute config; GroupDNAttribute config];
  CompileFilter := compiles;
  ParseDN := parseDN;
  IsErrorWithCode := fun e code =>
    match as_ldap_error e with Some c => c =? code | None => false end;
  EqualFold := fun a b => Str.eqb (lower a) (lower b);
  samlSearchProvider := fun _ => false;
  CheckAccess := fun _ _ _ _ => (true, None);
|}.

(** The collaborators: the traversal of the spec with fuel for up to
    sixteen levels; every connection is to the directory [d]. *)
Definition collaborators (d : Directory) : Collaborators Directory := {|
  CertPool := unit;
  Connect := fun _ _ => (Some d, None);
  AuthenticateServiceAccountUser := AuthenticateServiceAccountUser_model;
  GatherParentGroups := GatherParentGroups_model 16;
|}.

Definition provider : ldapProvider :=
  {| providerName := "freeipa"; userScope := "freeipa_user"; groupScope := "freeipa_group" |}.

Definition config : LdapConfig := {|
  Enabled := true;
  AccessMode := "unrestricted";
  AllowedPrincipalIDs := [];
  ServiceAccountDistinguishedName := "uid=svc,cn=users,dc=x";
  ServiceAccountPassword := "svc-secret";
  SearchUsingServiceAccount := false;
  UserSearchBase := "dc=x";
  UserObjectClass := "inetOrgPerson";
  UserLoginAttribute := "uid";
  UserNameAttribute := "cn";
  UserMemberAttribute := "memberOf";
  UserSearchAttribute := "uid|sn|uidNumber";
  UserLoginFilter := "";
  UserSearchFilter := "";
  UserEnabledAttribute := "";
  UserDisabledBitMask := 0;
  GroupSearchBase := "";
  GroupObjectClass := "groupOfNames";
  GroupNameAttribute := "cn";
  GroupDNAttribute := "entryDN";
  GroupMemberUserAttribute := "entryDN";
  GroupMemberMappingAttribute := "member";
  GroupSearchAttribute := "cn";
  GroupSearchFilter := "";
  NestedGroupMembershipEnabled := false;
|}.

Definition person (dn uid cn : string) (more : list EntryAttribute) : Entry :=
  {| DN := dn;
     Attributes :=
       {| AttrName := "objectClass"; Values := ["inetOrgPerson"] |}
       :: {| AttrName := "uid"; Values := [uid] |}
       :: {| AttrName := "cn"; Values := [cn] |} :: more |}.

Definition group (dn cn : string) (members : list string) : Entry :=
  {| DN := dn;
     Attributes :=
       [{| AttrName := "objectClass"; Values := ["groupOfNames"] |};
        {| AttrName := "cn"; Values := [cn] |};
        {| AttrName := "member"; Values := members |}] |}.

Definition alice : Entry := person "uid=alice,cn=users,dc=x" "alice" "Alice" [].
Definition eng : Entry := group "cn=eng,cn=groups,dc=x" "eng" ["uid=alice,cn=users,dc=x"].
Definition staff : Entry := group "cn=staff,cn=groups,dc=x" "staff" ["cn=eng,cn=groups,dc=x"].

Definition start (d : Directory) : World Directory := (d, []).

Definition groupsOf {A B : Type}
    (r : outcome ((A * list Principal * B) * World Directory)) : option (list string) :=
  match r with
  | Ret ((_, gs, _), _) => Some (ids gs)
  | _ => None
  end.

(** Alice is a member of [eng] and [eng] of [staff]; the user entry
    carries neither a forward-membership nor an [entryDN] attribute,
    so the groups are found by the fallback query on the user's DN. *)
Definition nestedDirectory : Directory :=
  {| bindError := None;
     table :=
       [("(&(member=uid=alice,cn=users,dc=x)(objectClass=groupOfNames))", found [eng]);
        ("(&(member=cn=eng,cn=groups,dc=x)(objectClass=groupOfNames))", found [staff])];
     byEntryDN := [] |}.


Definition principalOf (scope : string) (e : Entry) (name kind : string) : Principal :=
  {| Name := scope +:+ "://" +:+ DN e; DisplayName := name; LoginName := name;
     PrincipalType := kind |}.

Definition alicePrincipal : Principal :=
  {| Name := "freeipa_user://uid=alice,cn=users,dc=x"; DisplayName := "Alice";
     LoginName := "alice"; PrincipalType := "user" |}.
Definition engPrincipal : Principal := principalOf "freeipa_group" eng "eng" "group".
Definition staffPrincipal : Principal := principalOf "freeipa_group" staff "staff" "group".

Definition aliceResult : SearchResult := {| Entries := [alice] |}.

(** A run with its final connection and log left out. *)
Definition value {A : Type} (r : outcome (A * World Directory)) : option A :=
  match r with
  | Ret (a, _) => Some a
  | _ => None
  end.


(** ** The fallback query, nested resolution disabled *)

Definition afterFallback : World Directory :=
  (nestedDirectory,
   [EvBind "uid=svc,cn=users,dc=x" "svc-secret";
    EvSearchWithPaging
      (NewWholeSubtreeSearchRequest "dc=x"
         "(&(member=uid=alice,cn=users,dc=x)(objectClass=groupOfNames))"
         ["objectClass"; "cn"; "entryDN"]) 1000]).

Lemma nestedDirectory_direct :
  directGroups provider aliceResult aliceResult config (start nestedDirectory)
  = Ret (Groups alicePrincipal [engPrincipal] true, afterFallback).
Proof. vm_compute. reflexivity. Qed.

(** C1, counterexample.  Nested resolution is disabled, the forward
    and reverse steps find no group and the fallback query returns
    the one group [eng]; the resolved groups are [eng] and its parent
    [staff], not [eng] alone. *)
Lemma fallback_with_nested_disabled_adds_parent :
  NestedGroupMembershipEnabled config = false
  /\ directGroups provider aliceResult aliceResult config (start nestedDirectory)
     = Ret (Groups alicePrincipal [engPrincipal] true, afterFallback)
  /\ value (getPrincipalsFromSearchResult (Collaborators0 := collaborators nestedDirectory)
              provider aliceResult aliceResult config (start nestedDirectory))
     = Some (alicePrincipal, [engPrincipal; staffPrincipal], None)
  /\ [engPrincipal; staffPrincipal] <> [engPrincipal].
Proof.
  split; [reflexivity|]. split; [exact nestedDirectory_direct|].
  split; [vm_compute; reflexivity | discriminate].
Qed.

Lemma nested_traversal_condition_witness :
  directGroups provider aliceResult aliceResult config (start nestedDirectory)
  = Ret (Groups alicePrincipal [engPrincipal] true, afterFallback)
  /\ value (getPrincipalsFromSearchResult (Collaborators0 := collaborators nestedDirectory)
              provider aliceResult aliceResult config (start nestedDirectory))
     = Some (alicePrincipal, [engPrincipal; staffPrincipal], None).
Proof.
  split; [exact nestedDirectory_direct|].
  rewrite (nested_traversal_condition (Collaborators0 := collaborators nestedDirectory)
             provider aliceResult aliceResult config (start nestedDirectory)
             afterFallback alicePrincipal [engPrincipal] true nestedDirectory_direct).
  vm_compute. reflexivity.
Defined.


(** ** Fifty-one forward-membership DNs *)

Definition two_digits (n : nat) : string :=
  String (ascii_of_nat (48 + n / 10)) (String (ascii_of_nat (48 + n mod 10)) EmptyString).

Definition teamDN (n : nat) : string := "cn=team" +:+ two_digits n +:+ ",cn=groups,dc=x".

Definition team (n : nat) : Entry := group (teamDN n) ("team" +:+ two_digits n) [].

(** Fifty groups, each found by a filter clause on its DN. *)
Definition teamsDirectory : Directory :=
  {| bindError := None; table := []; byEntryDN := map team (seq 0 50) |}.

(** The user's forward-membership values: the fifty groups, and the
    first of them once more. *)
Definition carolGroups : list string := map teamDN (seq 0 50) ++ [teamDN 0].

Definition carol : Entry :=
  person "uid=carol,cn=users,dc=x" "carol" "Carol"
    [{| AttrName := "memberOf"; Values := carolGroups |}].

Definition carolResult : SearchResult := {| Entries := [carol] |}.

Definition resolvedIds (r : option (Principal * list Principal * option error))
  : list string :=
  match r with
  | Some (_, gs, _) => ids gs
  | None => []
  end.

(** C2, counterexample.  Of 51 forward-membership DNs the last
    repeats the first, so it falls in the second batch: the resolved
    groups hold 51 principals and the id of the first group twice,
    while the one query over all 51 DNs returns 50 principals with
    distinct ids. *)
Lemma batches_do_not_deduplicate :
  length carolGroups = 51%nat
  /\ map (@length string) (batchesOf carolGroups) = [50; 1]%nat
  /\ (let r := value (getPrincipalsFromSearchResult
                       (Collaborators0 := collaborators teamsDirectory)
                       provider carolResult carolResult config (start teamsDirectory)) in
      length (resolvedIds r) = 51%nat /\ ~ NoDup (resolvedIds r))
  /\ (let unbatched := value (searchLdap provider (batchQuery config carolGroups)
                                (groupScope provider) config (start teamsDirectory)) in
      exists gs, unbatched = Some (gs, None)
                 /\ length gs = 50%nat /\ NoDup (ids gs)).
Proof.
  split; [reflexivity|]. split; [vm_compute; reflexivity|]. split.
  - split; [vm_compute; reflexivity|].
    apply (bool_decide_eq_false_1 (NoDup _)). vm_compute. reflexivity.
  - eexists. split; [vm_compute; reflexivity|].
    split; [reflexivity|].
    apply (bool_decide_eq_true_1 (NoDup _)). vm_compute. reflexivity.
Qed.


(** ** Two groups that are members of each other *)

Definition red : Entry := group "cn=red,cn=groups,dc=x" "red" ["cn=blue,cn=groups,dc=x"].
Definition blue : Entry := group "cn=blue,cn=groups,dc=x" "blue" ["cn=red,cn=groups,dc=x"].
Definition redPrincipal : Principal := principalOf "freeipa_group" red "red" "group".
Definition bluePrincipal : Principal := principalOf "freeipa_group" blue "blue" "group".

Definition cyclicDirectory : Directory :=
  {| bindError := None;
     table :=
       [("(&(member=cn=red,cn=groups,dc=x)(objectClass=groupOfNames))", found [blue]);
        ("(&(member=cn=blue,cn=groups,dc=x)(objectClass=groupOfNames))", found [red])];
     byEntryDN := [] |}.

(** A connection with a single state, answering from [cyclicDirectory]. *)
Inductive Loop := loop.

#[export] Instance Loop_Client : Client Loop := {|
  conn_Bind _ _ c := (None, c);
  conn_Search req c := (answerSearch cyclicDirectory req, c);
  conn_SearchWithPaging req _ c := (answerSearch cyclicDirectory req, c);
|}.

Definition loopCollaborators : Collaborators Loop := {|
  CertPool := unit;
  Connect := fun _ _ => (Some loop, None);
  AuthenticateServiceAccountUser := AuthenticateServiceAccountUser_model;
  GatherParentGroups := GatherParentGroups_model 16;
|}.

Definition cyclicIds : gset string := {[ Name redPrincipal; Name bluePrincipal ]}.

Lemma cyclic_parents_known g (w w' : World Loop) ps :
  parentGroups (nestedCommonConfig config) (nestedSearchDomain config)
    (groupScope provider) (nestedSearchAttributes config) g w = Ret ((ps, None), w') ->
  forall pr, In pr ps -> Name pr ∈ cyclicIds.
Proof.
  unfold parentGroups. destruct (externalIDOfName (Name g)) as [dn|]; [|discriminate].
  destruct w as [c log]. unfold bind, SearchWithPaging.
  cbn [conn_SearchWithPaging Loop_Client]. unfold answerSearch.
  cbn [table cyclicDirectory lookupFilter byEntryDN List.filter].
  repeat match goal with
         | |- context [Str.eqb ?a ?b] => destruct (Str.eqb a b)
         end;
    cbn; intros [= <- _] pr Hin; try contradiction;
    destruct Hin as [<-|[]]; unfold cyclicIds;
    apply elem_of_union; [right | left]; by apply elem_of_singleton.
Qed.

Lemma nested_traversal_terminates_without_duplicates_witness :
  exists added w',
    nestedGroups (Collaborators0 := loopCollaborators) provider config
      alicePrincipal [redPrincipal] true (loop, [])
    = Ret ((alicePrincipal, [redPrincipal] ++ added, None), w')
    /\ NoDup (ids added)
    /\ (forall x, In x (ids added) -> ~ In x (ids [redPrincipal])).
Proof.
  apply (nested_traversal_terminates_without_duplicates
           (Collaborators0 := loopCollaborators) provider config alicePrincipal
           [redPrincipal] true (loop, []) cyclicIds 16).
  - reflexivity.
  - reflexivity.
  - exact cyclic_parents_known.
  - vm_compute. lia.
Defined.

(** On the cycle the traversal from [red] adds [blue] and stops. *)
Example cyclic_traversal_result :
  match nestedGroups (Collaborators0 := loopCollaborators) provider config
          alicePrincipal [redPrincipal] true (loop, []) with
  | Ret ((_, gs, err), _) => Some (gs, err)
  | _ => None
  end = Some ([redPrincipal; bluePrincipal], None).
Proof. vm_compute. reflexivity. Qed.


(** ** A search that fails with an error that is not a directory error *)

Definition droppedQuery : string := "(&(objectClass=groupOfNames)(cn=*dev*))".

Definition connectionReset : error := PlainError "read: connection reset by peer".

Definition flakyDirectory : Directory :=
  {| bindError := None;
     table := [(droppedQuery, (Some {| Entries := [] |}, Some connectionReset))];
     byEntryDN := [] |}.

(** C4, the failing input.  The paged search returns an error that is
    not a [*ldapv3.Error] (and so has no "no such object" code), with
    an empty result; [searchLdap] returns the empty list and a nil
    error. *)
Theorem searchLdap_drops_non_directory_error :
  snd (answerSearch flakyDirectory
         (searchLdap_request droppedQuery "group" config)) = Some connectionReset
  /\ as_ldap_error connectionReset = None
  /\ value (searchLdap provider droppedQuery (groupScope provider) config
              (start flakyDirectory))
     = Some ([], None).
Proof. split; [|split]; vm_compute; reflexivity. Qed.

(** ** The group query *)

(** C5, counterexample.  For the name [dev] and the search attribute
    [cn] the clause of the group query is the contains match
    [cn=*dev*], not the prefix match [cn=dev*] of the user clauses. *)
Lemma searchGroup_query_is_contains_match :
  searchGroup_query "dev" config = "(&(objectClass=groupOfNames)(cn=*dev*))"
  /\ searchGroup_query_prefix "dev" config = "(&(objectClass=groupOfNames)(cn=dev*))"
  /\ searchGroup_query "dev" config <> searchGroup_query_prefix "dev" config.
Proof.
  split; [vm_compute; reflexivity|].
  split; [vm_compute; reflexivity|].
  vm_compute. discriminate.
Qed.

Lemma search_queries_shape_witness :
  Str.percent_free (SanitizeAttr (GroupSearchAttribute config)) = true
  /\ searchUser_query "dev" config
     = "(&(objectClass=inetOrgPerson)(|(uid=dev*)(sn=dev*)(uidNumber=dev)))"
  /\ searchGroup_query "dev" config = "(&(objectClass=groupOfNames)(cn=*dev*))".
Proof.
  assert (Str.percent_free (SanitizeAttr (GroupSearchAttribute config)) = true)
    as Hfree by reflexivity.
  split; [exact Hfree|].
  destruct (search_queries_shape "dev" config Hfree) as [-> ->].
  split; vm_compute; reflexivity.
Defined.

(** ** Two entries for one login name *)

Definition alice2 : Entry := person "uid=alice,cn=staff,dc=x" "alice" "Alice B" [].

Definition twinDirectory : Directory :=
  {| bindError := None;
     table := [("(&(objectClass=inetOrgPerson)(uid=alice))", found [alice; alice2])];
     byEntryDN := [] |}.

Definition aliceLogin : BasicLogin := {| Username := "alice"; Password := "wonderland" |}.

Lemma loginUser_wrong_entry_count_unauthorized_witness :
  (length (Entries {| Entries := [alice; alice2] |}) = 0
   \/ 1 < length (Entries {| Entries := [alice; alice2] |}))%nat
  /\ exists cause w',
       loginUser (Collaborators0 := collaborators twinDirectory)
         provider aliceLogin config (start twinDirectory)
       = Ret ((Principal_zero, [],
                Some (APIError Unauthorized "Unauthorized" (Some cause))), w').
Proof.
  split; [right; simpl; lia|].
  destruct (loginUser_wrong_entry_count_unauthorized
              (Collaborators0 := collaborators twinDirectory)
              provider aliceLogin config (start twinDirectory)
              (twinDirectory, [EvBind "uid=svc,cn=users,dc=x" "svc-secret"])
              twinDirectory {| Entries := [alice; alice2] |})
    as [cause Hrun].
  - discriminate.
  - reflexivity.
  - left. reflexivity.
  - reflexivity.
  - right. simpl. lia.
  - eauto.
Defined.

(** ** A login filter that does not compile *)

Definition badFilterConfig : LdapConfig :=
  {| Enabled := true;
     AccessMode := "unrestricted";
     AllowedPrincipalIDs := [];
     ServiceAccountDistinguishedName := "uid=svc,cn=users,dc=x";
     ServiceAccountPassword := "svc-secret";
     SearchUsingServiceAccount := false;
     UserSearchBase := "dc=x";
     UserObjectClass := "inetOrgPerson";
     UserLoginAttribute := "uid";
     UserNameAttribute := "cn";
     UserMemberAttribute := "memberOf";
     UserSearchAttribute := "uid|sn|uidNumber";
     UserLoginFilter := "(memberOf=cn=eng";
     UserSearchFilter := "";
     UserEnabledAttribute := "";
     UserDisabledBitMask := 0;
     GroupSearchBase := "";
     GroupObjectClass := "groupOfNames";
     GroupNameAttribute := "cn";
     GroupDNAttribute := "entryDN";
     GroupMemberUserAttribute := "entryDN";
     GroupMemberMappingAttribute := "member";
     GroupSearchAttribute := "cn";
     GroupSearchFilter := "";
     NestedGroupMembershipEnabled := false |}.

Definition unclosed : error := LdapError 201 "unexpected end of filter".

(** C7, counterexample.  The login filter does not compile and the
    password is empty: [loginUser] returns MissingRequired, not
    InvalidOption. *)
Lemma empty_password_precedes_filter_check :
  CompileFilter (UserLoginFilter badFilterConfig) = Some unclosed
  /\ loginUser (Collaborators0 := collaborators nestedDirectory) provider
       {| Username := "alice"; Password := "" |} badFilterConfig (start nestedDirectory)
     = Ret ((Principal_zero, [],
              Some (APIError MissingRequired "password not provided" None)),
            start nestedDirectory)
  /\ api_code (APIError MissingRequired "password not provided" None)
     <> Some InvalidOption.
Proof.
  split; [vm_compute; reflexivity|].
  split; [vm_compute; reflexivity | discriminate].
Qed.

Lemma loginUser_rejects_invalid_filter_witness :
  UserLoginFilter badFilterConfig <> ""
  /\ CompileFilter (UserLoginFilter badFilterConfig) = Some unclosed
  /\ loginUser (Collaborators0 := collaborators nestedDirectory) provider
       aliceLogin badFilterConfig (start nestedDirectory)
     = Ret ((Principal_zero, [],
              Some (APIError InvalidOption "invalid userLoginFilter" (Some unclosed))),
            (nestedDirectory, [EvBind "uid=svc,cn=users,dc=x" "svc-secret"])).
Proof.
  split; [discriminate|]. split; [reflexivity|].
  rewrite (loginUser_rejects_invalid_filter
             (Collaborators0 := collaborators nestedDirectory) provider aliceLogin
             badFilterConfig unclosed (start nestedDirectory));
    [reflexivity | discriminate | reflexivity].
Defined.


(** ** A parent query that fails *)

Definition unavailable : error := LdapError 52 "unavailable".

(** The fallback query finds [eng]; the query for the parents of
    [eng] fails. *)
Definition brokenDirectory : Directory :=
  {| bindError := None;
     table :=
       [("(&(member=uid=alice,cn=users,dc=x)(objectClass=groupOfNames))", found [eng]);
        ("(&(member=cn=eng,cn=groups,dc=x)(objectClass=groupOfNames))",
         (None, Some unavailable))];
     byEntryDN := [] |}.

Definition fallbackRequest : SearchRequest :=
  NewWholeSubtreeSearchRequest "dc=x"
    "(&(member=uid=alice,cn=users,dc=x)(objectClass=groupOfNames))"
    ["objectClass"; "cn"; "entryDN"].

Definition parentsOfEngRequest : SearchRequest :=
  NewWholeSubtreeSearchRequest "dc=x"
    "(&(member=cn=eng,cn=groups,dc=x)(objectClass=groupOfNames))"
    ["entryDN"; "member"; "objectClass"; "groupOfNames"; "uid"; "cn"; "cn"].

Definition brokenAfterFallback : World Directory :=
  (brokenDirectory,
   [EvBind "uid=svc,cn=users,dc=x" "svc-secret"; EvSearchWithPaging fallbackRequest 1000]).

Definition brokenAfterParents : World Directory :=
  (brokenDirectory,
   [EvBind "uid=svc,cn=users,dc=x" "svc-secret"; EvSearchWithPaging fallbackRequest 1000;
    EvSearchWithPaging parentsOfEngRequest 1000]).

Lemma brokenDirectory_direct :
  directGroups provider aliceResult aliceResult config (start brokenDirectory)
  = Ret (Groups alicePrincipal ([] ++ engPrincipal :: []) true, brokenAfterFallback).
Proof. vm_compute. reflexivity. Qed.

Lemma brokenDirectory_parents_fail :
  GatherParentGroups (Collaborators := collaborators brokenDirectory)
    engPrincipal (nestedSearchDomain config) (groupScope provider)
    (nestedCommonConfig config) ∅ [] (nestedSearchAttributes config) brokenAfterFallback
  = Ret ((Some unavailable, <[Name engPrincipal := true]> ∅, []), brokenAfterParents).
Proof. vm_compute. reflexivity. Qed.

Lemma traversal_error_not_propagated_witness :
  GatherParentGroups (Collaborators := collaborators brokenDirectory)
    engPrincipal (nestedSearchDomain config) (groupScope provider)
    (nestedCommonConfig config) ∅ [] (nestedSearchAttributes config) brokenAfterFallback
  = Ret ((Some unavailable, <[Name engPrincipal := true]> ∅, []), brokenAfterParents)
  /\ getPrincipalsFromSearchResult (Collaborators0 := collaborators brokenDirectory)
       provider aliceResult aliceResult config (start brokenDirectory)
     = Ret ((alicePrincipal, [engPrincipal], None), brokenAfterParents).
Proof.
  split; [exact brokenDirectory_parents_fail|].
  apply (traversal_error_not_propagated
           (Collaborators0 := collaborators brokenDirectory)
           provider aliceResult aliceResult config (start brokenDirectory)
           brokenAfterFallback brokenAfterFallback brokenAfterParents
           alicePrincipal [] [] engPrincipal true
           ∅ (<[Name engPrincipal := true]> ∅) [] [] unavailable).
  - exact brokenDirectory_direct.
  - reflexivity.
  - reflexivity.
  - exact brokenDirectory_parents_fail.
Defined.

(** ** A service account with a wrong password *)

Definition invalidCredentials : error := LdapError 49 "Invalid Credentials".

Definition lockedDirectory : Directory :=
  {| bindError := Some invalidCredentials; table := []; byEntryDN := [] |}.

Lemma getPrincipal_invalid_credentials_principal_from_dn_witness :
  conn_Bind (GetUserExternalID (ServiceAccountDistinguishedName config) "")
    (ServiceAccountPassword config) lockedDirectory
  = (Some invalidCredentials, lockedDirectory)
  /\ IsErrorWithCode invalidCredentials LDAPResultInvalidCredentials = true
  /\ Enabled config = true
  /\ exists kind,
       getPrincipal (Collaborators0 := collaborators lockedDirectory) provider
         "cn=eng,cn=groups,dc=x" "freeipa_group" config tt
       = Ret ((Some {| Name := "freeipa_group://cn=eng,cn=groups,dc=x";
                       DisplayName := "cn=eng,cn=groups,dc=x";
                       LoginName := "cn=eng,cn=groups,dc=x";
                       PrincipalType := kind |}, None),
              [EvBind "uid=svc,cn=users,dc=x" "svc-secret"; EvClose]).
Proof.
  split; [reflexivity|]. split; [reflexivity|]. split; [reflexivity|].
  destruct (getPrincipal_invalid_credentials_principal_from_dn
              (Collaborators0 := collaborators lockedDirectory) provider
              "cn=eng,cn=groups,dc=x" "freeipa_group" "group" config tt
              [[("cn", "eng")]; [("cn", "groups")]; [("dc", "x")]]
              lockedDirectory lockedDirectory invalidCredentials)
    as [kind Hrun].
  - right. reflexivity.
  - reflexivity.
  - right. reflexivity.
  - reflexivity.
  - reflexivity.
  - reflexivity.
  - reflexivity.
  - reflexivity.
  - exists kind. exact Hrun.
Defined.

(** The principal of that run is of kind "group". *)
Example getPrincipal_locked_result :
  getPrincipal (Collaborators0 := collaborators lockedDirectory) provider
    "cn=eng,cn=groups,dc=x" "freeipa_group" config tt
  = Ret ((Some {| Name := "freeipa_group://cn=eng,cn=groups,dc=x";
                  DisplayName := "cn=eng,cn=groups,dc=x";
                  LoginName := "cn=eng,cn=groups,dc=x";
                  PrincipalType := "group" |}, None),
         [EvBind "uid=svc,cn=users,dc=x" "svc-secret"; EvClose]).
Proof. vm_compute. reflexivity. Qed.

End Sample.

(** * Inverting runs *)

Lemma ret_inv {C A} (a b : A) (w w' : World C) :
  ret a w = Ret (b, w') -> a = b /\ w = w'.
Proof. unfold ret. by intros [= -> ->]. Qed.

Lemma index_inv {C A} (l : list A) (i : nat) (w w' : World C) a :
  index l i w = Ret (a, w') -> nth_error l i = Some a /\ w = w'.
Proof.
  unfold index. destruct (nth_error l i); [|discriminate].
  by intros [-> ->]%ret_inv.
Qed.

Lemma deref_inv {C A} (o : option A) (w w' : World C) a :
  deref o w = Ret (a, w') -> o = Some a /\ w = w'.
Proof.
  unfold deref. destruct o; [|discriminate]. by intros [-> ->]%ret_inv.
Qed.

Lemma Bind_inv {C} `{!Client C} dn pw (c : C) log err w' :
  Bind dn pw (c, log) = Ret (err, w') ->
  exists c', conn_Bind dn pw c = (err, c') /\ w' = (c', log ++ [EvBind dn pw]).
Proof.
  unfold Bind. destruct (conn_Bind dn pw c) as [e c'] eqn:Hb.
  intros [= <- <-]. eauto.
Qed.

Lemma SearchConn_inv {C} `{!Client C} req (c : C) log r w' :
  SearchConn req (c, log) = Ret (r, w') ->
  exists c', conn_Search req c = (r, c') /\ w' = (c', log ++ [EvSearch req]).
Proof.
  unfold SearchConn. destruct (conn_Search req c) as [x c'] eqn:Hb.
  intros [= <- <-]. eauto.
Qed.

Lemma SearchWithPaging_inv {C} `{!Client C} req n (c : C) log r w' :
  SearchWithPaging req n (c, log) = Ret (r, w') ->
  exists c', conn_SearchWithPaging req n c = (r, c')
             /\ w' = (c', log ++ [EvSearchWithPaging req n]).
Proof.
  unfold SearchWithPaging. destruct (conn_SearchWithPaging req n c) as [x c'] eqn:Hb.
  intros [= <- <-]. eauto.
Qed.

(** * More on searchLdap *)

Section SearchLdapMore.
Context {C : Type} `{!Client C} `{!Helpers}.

(** The principal [searchLdap] makes of one entry. *)
Definition entryPrincipal (p : ldapProvider) (scope entityType : string)
    (config : LdapConfig) (entry : Entry) : option Principal * option error :=
  AttributesToPrincipal (Attributes entry)
    (externalIDOf p entityType config entry) scope (providerName p)
    (UserObjectClass config) (UserNameAttribute config)
    (UserLoginAttribute config) (GroupObjectClass config)
    (GroupNameAttribute config).

Lemma searchLdap_entries_inv p scope entityType config entries :
  forall acc (w w' : World C) ps err,
    searchLdap_entries p scope entityType config entries acc w = Ret ((ps, err), w') ->
    w' = w
    /\ ((err = None
         /\ exists new, ps = acc ++ new
              /\ Forall2 (fun e pr => entryPrincipal p scope entityType config e
                                      = (Some pr, None)) entries new)
        \/ (err <> None /\ ps = [])).
Proof.
  induction entries as [|entry rest IH]; intros acc w w' ps err Hrun.
  - apply ret_inv in Hrun as [[= <- <-] <-]. split; [reflexivity|]. left.
    split; [reflexivity|]. exists []. rewrite app_nil_r. split; [reflexivity | constructor].
  - cbn [searchLdap_entries] in Hrun. fold (entryPrincipal p scope entityType config entry) in Hrun.
    destruct (entryPrincipal p scope entityType config entry) as [principal [e|]] eqn:Hp.
    + apply ret_inv in Hrun as [[= <- <-] <-]. split; [reflexivity|]. right. by split.
    + apply bind_inv in Hrun as (pr & w1 & [-> ->]%deref_inv & Hrun).
      apply IH in Hrun as [-> Hcases]. split; [reflexivity|].
      destruct Hcases as [(-> & new & -> & Hall)|[Herr ->]]; [left | right; by split].
      split; [reflexivity|]. exists (pr :: new). rewrite <- app_assoc. split; [reflexivity|].
      constructor; [exact Hp | exact Hall].
Qed.

(** What a run of [searchLdap] that returns has done. *)
Lemma searchLdap_inv p query scope config (c c' : C) (log log' : list Event) ps err :
  searchLdap p query scope config (c, log) = Ret ((ps, err), (c', log')) ->
  let sa := GetUserExternalID (ServiceAccountDistinguishedName config) "" in
  let pw := ServiceAccountPassword config in
  exists entityType,
    nth_error (Str.Split scope "_"%char) 1 = Some entityType
    /\ ((exists e, conn_Bind sa pw c = (Some e, c')
                   /\ ps = [] /\ err = Some (WrapError "ldap: error binding service account: " e)
                   /\ log' = log ++ [EvBind sa pw])
        \/ (exists c1 reply,
              conn_Bind sa pw c = (None, c1)
              /\ conn_SearchWithPaging (searchLdap_request query entityType config) 1000 c1
                 = (reply, c')
              /\ log' = (log ++ [EvBind sa pw])
                          ++ [EvSearchWithPaging (searchLdap_request query entityType config) 1000]
              /\ ((err = None
                   /\ exists results, fst reply = Some results
                        /\ Forall2 (fun e pr => entryPrincipal p scope entityType config e
                                                = (Some pr, None)) (Entries results) ps)
                  \/ (err <> None /\ ps = [])))).
Proof.
  intros Hrun sa pw. unfold searchLdap in Hrun.
  apply bind_inv in Hrun as (entityType & w0 & [Hsplit <-]%index_inv & Hrun).
  exists entityType. split; [exact Hsplit|].
  apply bind_inv in Hrun as (berr & w1 & (c1 & Hbind & ->)%Bind_inv & Hrun).
  destruct berr as [e|].
  - apply ret_inv in Hrun as [[= <- <-] [= <- <-]]. left. exists e. auto.
  - right.
    apply bind_inv in Hrun as ([results serr] & w2 & (c2 & Hsearch & ->)%SearchWithPaging_inv & Hrun).
    assert (forall r, (let* results := deref results in
                       searchLdap_entries p scope entityType config (Entries results) [])
                        (c2, (log ++ [EvBind sa pw])
                               ++ [EvSearchWithPaging (searchLdap_request query entityType config) 1000])
                      = Ret ((ps, err), (c', log')) ->
              r = (results, serr) ->
              c' = c2
              /\ log' = (log ++ [EvBind sa pw])
                          ++ [EvSearchWithPaging (searchLdap_request query entityType config) 1000]
              /\ ((err = None
                   /\ exists res, fst r = Some res
                        /\ Forall2 (fun e pr => entryPrincipal p scope entityType config e
                                                = (Some pr, None)) (Entries res) ps)
                  \/ (err <> None /\ ps = []))) as Hentries.
    { intros r Hr ->.
      apply bind_inv in Hr as (res & w3 & [-> <-]%deref_inv & Hr).
      apply searchLdap_entries_inv in Hr as [[= <- <-] Hcases].
      split; [reflexivity|]. split; [reflexivity|].
      destruct Hcases as [(-> & new & -> & Hall)|[Herr ->]]; [left | right; by split].
      split; [reflexivity|]. exists res. split; [reflexivity | exact Hall]. }
    exists c1, (results, serr).
    destruct serr as [e|].
    + destruct (search_error_returned e).
      * apply ret_inv in Hrun as [[= <- <-] [= <- <-]].
        split; [exact Hbind|]. split; [exact Hsearch|]. split; [reflexivity|].
        right. by split.
      * destruct (Hentries _ Hrun eq_refl) as (-> & -> & Hc). auto.
    + destruct (Hentries _ Hrun eq_refl) as (-> & -> & Hc). auto.
Qed.

End SearchLdapMore.

(** A string without the separator is its own single piece. *)
Lemma Split_no_separator (s : string) (sep : ascii) :
  (forall c, In c (Str.bytes s) -> c <> sep) -> Str.Split s sep = [s].
Proof.
  induction s as [|c s IH]; intros Hno; [reflexivity|].
  cbn [Str.Split].
  assert (Ascii.eqb c sep = false) as ->.
  { apply Ascii.eqb_neq. apply Hno. by left. }
  rewrite IH; [reflexivity|]. intros x Hx. apply Hno. by right.
Qed.

Section SearchLdapProperties.
Context {C : Type} `{!Client C} `{!Helpers}.

(** X1.  [searchLdap] never returns principals together with an error:
    whichever step failed (the bind, the search, or the mapping of an
    entry after others were mapped), the list returned is empty. *)
Theorem searchLdap_error_returns_no_principals (p : ldapProvider)
    (query scope : string) (config : LdapConfig) (w w' : World C)
    (ps : list Principal) (e : error) :
  searchLdap p query scope config w = Ret ((ps, Some e), w') -> ps = [].
Proof.
  destruct w as [c log], w' as [c' log']. intros Hrun.
  apply searchLdap_inv in Hrun as (et & _ & [(e' & _ & -> & _)|(c1 & reply & _ & _ & _ & Hc)]);
    [reflexivity|].
  destruct Hc as [[Hnone _]|[_ ->]]; [discriminate | reflexivity].
Qed.

(** X2.  Whenever [searchLdap] returns, it has bound as the service
    account first and then issued at most one operation more: a paged
    search of page size 1000 over the whole subtree whose filter is the
    query, under the user search base, or for a non-user scope under the
    group search base when one is configured. *)
Theorem searchLdap_binds_then_searches_once (p : ldapProvider)
    (query scope : string) (config : LdapConfig) (c c' : C)
    (log log' : list Event) (r : list Principal * option error) :
  searchLdap p query scope config (c, log) = Ret (r, (c', log')) ->
  let bound := EvBind (GetUserExternalID (ServiceAccountDistinguishedName config) "")
                 (ServiceAccountPassword config) in
  (log' = log ++ [bound] /\ snd r <> None)
  \/ exists req,
       log' = log ++ [bound; EvSearchWithPaging req 1000]
       /\ Filter req = query
       /\ Scope req = ScopeWholeSubtree
       /\ (BaseDN req = UserSearchBase config
           \/ (BaseDN req = GroupSearchBase config /\ GroupSearchBase config <> "")).
Proof.
  destruct r as [ps err]. intros Hrun bound.
  apply searchLdap_inv in Hrun
    as (et & _ & [(e & _ & _ & -> & ->)|(c1 & reply & _ & _ & -> & _)]).
  - left. by split.
  - right. exists (searchLdap_request query et config).
    split; [by rewrite <- app_assoc|].
    unfold searchLdap_request.
    destruct (EqualFold "user" et); cbn; [auto|].
    destruct (Str.eqb (GroupSearchBase config) "") eqn:Hbase; cbn; [auto|].
    apply Str.eqb_neq in Hbase. auto 6.
Qed.

(** X3.  When [searchLdap] returns without an error, the principals are
    the entries of the search result mapped one by one, in order: as
    many principals as entries, none dropped and none added. *)
Theorem searchLdap_maps_every_entry (p : ldapProvider)
    (query scope : string) (config : LdapConfig) (c c' : C)
    (log log' : list Event) (ps : list Principal) :
  searchLdap p query scope config (c, log) = Ret ((ps, None), (c', log')) ->
  exists entityType c1 results serr,
    nth_error (Str.Split scope "_"%char) 1 = Some entityType
    /\ conn_SearchWithPaging (searchLdap_request query entityType config) 1000 c1
       = ((Some results, serr), c')
    /\ length ps = length (Entries results)
    /\ Forall2 (fun e pr => entryPrincipal p scope entityType config e = (Some pr, None))
         (Entries results) ps.
Proof.
  intros Hrun.
  apply searchLdap_inv in Hrun
    as (et & Hsplit & [(e & _ & _ & [=] & _)|(c1 & [res serr] & _ & Hsearch & _ & Hc)]).
  destruct Hc as [(_ & results & Hres & Hall)|[Herr _]]; [|by destruct Herr].
  simpl in Hres. subst res.
  exists et, c1, results, serr. repeat split; auto.
  symmetry. eapply Forall2_length, Hall.
Qed.

(** X4.  A scope tag without an underscore makes [searchLdap] panic on
    the index [1] of the split scope, before the connection is used. *)
Theorem searchLdap_scope_without_underscore_panics (p : ldapProvider)
    (query scope : string) (config : LdapConfig) (w : World C) :
  (forall ch, In ch (Str.bytes scope) -> ch <> "_"%char) ->
  searchLdap p query scope config w = Panic.
Proof.
  intros Hno. unfold searchLdap, index.
  rewrite (Split_no_separator _ _ Hno). reflexivity.
Qed.

(** X5.  When the service-account bind fails, [searchLdap] returns no
    principals and an error wrapping the bind error, and issues no
    search: the bind is the only operation on the connection. *)
Theorem searchLdap_bind_failure_no_search (p : ldapProvider)
    (query scope entityType : string) (config : LdapConfig) (c c1 : C)
    (log : list Event) (e : error) :
  nth_error (Str.Split scope "_"%char) 1 = Some entityType ->
  conn_Bind (GetUserExternalID (ServiceAccountDistinguishedName config) "")
    (ServiceAccountPassword config) c = (Some e, c1) ->
  searchLdap p query scope config (c, log)
  = Ret (([], Some (WrapError "ldap: error binding service account: " e)),
         (c1, log ++ [EvBind (GetUserExternalID (ServiceAccountDistinguishedName config) "")
                        (ServiceAccountPassword config)])).
Proof.
  intros Hsplit Hbind. unfold searchLdap, index. rewrite Hsplit, bind_ret_l.
  rewrite (bind_Ret _ _ _ _ _ (Bind_run _ _ _ _ _ _ Hbind)). reflexivity.
Qed.

End SearchLdapProperties.

(** * searchPrincipals *)

Section SearchPrincipals.
Context {C : Type} `{!Client C} `{!Helpers}.

(** X6.  For a principal type other than the empty one, "user" and
    "group", [searchPrincipals] returns no principal and no error, and
    does not use the connection. *)
Theorem searchPrincipals_unknown_type (p : ldapProvider) (name principalType : string)
    (config : LdapConfig) (w : World C) :
  principalType <> "" -> principalType <> "user" -> principalType <> "group" ->
  searchPrincipals p name principalType config w = Ret (([], None), w).
Proof.
  intros H0 H1 H2. apply Str.eqb_neq in H0, H1, H2.
  unfold searchPrincipals. rewrite H0, H1, H2. reflexivity.
Qed.

(** X7.  With the empty principal type, a [searchPrincipals] that
    returns without an error ran the user search and then the group
    search, both without an error, and returns the users followed by the
    groups. *)
Theorem searchPrincipals_users_then_groups (p : ldapProvider) (name : string)
    (config : LdapConfig) (w w' : World C) (ps : list Principal) :
  searchPrincipals p name "" config w = Ret ((ps, None), w') ->
  exists users groups w1,
    searchUser p name config w = Ret ((users, None), w1)
    /\ searchGroup p name config w1 = Ret ((groups, None), w')
    /\ ps = users ++ groups.
Proof.
  unfold searchPrincipals. cbn [Str.eqb String.eqb orb].
  intros Hrun.
  apply bind_inv in Hrun as ([us uerr] & w1 & Huser & Hrun).
  apply bind_inv in Huser as ([us' uerr'] & w1' & Huser & Hret).
  destruct uerr' as [e|]; apply ret_inv in Hret as [[= <- <-] <-]; [discriminate Hrun|].
  apply bind_inv in Hrun as ([gs gerr] & w2 & Hgroup & Hret).
  destruct gerr as [e|]; apply ret_inv in Hret as [[= <-] <-].
  exists us', gs, w1'. auto.
Qed.

(** X8.  A configured user search filter that does not compile stops
    [searchPrincipals] for the empty type and for "user" with the error
    "invalid user search filter": the connection is not used and the
    group search is not attempted. *)
Theorem searchPrincipals_invalid_user_filter (p : ldapProvider)
    (name principalType : string) (config : LdapConfig) (e : error) (w : World C) :
  principalType = "" \/ principalType = "user" ->
  UserSearchFilter config <> "" ->
  CompileFilter (UserSearchFilter config) = Some e ->
  searchPrincipals p name principalType config w
  = Ret (([], Some (PlainError "invalid user search filter")), w).
Proof.
  intros Htype Hne Hbad. apply Str.eqb_neq in Hne.
  unfold searchPrincipals, searchUser. rewrite Hne. cbn [negb]. rewrite Hbad.
  destruct Htype as [-> | ->]; reflexivity.
Qed.

End SearchPrincipals.

(** * More on getPrincipal *)

Section GetPrincipalMore.
Context {C : Type} `{!Client C} `{!Helpers} `{!Collaborators C}.

(** The error [getPrincipal] makes of a failed search (lines 338-343). *)
Definition getPrincipal_search_error (distinguishedName filter : string) (e : error) : error :=
  if match as_ldap_error e with Some code => code =? 32 | None => false end then
    NewAPIError NotFound (Str.Sprintf "%s not found" [distinguishedName])
  else
    WrapAPIError
      (Some (WrapError
         (Str.Sprintf "server returned error for search %s %s: " [distinguishedName; filter]) e))
      ServerError "Internal server error".

(** The request of the one search of [getPrincipal] (lines 324-335). *)
Definition getPrincipal_request (distinguishedName entityType : string)
    (config : LdapConfig) : SearchRequest :=
  NewBaseObjectSearchRequest distinguishedName (objectClassFilter entityType config)
    (if EqualFold "user" entityType then GetUserSearchAttributes config ObjectClass
     else GetGroupSearchAttributes config ObjectClass).

(** What a run of the connected part of [getPrincipal] that returns
    has done. *)
Lemma getPrincipal_connected_inv p dn scope entityType config
    (c c' : C) (log log' : list Event) pr err :
  getPrincipal_connected p dn scope entityType config (c, log) = Ret ((pr, err), (c', log')) ->
  let sa := GetUserExternalID (ServiceAccountDistinguishedName config) "" in
  let pw := ServiceAccountPassword config in
  let req := getPrincipal_request dn entityType config in
  (exists e,
      conn_Bind sa pw c = (Some e, c') /\ log' = log ++ [EvBind sa pw]
      /\ ((IsErrorWithCode e LDAPResultInvalidCredentials && Enabled config = true
           /\ pr = Some (principalFromDN dn scope entityType) /\ err = None)
          \/ (IsErrorWithCode e LDAPResultInvalidCredentials && Enabled config = false
              /\ pr = None /\ err = Some (WrapError "Error in ldap bind: " e))))
  \/ (exists c1 reply,
        conn_Bind sa pw c = (None, c1)
        /\ conn_Search req c1 = (reply, c')
        /\ log' = log ++ [EvBind sa pw; EvSearch req]
        /\ ((exists e, snd reply = Some e /\ pr = None
                       /\ err = Some (getPrincipal_search_error dn
                                        (objectClassFilter entityType config) e))
            \/ (snd reply = None
                /\ exists res, fst reply = Some res
                     /\ ((pr = None /\ err <> None
                          /\ (length (Entries res) <> 1%nat
                              \/ exists entry, Entries res = [entry]
                                   /\ (permissionCheck (Attributes entry) config = false
                                       \/ snd (AttributesToPrincipal (Attributes entry) dn scope
                                                 (providerName p) (UserObjectClass config)
                                                 (UserNameAttribute config)
                                                 (UserLoginAttribute config)
                                                 (GroupObjectClass config)
                                                 (GroupNameAttribute config)) <> None)))
                         \/ (err = None
                             /\ exists entry, Entries res = [entry]
                                  /\ permissionCheck (Attributes entry) config = true
                                  /\ AttributesToPrincipal (Attributes entry) dn scope
                                       (providerName p) (UserObjectClass config)
                                       (UserNameAttribute config) (UserLoginAttribute config)
                                       (GroupObjectClass config) (GroupNameAttribute config)
                                     = (pr, None)))))).
Proof.
  intros Hrun sa pw req. unfold getPrincipal_connected in Hrun.
  apply bind_inv in Hrun as (berr & w1 & (c1 & Hbind & ->)%Bind_inv & Hrun).
  destruct berr as [e|].
  - left. exists e.
    destruct (IsErrorWithCode e LDAPResultInvalidCredentials && Enabled config) eqn:Hc;
      apply ret_inv in Hrun as [[= <- <-] [= <- <-]]; auto 8.
  - right.
    apply bind_inv in Hrun as ([result serr] & w2 & (c2 & Hsearch & ->)%SearchConn_inv & Hrun).
    fold req in Hsearch.
    destruct serr as [e|].
    + assert (pr = None /\ err = Some (getPrincipal_search_error dn
                                         (objectClassFilter entityType config) e)
              /\ c' = c2 /\ log' = (log ++ [EvBind sa pw]) ++ [EvSearch req])
        as (-> & -> & -> & ->).
      { unfold getPrincipal_search_error.
        destruct (as_ldap_error e) as [code|];
          [|apply ret_inv in Hrun as [[= <- <-] [= <- <-]]; auto].
        destruct (code =? 32) eqn:Hcode.
        - apply Z.eqb_eq in Hcode. subst code.
          apply ret_inv in Hrun as [[= <- <-] [= <- <-]]. auto.
        - apply Z.eqb_neq in Hcode.
          destruct code as [|q|q]; try (apply ret_inv in Hrun as [[= <- <-] [= <- <-]]; auto).
          repeat (destruct q as [q|q|];
                  try (apply ret_inv in Hrun as [[= <- <-] [= <- <-]]; auto)).
          by destruct Hcode. }
      exists c1, (result, Some e). rewrite <- app_assoc. eauto 10.
    + apply bind_inv in Hrun as (res & w3 & [-> <-]%deref_inv & Hrun).
      assert (c' = c2 /\ log' = (log ++ [EvBind sa pw]) ++ [EvSearch req]
              /\ ((pr = None /\ err <> None
                   /\ (length (Entries res) <> 1%nat
                       \/ exists entry, Entries res = [entry]
                            /\ (permissionCheck (Attributes entry) config = false
                                \/ snd (AttributesToPrincipal (Attributes entry) dn scope
                                          (providerName p) (UserObjectClass config)
                                          (UserNameAttribute config)
                                          (UserLoginAttribute config)
                                          (GroupObjectClass config)
                                          (GroupNameAttribute config)) <> None)))
                  \/ (err = None
                      /\ exists entry, Entries res = [entry]
                           /\ permissionCheck (Attributes entry) config = true
                           /\ AttributesToPrincipal (Attributes entry) dn scope
                                (providerName p) (UserObjectClass config)
                                (UserNameAttribute config) (UserLoginAttribute config)
                                (GroupObjectClass config) (GroupNameAttribute config)
                              = (pr, None)))) as (-> & -> & Hcases).
      { destruct (Entries res) as [|entry [|entry2 more]] eqn:Hentries.
        - apply ret_inv in Hrun as [[= <- <-] [= <- <-]].
          split; [reflexivity|]. split; [reflexivity|]. left. simpl. auto.
        - destruct (permissionCheck (Attributes entry) config) eqn:Hperm; cbn [negb] in Hrun.
          + destruct (AttributesToPrincipal _ _ _ _ _ _ _ _ _) as [principal [e|]] eqn:Ha;
              apply ret_inv in Hrun as [[= <- <-] [= <- <-]];
              (split; [reflexivity|]); (split; [reflexivity|]).
            * left. split; [reflexivity|]. split; [discriminate|]. right.
              exists entry. split; [reflexivity|]. right. rewrite Ha. discriminate.
            * right. split; [reflexivity|]. exists entry. auto.
          + apply ret_inv in Hrun as [[= <- <-] [= <- <-]].
            split; [reflexivity|]. split; [reflexivity|]. left.
            split; [reflexivity|]. split; [discriminate|]. right. exists entry. auto.
        - apply ret_inv in Hrun as [[= <- <-] [= <- <-]].
          split; [reflexivity|]. split; [reflexivity|]. left. simpl. auto. }
      exists c1, (Some res, None). split; [exact Hbind|]. split; [exact Hsearch|].
      split; [by rewrite <- app_assoc|]. right. split; [reflexivity|]. exists res. auto.
Qed.

(** What a run of [getPrincipal] that returns has done. *)
Lemma getPrincipal_inv p dn scope config caPool pr err log :
  getPrincipal p dn scope config caPool = Ret ((pr, err), log) ->
  (log = [] /\ (pr = None))
  \/ exists entityType c c' log1,
       nth_error (Str.Split scope "_"%char) 1 = Some entityType
       /\ Connect config caPool = (Some c, None)
       /\ getPrincipal_connected p dn scope entityType config (c, [])
          = Ret ((pr, err), (c', log1))
       /\ log = log1 ++ [EvClose].
Proof.
  unfold getPrincipal. intros Hrun.
  destruct (negb (Str.eqb scope (userScope p)) && negb (Str.eqb scope (groupScope p)));
    [injection Hrun as <- <- <-; by left|].
  destruct (ParseDN dn) as [rdns|e]; [|injection Hrun as <- <- <-; by left].
  destruct (negb (IsType (dnAttributes rdns) scope)
            && negb (permissionCheck (dnAttributes rdns) config));
    [injection Hrun as <- <- <-; by left|].
  destruct (nth_error (Str.Split scope "_"%char) 1) as [entityType|]; [|discriminate].
  destruct (Connect config caPool) as [lConn [e|]] eqn:Hconn;
    [injection Hrun as <- <- <-; by left|].
  destruct lConn as [c|]; [|discriminate].
  destruct (getPrincipal_connected p dn scope entityType config (c, []))
    as [[r [c' log1]]| |] eqn:Hc; try discriminate.
  injection Hrun as -> <-. right. exists entityType, c, c', log1. auto.
Qed.

End GetPrincipalMore.

Section GetPrincipalProperties.
Context {C : Type} `{!Client C} `{!Helpers} `{!Collaborators C}.

(** X9.  [getPrincipal] never returns a principal together with an
    error. *)
Theorem getPrincipal_principal_or_error (p : ldapProvider)
    (distinguishedName scope : string) (config : LdapConfig) (caPool : CertPool)
    (pr : option Principal) (err : option error) (log : list Event) :
  getPrincipal p distinguishedName scope config caPool = Ret ((pr, err), log) ->
  pr = None \/ err = None.
Proof.
  intros Hrun.
  apply getPrincipal_inv in Hrun as [[_ ->]|(et & c & c' & log1 & _ & _ & Hc & _)];
    [by left|].
  apply getPrincipal_connected_inv in Hc
    as [(e & _ & _ & [(_ & _ & ->)|(_ & -> & _)])|(c1 & reply & _ & _ & _ & Hs)]; auto.
  destruct Hs as [(e & _ & -> & _)|(_ & res & _ & [(-> & _)|(-> & _)])]; auto.
Qed.

(** X10.  Whenever [getPrincipal] returns, the connection it opened
    (if it got that far) saw the service-account bind first, then at
    most one search, a base-object search at the distinguished name
    asked for, and last the close; without a connection there is no
    principal. *)
Theorem getPrincipal_connection_use (p : ldapProvider)
    (distinguishedName scope : string) (config : LdapConfig) (caPool : CertPool)
    (pr : option Principal) (err : option error) (log : list Event) :
  getPrincipal p distinguishedName scope config caPool = Ret ((pr, err), log) ->
  let bound := EvBind (GetUserExternalID (ServiceAccountDistinguishedName config) "")
                 (ServiceAccountPassword config) in
  (log = [] /\ pr = None)
  \/ log = [bound; EvClose]
  \/ exists req,
       log = [bound; EvSearch req; EvClose]
       /\ BaseDN req = distinguishedName /\ Scope req = ScopeBaseObject.
Proof.
  intros Hrun bound.
  apply getPrincipal_inv in Hrun as [Hnil|(et & c & c' & log1 & _ & _ & Hc & ->)];
    [by left|].
  right.
  apply getPrincipal_connected_inv in Hc
    as [(e & _ & -> & _)|(c1 & reply & _ & _ & -> & _)].
  - by left.
  - right. exists (getPrincipal_request distinguishedName et config). auto.
Qed.

(** X11.  A principal returned by [getPrincipal] is either the one made
    from the distinguished name alone after a failed bind, or the
    mapping, under the distinguished name asked for, of the single entry
    the search returned, which passed the permission check. *)
Theorem getPrincipal_principal_origin (p : ldapProvider)
    (distinguishedName scope : string) (config : LdapConfig) (caPool : CertPool)
    (pr : Principal) (err : option error) (log : list Event) :
  getPrincipal p distinguishedName scope config caPool = Ret ((Some pr, err), log) ->
  exists entityType,
    nth_error (Str.Split scope "_"%char) 1 = Some entityType
    /\ ((pr = principalFromDN distinguishedName scope entityType
         /\ Forall (fun ev => is_search ev = false) log)
        \/ exists c1 c' res entry serr,
             conn_Search (getPrincipal_request distinguishedName entityType config) c1
             = ((Some res, serr), c')
             /\ Entries res = [entry]
             /\ permissionCheck (Attributes entry) config = true
             /\ AttributesToPrincipal (Attributes entry) distinguishedName scope
                  (providerName p) (UserObjectClass config) (UserNameAttribute config)
                  (UserLoginAttribute config) (GroupObjectClass config)
                  (GroupNameAttribute config)
                = (Some pr, None)).
Proof.
  intros Hrun.
  apply getPrincipal_inv in Hrun as [[_ [=]]|(et & c & c' & log1 & Hsplit & _ & Hc & ->)].
  exists et. split; [exact Hsplit|].
  apply getPrincipal_connected_inv in Hc
    as [(e & _ & -> & [(_ & [= ->] & _)|(_ & [=] & _)])|(c1 & [r serr] & _ & Hsearch & _ & Hs)].
  - left. split; [reflexivity|]. repeat constructor.
  - right.
    destruct Hs as [(e & _ & [=] & _)|(_ & res & Hres & [([=] & _)|(_ & entry & He & Hperm & Ha)])].
    simpl in Hres. subst r. exists c1, c', res, entry, serr. auto.
Qed.

(** X12.  When the search of [getPrincipal] fails, the error returned
    is an API error: NotFound when the error is a directory error with
    result code 32 (no such object), ServerError for every other error,
    directory error or not. *)
Theorem getPrincipal_search_failure (p : ldapProvider)
    (distinguishedName scope entityType : string) (config : LdapConfig)
    (caPool : CertPool) (rdns : list (list (string * string)))
    (c c1 c2 : C) (result : option SearchResult) (e : error) :
  (scope = userScope p \/ scope = groupScope p) ->
  ParseDN distinguishedName = inl rdns ->
  (IsType (dnAttributes rdns) scope = true
   \/ permissionCheck (dnAttributes rdns) config = true) ->
  nth_error (Str.Split scope "_"%char) 1 = Some entityType ->
  Connect config caPool = (Some c, None) ->
  conn_Bind (GetUserExternalID (ServiceAccountDistinguishedName config) "")
    (ServiceAccountPassword config) c = (None, c1) ->
  conn_Search (getPrincipal_request distinguishedName entityType config) c1
    = ((result, Some e), c2) ->
  exists err log,
    getPrincipal p distinguishedName scope config caPool = Ret ((None, Some err), log)
    /\ api_code err
       = Some (if match as_ldap_error e with Some code => code =? 32 | None => false end
               then NotFound else ServerError).
Proof.
  intros Hscope Hdn Hperm Hsplit Hconn Hbind Hsearch.
  unfold getPrincipal.
  assert (negb (Str.eqb scope (userScope p)) && negb (Str.eqb scope (groupScope p))
          = false) as ->.
  { destruct Hscope as [<-|<-]; rewrite Str.eqb_refl; simpl;
      [reflexivity | apply andb_false_r]. }
  rewrite Hdn.
  assert (negb (IsType (dnAttributes rdns) scope)
          && negb (permissionCheck (dnAttributes rdns) config) = false) as ->.
  { destruct Hperm as [-> | ->]; simpl; [reflexivity | apply andb_false_r]. }
  rewrite Hsplit, Hconn.
  destruct (getPrincipal_connected p distinguishedName scope entityType config (c, []))
    as [[[pr err] [c' log1]]| |] eqn:Hc.
  - apply getPrincipal_connected_inv in Hc
      as [(e' & Hb & _)|(c1' & reply & Hb & Hs & _ & Hcases)]; [congruence|].
    rewrite Hbind in Hb. injection Hb as <-. rewrite Hsearch in Hs. injection Hs as <- <-.
    destruct Hcases as [(e' & [= <-] & -> & ->)|([=] & _)].
    eexists _, _. split; [reflexivity|].
    unfold getPrincipal_search_error.
    destruct (match as_ldap_error e with Some code => code =? 32 | None => false end);
      reflexivity.
  - exfalso. unfold getPrincipal_connected in Hc.
    rewrite (bind_Ret _ _ _ _ _ (Bind_run _ _ _ _ _ _ Hbind)) in Hc.
    fold (getPrincipal_request distinguishedName entityType config) in Hc.
    rewrite (bind_Ret _ _ _ _ _ (SearchConn_run _ _ _ _ _ Hsearch)) in Hc.
    destruct (as_ldap_error e) as [[|q|q]|]; try discriminate Hc.
    repeat (destruct q as [q|q|]; try discriminate Hc).
  - exfalso. unfold getPrincipal_connected in Hc.
    rewrite (bind_Ret _ _ _ _ _ (Bind_run _ _ _ _ _ _ Hbind)) in Hc.
    fold (getPrincipal_request distinguishedName entityType config) in Hc.
    rewrite (bind_Ret _ _ _ _ _ (SearchConn_run _ _ _ _ _ Hsearch)) in Hc.
    destruct (as_ldap_error e) as [[|q|q]|]; try discriminate Hc.
    repeat (destruct q as [q|q|]; try discriminate Hc).
Qed.

End GetPrincipalProperties.

(** * More on loginUser *)

Section LoginMore.
Context {C : Type} `{!Client C} `{!Helpers} `{!Collaborators C}.

Lemma loginSearchError_none (searchRequest : SearchRequest) (reply : SearchReply)
    (w w' : World C) :
  loginSearchError searchRequest reply w = Ret (None, w') ->
  w' = w /\ exists result entry, reply = (Some result, None) /\ Entries result = [entry].
Proof.
  unfold loginSearchError. destruct reply as [r [e|]]; cbn [snd fst].
  - intros [[=] _]%ret_inv.
  - intros Hrun. apply bind_inv in Hrun as (result & w1 & [-> <-]%deref_inv & Hrun).
    destruct (Entries result) as [|entry [|entry2 more]] eqn:Hentries; cbn in Hrun;
      apply ret_inv in Hrun as [[=] <-].
    split; [reflexivity|]. exists result, entry. auto.
Qed.

(** What a run of [loginFound] that returns has done: an error comes
    with the zero principal and no groups; a success had the user bind
    succeed and the access check allow. *)
Lemma loginFound_inv p credentials config result (c : C) log u gs err w' :
  loginFound p credentials config result (c, log) = Ret ((u, gs, err), w') ->
  (err <> None /\ u = Principal_zero /\ gs = [])
  \/ (err = None
      /\ exists first c1,
           nth_error (Entries result) 0 = Some first
           /\ conn_Bind (DN first) (Password credentials) c = (None, c1)
           /\ CheckAccess (AccessMode config) (AllowedPrincipalIDs config) (Name u) gs
              = (true, None)).
Proof.
  unfold loginFound. intros Hrun.
  apply bind_inv in Hrun as (first & w0 & [Hfirst <-]%index_inv & Hrun).
  apply bind_inv in Hrun as (berr & w1 & (c1 & Hbind & ->)%Bind_inv & Hrun).
  destruct berr as [e|].
  { destruct (IsErrorWithCode e LDAPResultInvalidCredentials);
      apply ret_inv in Hrun as [[= <- <- <-] _]; left; by repeat split. }
  apply bind_inv in Hrun as (aerr & w2 & _ & Hrun).
  destruct aerr as [e|].
  { apply ret_inv in Hrun as [[= <- <- <-] _]; left; by repeat split. }
  apply bind_inv in Hrun as ([opResult serr] & w3 & _ & Hrun).
  destruct serr as [e|].
  { apply ret_inv in Hrun as [[= <- <- <-] _]; left; by repeat split. }
  apply bind_inv in Hrun as (op & w4 & _ & Hrun).
  destruct (length (Entries op) <? 1)%nat.
  { apply ret_inv in Hrun as [[= <- <- <-] _]; left; by repeat split. }
  apply bind_inv in Hrun as ([[u' gs'] gerr] & w5 & _ & Hrun).
  destruct gerr as [e|].
  { apply ret_inv in Hrun as [[= <- <- <-] _]; left; by repeat split. }
  destruct (CheckAccess _ _ (Name u') gs') as [allowed [e|]] eqn:Haccess.
  { apply ret_inv in Hrun as [[= <- <- <-] _]; left; by repeat split. }
  destruct allowed; cbn [negb] in Hrun.
  - apply ret_inv in Hrun as [[= <- <- <-] _]. right. split; [reflexivity|].
    exists first, c1. auto.
  - apply ret_inv in Hrun as [[= <- <- <-] _]; left; by repeat split.
Qed.

(** X13.  Every error of [loginUser] comes with the zero principal and
    no groups: nothing of a partly resolved identity is returned. *)
Theorem loginUser_error_returns_nothing (p : ldapProvider) (credentials : BasicLogin)
    (config : LdapConfig) (w w' : World C) (u : Principal) (gs : list Principal)
    (e : error) :
  loginUser p credentials config w = Ret ((u, gs, Some e), w') ->
  u = Principal_zero /\ gs = [].
Proof.
  unfold loginUser. intros Hrun.
  destruct (Str.eqb (Password credentials) "").
  { by apply ret_inv in Hrun as [[= <- <- _] _]. }
  apply bind_inv in Hrun as (aerr & w1 & _ & Hrun).
  destruct aerr as [e1|].
  { by apply ret_inv in Hrun as [[= <- <- _] _]. }
  destruct (if negb (Str.eqb (UserLoginFilter config) "")
            then CompileFilter (UserLoginFilter config) else None) as [e1|].
  { by apply ret_inv in Hrun as [[= <- <- _] _]. }
  apply bind_inv in Hrun as (reply & w2 & _ & Hrun).
  apply bind_inv in Hrun as (serr & w3 & _ & Hrun).
  destruct serr as [e1|].
  { by apply ret_inv in Hrun as [[= <- <- _] _]. }
  apply bind_inv in Hrun as (result & [c4 log4] & _ & Hrun).
  apply loginFound_inv in Hrun as [(_ & -> & ->)|([=] & _)]. by split.
Qed.

(** X14.  A login that succeeds had a non-empty password, a user search
    that returned exactly one entry, a bind with that entry's DN and
    the password supplied that succeeded, on the connection as the
    search left it, and an access check that allowed the resolved
    principal and groups. *)
Theorem loginUser_success_requires (p : ldapProvider) (credentials : BasicLogin)
    (config : LdapConfig) (w w' : World C) (u : Principal) (gs : list Principal) :
  loginUser p credentials config w = Ret ((u, gs, None), w') ->
  Password credentials <> ""
  /\ exists c1 c2 c3 result entry,
       conn_Search (loginSearchRequest credentials config) c1
       = ((Some result, None), c2)
       /\ Entries result = [entry]
       /\ conn_Bind (DN entry) (Password credentials) c2 = (None, c3)
       /\ CheckAccess (AccessMode config) (AllowedPrincipalIDs config) (Name u) gs
          = (true, None).
Proof.
  unfold loginUser. intros Hrun.
  destruct (Str.eqb (Password credentials) "") eqn:Hpw.
  { by apply ret_inv in Hrun as [[=] _]. }
  apply Str.eqb_neq in Hpw. split; [exact Hpw|].
  apply bind_inv in Hrun as (aerr & [c1 log1] & _ & Hrun).
  destruct aerr as [e1|].
  { by apply ret_inv in Hrun as [[=] _]. }
  destruct (if negb (Str.eqb (UserLoginFilter config) "")
            then CompileFilter (UserLoginFilter config) else None) as [e1|].
  { by apply ret_inv in Hrun as [[=] _]. }
  apply bind_inv in Hrun as (reply & w2 & (c2 & Hsearch & ->)%SearchConn_inv & Hrun).
  apply bind_inv in Hrun as (serr & w3 & Hserr & Hrun).
  destruct serr as [e1|].
  { by apply ret_inv in Hrun as [[=] _]. }
  apply loginSearchError_none in Hserr as (-> & result & entry & -> & Hentries).
  apply bind_inv in Hrun as (result' & w4 & [[= <-] <-]%deref_inv & Hrun).
  apply loginFound_inv in Hrun as [(Herr & _)|(_ & first & c3 & Hfirst & Hbind & Haccess)];
    [by destruct Herr|].
  rewrite Hentries in Hfirst. injection Hfirst as <-.
  exists c1, c2, c3, result, entry. auto.
Qed.

(** X15.  When the bind as the user fails, [loginUser] stops there with
    an API error wrapping the bind error: Unauthorized when the error
    carries the invalid-credentials code, ServerError otherwise; no
    operational search follows. *)
Theorem loginUser_user_bind_failure (p : ldapProvider) (credentials : BasicLogin)
    (config : LdapConfig) (w : World C) (c1 c2 c3 : C) (log1 : list Event)
    (result : SearchResult) (entry : Entry) (e : error) :
  Password credentials <> "" ->
  AuthenticateServiceAccountUser (ServiceAccountPassword config)
    (ServiceAccountDistinguishedName config) "" w = Ret (None, (c1, log1)) ->
  (UserLoginFilter config = "" \/ CompileFilter (UserLoginFilter config) = None) ->
  conn_Search (loginSearchRequest credentials config) c1 = ((Some result, None), c2) ->
  Entries result = [entry] ->
  conn_Bind (DN entry) (Password credentials) c2 = (Some e, c3) ->
  loginUser p credentials config w
  = Ret ((Principal_zero, [],
           Some (if IsErrorWithCode e LDAPResultInvalidCredentials
                 then APIError Unauthorized "Unauthorized" (Some e)
                 else APIError ServerError "server error while authenticating" (Some e))),
         (c3, (log1 ++ [EvSearch (loginSearchRequest credentials config)])
                ++ [EvBind (DN entry) (Password credentials)])).
Proof.
  intros Hpw Hauth Hfilter Hsearch Hentries Hbind.
  unfold loginUser. apply Str.eqb_neq in Hpw. rewrite Hpw.
  rewrite (bind_Ret _ _ _ _ _ Hauth).
  assert ((if negb (Str.eqb (UserLoginFilter config) "")
           then CompileFilter (UserLoginFilter config) else None) = None) as ->.
  { destruct Hfilter as [->| ->]; [reflexivity|]. by destruct (negb _). }
  rewrite (bind_Ret _ _ _ _ _ (SearchConn_run _ _ _ _ _ Hsearch)).
  assert (forall w0 : World C,
             loginSearchError (loginSearchRequest credentials config)
               (Some result, None) w0 = Ret (None, w0)) as Hone.
  { intros w0. unfold loginSearchError. cbn [snd fst deref]. rewrite bind_ret_l.
    rewrite Hentries. reflexivity. }
  rewrite (bind_Ret _ _ _ _ _ (Hone _)).
  cbn [fst deref]. rewrite bind_ret_l.
  unfold loginFound, index. rewrite Hentries. cbn [nth_error]. rewrite bind_ret_l.
  rewrite (bind_Ret _ _ _ _ _ (Bind_run _ _ _ _ _ _ Hbind)).
  destruct (IsErrorWithCode e LDAPResultInvalidCredentials); reflexivity.
Qed.

End LoginMore.

(** * More on getPrincipalsFromSearchResult *)

Section ResolutionMore.
Context {C : Type} `{!Client C} `{!Helpers} `{!Collaborators C}.

(** X16.  The filter of a batch is the group object class clause ANDed
    with the OR of one equality clause per DN of the batch, in order;
    each DN enters in escaped form, under the configured group DN
    attribute as it is configured. *)
Theorem batchQuery_shape (config : LdapConfig) (batchGroupDN : list string) :
  batchQuery config batchGroupDN
  = "(&(objectClass=" +:+ SanitizeAttr (GroupObjectClass config) +:+ ")(|"
      +:+ Str.concat
            (map (fun gdn => "(" +:+ GroupDNAttribute config +:+ "="
                               +:+ Filter.EscapeFilter gdn +:+ ")")
                 batchGroupDN)
      +:+ "))".
Proof.
  unfold batchQuery.
  rewrite (fold_left_append
             (fun gdn => Str.Sprintf "(%s=%s)" [GroupDNAttribute config; Filter.EscapeFilter gdn])).
  cbn. repeat (progress (rewrite ?Str.append_nil_r, ?Str.append_assoc; cbn)).
  reflexivity.
Qed.

(** One round with the directory: the service-account bind alone (it
    failed), or the bind and right after it one paged whole-subtree
    search of page size 1000. *)
Definition service_round (config : LdapConfig) (round : list Event) : Prop :=
  let bound := EvBind (GetUserExternalID (ServiceAccountDistinguishedName config) "")
                 (ServiceAccountPassword config) in
  round = [bound]
  \/ exists req, round = [bound; EvSearchWithPaging req 1000]
                 /\ Scope req = ScopeWholeSubtree.

Lemma searchLdap_round p query scope config (c c' : C) log log' r :
  searchLdap p query scope config (c, log) = Ret (r, (c', log')) ->
  exists round, log' = log ++ round /\ service_round config round.
Proof.
  destruct r as [ps err]. intros Hrun.
  apply searchLdap_inv in Hrun
    as (et & _ & [(e & _ & _ & _ & ->)|(c1 & reply & _ & _ & -> & _)]).
  - eexists. split; [reflexivity|]. by left.
  - eexists. split; [by rewrite <- app_assoc|]. right.
    exists (searchLdap_request query et config). split; [reflexivity|].
    unfold searchLdap_request. by destruct (EqualFold "user" et).
Qed.

Lemma forwardBatches_rounds p config l fuel :
  forall i acc (c c' : C) log log' r,
    forwardBatches fuel p config l i acc (c, log) = Ret (r, (c', log')) ->
    exists rounds, log' = log ++ concat rounds /\ Forall (service_round config) rounds.
Proof.
  induction fuel as [|fuel IH]; intros i acc c c' log log' r Hrun; cbn [forwardBatches] in Hrun.
  - destruct (i <? length l)%nat; [discriminate|].
    apply ret_inv in Hrun as [_ [= <- <-]]. exists []. by rewrite app_nil_r.
  - destruct (i <? length l)%nat.
    + apply bind_inv in Hrun as ([ps err] & [c1 log1] & Hsearch & Hrun).
      apply searchLdap_round in Hsearch as (round & -> & Hround).
      destruct err as [e|].
      * apply ret_inv in Hrun as [_ [= <- <-]]. exists [round].
        simpl. rewrite app_nil_r. auto.
      * apply IH in Hrun as (rounds & -> & Hrounds).
        exists (round :: rounds). simpl. rewrite app_assoc. auto.
    + apply ret_inv in Hrun as [_ [= <- <-]]. exists []. by rewrite app_nil_r.
Qed.

(** What [reverseGroups] returns: the user principal it was given, with
    groups and an error, or with groups and the fallback flag. *)
Lemma reverseGroups_inv p entry opResult config u gs0 (c c' : C) log log' r :
  reverseGroups p entry opResult config u gs0 (c, log) = Ret (r, (c', log')) ->
  ((exists gs e, r = Returned (u, gs, Some e)) \/ (exists gs fb, r = Groups u gs fb))
  /\ exists rounds, log' = log ++ concat rounds /\ Forall (service_round config) rounds.
Proof.
  unfold reverseGroups. intros Hrun.
  apply bind_inv in Hrun as (gmua & w0 & Hg & Hrun).
  assert (w0 = (c, log)) as ->.
  { destruct (length _ =? 0)%nat.
    - apply bind_inv in Hg as (op & w1 & [_ <-]%index_inv & Hg). by apply ret_inv in Hg as [_ <-].
    - by apply ret_inv in Hg as [_ <-]. }
  apply bind_inv in Hrun as ([gs1 err1] & [c1 log1] & Hc & Hrun).
  assert (exists rounds1, log1 = log ++ concat rounds1 /\ Forall (service_round config) rounds1)
    as (rounds1 & -> & Hr1).
  { destruct gmua as [|first rest].
    - apply ret_inv in Hc as [_ [= <- <-]]. exists []. by rewrite app_nil_r.
    - apply bind_inv in Hc as ([ps e] & [c2 log2] & Hs & Hc).
      apply searchLdap_round in Hs as (round & -> & Hround).
      apply ret_inv in Hc as [_ [= <- <-]]. exists [round]. simpl. rewrite app_nil_r. auto. }
  destruct err1 as [e|].
  { apply ret_inv in Hrun as [<- [= <- <-]]. split; [left; eauto | eauto]. }
  destruct (length gs1 =? 0)%nat.
  - apply bind_inv in Hrun as ([gs2 err2] & [c2 log2] & Hs & Hrun).
    apply searchLdap_round in Hs as (round & -> & Hround).
    assert (exists rounds, (log ++ concat rounds1) ++ round = log ++ concat rounds
                           /\ Forall (service_round config) rounds) as Hrounds.
    { exists (rounds1 ++ [round]). rewrite concat_app. simpl.
      rewrite app_nil_r, app_assoc. split; [reflexivity|].
      apply Forall_app. auto. }
    destruct err2 as [e|]; apply ret_inv in Hrun as [<- [= <- <-]];
      (split; [|exact Hrounds]); [left | right]; eauto.
  - apply ret_inv in Hrun as [<- [= <- <-]]. split; [right; eauto | eauto].
Qed.

(** What [directGroups] returns and does. *)
Lemma directGroups_inv p result opResult config (c c' : C) log log' r :
  directGroups p result opResult config (c, log) = Ret (r, (c', log')) ->
  (exists err, r = Returned (Principal_zero, [], err)
   \/ exists entry u,
        nth_error (Entries result) 0 = Some entry
        /\ AttributesToPrincipal (Attributes entry) (DN entry) (userScope p)
             (providerName p) (UserObjectClass config) (UserNameAttribute config)
             (UserLoginAttribute config) (GroupObjectClass config)
             (GroupNameAttribute config) = (Some u, None)
        /\ ((exists gs e, r = Returned (u, gs, Some e)) \/ (exists gs fb, r = Groups u gs fb)))
  /\ exists rounds, log' = log ++ concat rounds /\ Forall (service_round config) rounds.
Proof.
  unfold directGroups. intros Hrun.
  assert (exists rounds : list (list Event),
             log = log ++ concat rounds /\ Forall (service_round config) rounds) as Hnone.
  { exists []. by rewrite app_nil_r. }
  apply bind_inv in Hrun as (entry & w0 & [Hentry <-]%index_inv & Hrun).
  destruct (negb (permissionCheck (Attributes entry) config)).
  { apply ret_inv in Hrun as [<- [= <- <-]]. split; [|exact Hnone]. eexists. by left. }
  apply bind_inv in Hrun as (uma & w1 & Hu & Hrun).
  assert (w1 = (c, log)) as ->.
  { destruct (length _ =? 0)%nat.
    - apply bind_inv in Hu as (op & w2 & [_ <-]%index_inv & Hu). by apply ret_inv in Hu as [_ <-].
    - by apply ret_inv in Hu as [_ <-]. }
  destruct (negb (IsType (Attributes entry) (UserObjectClass config))).
  { apply ret_inv in Hrun as [<- [= <- <-]]. split; [|exact Hnone]. eexists. by left. }
  destruct (AttributesToPrincipal _ _ _ _ _ _ _ _ _) as [user [e|]] eqn:Ha.
  { apply ret_inv in Hrun as [<- [= <- <-]]. split; [|exact Hnone]. eexists. by left. }
  apply bind_inv in Hrun as (u & w2 & [-> <-]%deref_inv & Hrun).
  apply bind_inv in Hrun as ([gs err] & [c2 log2] & Hf & Hrun).
  apply forwardBatches_rounds in Hf as (rounds1 & -> & Hr1).
  destruct err as [e|].
  - apply ret_inv in Hrun as [<- [= <- <-]].
    split; [|eauto]. exists None. right. exists entry, u. split; [exact Hentry|].
    split; [exact Ha|]. left. eauto.
  - apply reverseGroups_inv in Hrun as [Hr (rounds2 & -> & Hr2)].
    split.
    + exists None. right. exists entry, u. auto.
    + exists (rounds1 ++ rounds2). rewrite concat_app, app_assoc.
      split; [reflexivity|]. apply Forall_app. auto.
Qed.

(** X17.  All that lines 125-224 ask of the connection is a sequence of
    rounds, each the service-account bind followed at once by at most
    one paged whole-subtree search: no search goes out without a bind
    as the service account right before it. *)
Theorem directGroups_rebinds_before_every_search (p : ldapProvider)
    (result opResult : SearchResult) (config : LdapConfig)
    (c c' : C) (log log' : list Event) (r : Resolved) :
  directGroups p result opResult config (c, log) = Ret (r, (c', log')) ->
  exists rounds, log' = log ++ concat rounds /\ Forall (service_round config) rounds.
Proof. intros Hrun. by apply directGroups_inv in Hrun as [_ Hrounds]. Qed.

Lemma nestedGroups_inv p config u gs fb (w w' : World C) u' gs' err :
  nestedGroups p config u gs fb w = Ret ((u', gs', err), w') ->
  u' = u /\ err = None /\ exists added, gs' = gs ++ added.
Proof.
  unfold nestedGroups. destruct (traversalEnabled p config fb).
  - intros Hrun. apply bind_inv in Hrun as ([[gerr gm] nested] & w1 & _ & Hrun).
    destruct gerr as [e|]; apply ret_inv in Hrun as [[= <- <- <-] _]; repeat split; eauto.
    exists []. by rewrite app_nil_r.
  - intros [[= <- <- <-] _]%ret_inv. repeat split. exists []. by rewrite app_nil_r.
Qed.

(** X18.  The user principal [getPrincipalsFromSearchResult] returns is
    the zero principal or the mapping of the first entry of the
    attribute search under its own DN at the user scope, whatever the
    group queries and the traversal did; the zero principal comes with
    no groups. *)
Theorem getPrincipalsFromSearchResult_user_principal (p : ldapProvider)
    (result opResult : SearchResult) (config : LdapConfig) (w w' : World C)
    (u : Principal) (gs : list Principal) (err : option error) :
  getPrincipalsFromSearchResult p result opResult config w = Ret ((u, gs, err), w') ->
  (u = Principal_zero /\ gs = [])
  \/ exists entry,
       nth_error (Entries result) 0 = Some entry
       /\ AttributesToPrincipal (Attributes entry) (DN entry) (userScope p)
            (providerName p) (UserObjectClass config) (UserNameAttribute config)
            (UserLoginAttribute config) (GroupObjectClass config)
            (GroupNameAttribute config) = (Some u, None).
Proof.
  unfold getPrincipalsFromSearchResult. intros Hrun. destruct w as [c log].
  apply bind_inv in Hrun as (r & [c1 log1] & Hd & Hrun).
  apply directGroups_inv in Hd as [(e0 & [->|(entry & u0 & Hentry & Ha & Hr)]) _].
  - apply ret_inv in Hrun as [[= <- <- <-] _]. by left.
  - right. exists entry. split; [exact Hentry|].
    destruct Hr as [(gs0 & e & ->)|(gs0 & fb & ->)].
    + by apply ret_inv in Hrun as [[= <- <- <-] _].
    + by apply nestedGroups_inv in Hrun as (-> & _).
Qed.

(** X19.  When the first entry passes the permission check but is not of
    the user object class, [getPrincipalsFromSearchResult] returns the
    zero principal, no groups and a nil error, and does not use the
    connection. *)
Theorem getPrincipalsFromSearchResult_not_a_user (p : ldapProvider)
    (result opResult : SearchResult) (config : LdapConfig) (w : World C)
    (entry : Entry) :
  nth_error (Entries result) 0 = Some entry ->
  permissionCheck (Attributes entry) config = true ->
  IsType (Attributes entry) (UserObjectClass config) = false ->
  (GetAttributeValues (Attributes entry) (UserMemberAttribute config) <> []
   \/ Entries opResult <> []) ->
  getPrincipalsFromSearchResult p result opResult config w
  = Ret ((Principal_zero, [], None), w).
Proof.
  intros Hentry Hperm Htype Hop.
  unfold getPrincipalsFromSearchResult, directGroups, index, bind, ret.
  rewrite Hentry, Hperm. cbn [negb].
  destruct (GetAttributeValues (Attributes entry) (UserMemberAttribute config))
    as [|v vs] eqn:Hv; cbn [length Nat.eqb].
  - destruct Hop as [Hop|Hop]; [by destruct Hop|].
    destruct (Entries opResult) as [|op ops]; [by destruct Hop|].
    cbn [nth_error]. rewrite Htype. reflexivity.
  - rewrite Htype. reflexivity.
Qed.

End ResolutionMore.

Section BatchSearches.
Context {C : Type} `{!Client C} `{!Helpers} `{!Collaborators C}.

Lemma batchResults_log p config entityType batches :
  nth_error (Str.Split (groupScope p) "_"%char) 1 = Some entityType ->
  forall (c c' : C) log log' rs,
    batchResults p config batches (c, log) = Ret ((rs, None), (c', log')) ->
    log' = log ++ concat
             (map (fun b =>
                     [EvBind (GetUserExternalID (ServiceAccountDistinguishedName config) "")
                        (ServiceAccountPassword config);
                      EvSearchWithPaging
                        (searchLdap_request (batchQuery config b) entityType config) 1000])
                  batches)
    /\ length rs = length batches.
Proof.
  intros Hsplit. induction batches as [|b rest IH]; intros c c' log log' rs Hrun.
  - apply ret_inv in Hrun as [[= <-] [= <- <-]]. by rewrite app_nil_r.
  - cbn [batchResults] in Hrun.
    apply bind_inv in Hrun as ([ps err] & [c1 log1] & Hs & Hrun).
    destruct err as [e|]; [by apply ret_inv in Hrun as [[=] _]|].
    apply bind_inv in Hrun as ([rs1 err1] & [c2 log2] & Hrest & Hrun).
    apply ret_inv in Hrun as [[= <- ->] [= <- <-]].
    apply IH in Hrest as [-> Hlen].
    apply searchLdap_inv in Hs
      as (et & Hsplit' & [(e & _ & _ & [=] & _)|(c3 & reply & _ & _ & -> & _)]).
    rewrite Hsplit in Hsplit'. injection Hsplit' as <-.
    split; [|simpl; by rewrite Hlen].
    cbn [map concat]. rewrite <- !app_assoc. reflexivity.
Qed.

(** X20.  When the loop over the forward-membership DNs ends without an
    error, it has issued exactly one round per batch, in batch order:
    the service-account bind and the paged search whose filter is that
    batch's filter; so ceil(n/50) searches for n DNs, and none for an
    empty list. *)
Theorem forwardBatches_one_search_per_batch (p : ldapProvider) (config : LdapConfig)
    (userMemberAttribute : list string) (entityType : string)
    (c c' : C) (log log' : list Event) (gs : list Principal) :
  nth_error (Str.Split (groupScope p) "_"%char) 1 = Some entityType ->
  forwardBatches (length userMemberAttribute) p config userMemberAttribute 0 [] (c, log)
    = Ret ((gs, None), (c', log')) ->
  log' = log ++ concat
           (map (fun b =>
                   [EvBind (GetUserExternalID (ServiceAccountDistinguishedName config) "")
                      (ServiceAccountPassword config);
                    EvSearchWithPaging
                      (searchLdap_request (batchQuery config b) entityType config) 1000])
                (batchesOf userMemberAttribute))
  /\ length (List.filter is_search
               (concat
                  (map (fun b =>
                          [EvBind (GetUserExternalID (ServiceAccountDistinguishedName config) "")
                             (ServiceAccountPassword config);
                           EvSearchWithPaging
                             (searchLdap_request (batchQuery config b) entityType config) 1000])
                       (batchesOf userMemberAttribute))))
     = ((length userMemberAttribute + 49) / 50)%nat.
Proof.
  intros Hsplit Hrun.
  rewrite forwardBatches_chunks in Hrun by lia.
  apply bind_inv in Hrun as ([rs err] & [c1 log1] & Hb & Hrun).
  cbn [fst snd] in Hrun. apply ret_inv in Hrun as [[= <- ->] [= <- <-]].
  change (chunks (length userMemberAttribute) (skipn 0 userMemberAttribute))
    with (batchesOf userMemberAttribute) in Hb.
  apply (batchResults_log _ _ _ _ Hsplit) in Hb as [-> _].
  split; [reflexivity|].
  rewrite <- (chunks_length (length userMemberAttribute) userMemberAttribute) by lia.
  fold (batchesOf userMemberAttribute).
  induction (batchesOf userMemberAttribute) as [|b rest IH]; [reflexivity|].
  cbn [map concat app List.filter is_search length]. by rewrite IH.
Qed.

End BatchSearches.

(** * RefetchGroupPrincipals *)

Section Refetch.
Context {C : Type} `{!Client C} `{!Helpers} `{!Collaborators C}.

(** The provider's own helpers, declared in other files of the package:
    the stored configuration with its certificate pool, and the DN and
    scope of a principal id. *)
Variable getLDAPConfig : ldapProvider -> (LdapConfig * CertPool) + error.
Variable getDNAndScopeFromPrincipalID : ldapProvider -> string -> string * string * option error.

(** The request of the first search (lines 544-548): the user object
    class enters the filter as configured. *)
Definition refetchRequest (distinguishedName : string) (config : LdapConfig) : SearchRequest :=
  NewBaseObjectSearchRequest distinguishedName
    (Str.Sprintf "(%s=%s)" [ObjectClass; UserObjectClass config])
    (GetUserSearchAttributes config ObjectClass).

(** The request of the operational search (lines 563-567). *)
Definition refetchOpRequest (userDN : string) (config : LdapConfig) : SearchRequest :=
  NewBaseObjectSearchRequest userDN
    (Str.Sprintf "(%s=%s)" [ObjectClass; SanitizeAttr (UserObjectClass config)])
    operationalAttrList.

(** Lines 534-581, on the connection just opened. *)
Definition RefetchGroupPrincipals_connected (p : ldapProvider) (principalID : string)
    (config : LdapConfig) : M C (list Principal * option error) :=
  let* err :=
    AuthenticateServiceAccountUser (ServiceAccountPassword config)
      (ServiceAccountDistinguishedName config) "" in
  match err with
  | Some e => ret ([], Some e)
  | None =>
      let '(distinguishedName, _, err) := getDNAndScopeFromPrincipalID p principalID in
      match err with
      | Some e => ret ([], Some e)
      | None =>
          let searchRequest := refetchRequest distinguishedName config in
          let* (result, err) := SearchConn searchRequest in
          match err with
          | Some _ => ret ([], Some (PlainError "no access"))
          | None =>
              let* result := deref result in
              let nEntries := length (Entries result) in
              if (nEntries <? 1)%nat then
                ret ([], Some (WrapAPIError None Unauthorized
                  ("Cannot locate user information for " +:+ Filter searchRequest)))
              else if (1 <? nEntries)%nat then
                ret ([], Some (PlainError "ldap: user search found more than one result"))
              else
                let* first := index (Entries result) 0 in
                let userDN := DN first in
                let searchOpRequest := refetchOpRequest userDN config in
                let* (opResult, err) := SearchConn searchOpRequest in
                match err with
                | Some e =>
                    ret ([], Some (WrapAPIError (Some e) Unauthorized "authentication failed"))
                | None =>
                    let* opResult := deref opResult in
                    if (length (Entries opResult) <? 1)%nat then
                      ret ([], Some (WrapAPIError None Unauthorized
                        ("Cannot locate user information for " +:+ Filter searchOpRequest)))
                    else
                      let* (_, groupPrincipals, err) :=
                        getPrincipalsFromSearchResult p result opResult config in
                      match err with
                      | Some e => ret ([], Some e)
                      | None => ret (groupPrincipals, None)
                      end
                end
          end
      end
  end.

(** [RefetchGroupPrincipals] reads the stored configuration, opens its
    own connection and closes it on the way out; the secret is not
    used. *)
Definition RefetchGroupPrincipals (p : ldapProvider) (principalID secret : string)
  : outcome ((list Principal * option error) * list Event) :=
  match getLDAPConfig p with
  | inr e => Ret (([], Some e), [])
  | inl (config, caPool) =>
      let '(lConn, err) := Connect config caPool in
      match err with
      | Some e => Ret (([], Some e), [])
      | None =>
          match lConn with
          | None => Panic
          | Some c =>
              match RefetchGroupPrincipals_connected p principalID config (c, []) with
              | Ret (r, (_, log)) => Ret (r, log ++ [EvClose])
              | Panic => Panic
              | OutOfFuel => OutOfFuel
              end
          end
      end
  end.

Lemma RefetchGroupPrincipals_connected_inv p principalID config (w w' : World C) gs err :
  RefetchGroupPrincipals_connected p principalID config w = Ret ((gs, err), w') ->
  (err <> None /\ gs = [])
  \/ (err = None
      /\ exists result opResult entry u w1 w2,
           Entries result = [entry]
           /\ Entries opResult <> []
           /\ getPrincipalsFromSearchResult p result opResult config w1
              = Ret ((u, gs, None), w2)).
Proof.
  unfold RefetchGroupPrincipals_connected. intros Hrun.
  apply bind_inv in Hrun as (aerr & w1 & _ & Hrun).
  destruct aerr as [e|].
  { apply ret_inv in Hrun as [[= <- <-] _]. by left. }
  destruct (getDNAndScopeFromPrincipalID p principalID) as [[dn scope] [e|]].
  { apply ret_inv in Hrun as [[= <- <-] _]. by left. }
  apply bind_inv in Hrun as ([result serr] & w2 & _ & Hrun).
  destruct serr as [e|].
  { apply ret_inv in Hrun as [[= <- <-] _]. by left. }
  apply bind_inv in Hrun as (res & w3 & _ & Hrun).
  destruct (Entries res) as [|entry [|entry2 more]] eqn:Hentries;
    cbn [length Nat.ltb Nat.leb] in Hrun.
  { apply ret_inv in Hrun as [[= <- <-] _]. by left. }
  2: { apply ret_inv in Hrun as [[= <- <-] _]. by left. }
  apply bind_inv in Hrun as (first & w4 & _ & Hrun).
  apply bind_inv in Hrun as ([opResult oerr] & w5 & _ & Hrun).
  destruct oerr as [e|].
  { apply ret_inv in Hrun as [[= <- <-] _]. by left. }
  apply bind_inv in Hrun as (op & w6 & _ & Hrun).
  destruct (Entries op) as [|o os] eqn:Hop; cbn [length Nat.ltb Nat.leb] in Hrun.
  { apply ret_inv in Hrun as [[= <- <-] _]. by left. }
  apply bind_inv in Hrun as ([[u gs'] gerr] & w7 & Hg & Hrun).
  destruct gerr as [e|]; apply ret_inv in Hrun as [[= <- <-] _]; [by left|].
  right. split; [reflexivity|].
  exists res, op, entry, u, w6, w7. split; [exact Hentries|].
  split; [by rewrite Hop | exact Hg].
Qed.

(** X21.  [RefetchGroupPrincipals] returns groups only without an
    error, and then they are the groups [getPrincipalsFromSearchResult]
    resolved for the single entry found; with an error the list is
    empty. *)
Theorem RefetchGroupPrincipals_groups_or_error (p : ldapProvider)
    (principalID secret : string) (gs : list Principal) (err : option error)
    (log : list Event) :
  RefetchGroupPrincipals p principalID secret = Ret ((gs, err), log) ->
  (err <> None /\ gs = [])
  \/ (err = None
      /\ exists config caPool result opResult entry u w1 w2,
           getLDAPConfig p = inl (config, caPool)
           /\ Entries result = [entry]
           /\ Entries opResult <> []
           /\ getPrincipalsFromSearchResult p result opResult config w1
              = Ret ((u, gs, None), w2)).
Proof.
  unfold RefetchGroupPrincipals. intros Hrun.
  destruct (getLDAPConfig p) as [[config caPool]|e]; [|injection Hrun as <- <- _; by left].
  destruct (Connect config caPool) as [lConn [e|]]; [injection Hrun as <- <- _; by left|].
  destruct lConn as [c|]; [|discriminate].
  destruct (RefetchGroupPrincipals_connected p principalID config (c, []))
    as [[[gs' err'] [c' log']]| |] eqn:Hc; try discriminate.
  injection Hrun as <- <- _.
  apply RefetchGroupPrincipals_connected_inv in Hc
    as [Herr|(-> & result & opResult & entry & u & w1 & w2 & H1 & H2 & H3)]; [by left|].
  right. split; [reflexivity|]. exists config, caPool, result, opResult, entry, u, w1, w2. auto.
Qed.

(** X22.  When the search for the principal's entry fails, whatever the
    error, [RefetchGroupPrincipals] returns the plain error "no access";
    when it succeeds with no entry the error is an Unauthorized API
    error, and with more than one entry a plain error.  In each case no
    operational search follows and the connection is closed. *)
Theorem RefetchGroupPrincipals_lookup_failure (p : ldapProvider)
    (principalID secret distinguishedName scope : string) (config : LdapConfig)
    (caPool : CertPool) (c c1 c2 : C) (log1 : list Event) (reply : SearchReply) :
  getLDAPConfig p = inl (config, caPool) ->
  Connect config caPool = (Some c, None) ->
  AuthenticateServiceAccountUser (ServiceAccountPassword config)
    (ServiceAccountDistinguishedName config) "" (c, []) = Ret (None, (c1, log1)) ->
  getDNAndScopeFromPrincipalID p principalID = (distinguishedName, scope, None) ->
  conn_Search (refetchRequest distinguishedName config) c1 = (reply, c2) ->
  (snd reply <> None
   \/ exists result, reply = (Some result, None) /\ length (Entries result) <> 1%nat) ->
  RefetchGroupPrincipals p principalID secret
  = Ret (([], Some
            (match snd reply, fst reply with
             | None, Some result =>
                 if (length (Entries result) <? 1)%nat then
                   APIError Unauthorized
                     ("Cannot locate user information for "
                        +:+ Filter (refetchRequest distinguishedName config)) None
                 else PlainError "ldap: user search found more than one result"
             | _, _ => PlainError "no access"
             end)),
         (log1 ++ [EvSearch (refetchRequest distinguishedName config)]) ++ [EvClose]).
Proof.
  intros Hcfg Hconn Hauth Hdn Hsearch Hfail.
  unfold RefetchGroupPrincipals. rewrite Hcfg, Hconn.
  unfold RefetchGroupPrincipals_connected.
  rewrite (bind_Ret _ _ _ _ _ Hauth), Hdn.
  rewrite (bind_Ret _ _ _ _ _ (SearchConn_run _ _ _ _ _ Hsearch)).
  destruct reply as [result [e|]]; [reflexivity|].
  destruct Hfail as [Hfail|(res & [= ->] & Hlen)]; [by destruct Hfail|].
  cbn [deref fst snd]. rewrite bind_ret_l.
  destruct (Entries res) as [|entry [|entry2 more]]; [reflexivity | | reflexivity].
  by destruct Hlen.
Qed.

End Refetch.

(** * More runs on the small directory *)

Module Runs.
Import Sample.

Definition svcBind : Event := EvBind "uid=svc,cn=users,dc=x" "svc-secret".

Definition fallbackQuery : string :=
  "(&(member=uid=alice,cn=users,dc=x)(objectClass=groupOfNames))".

Lemma fallback_search_run :
  searchLdap provider fallbackQuery "freeipa_group" config (nestedDirectory, [])
  = Ret (([engPrincipal], None), afterFallback).
Proof. vm_compute. reflexivity. Qed.

Definition bindRefused : error :=
  WrapError "ldap: error binding service account: " invalidCredentials.

Lemma locked_search_run :
  searchLdap provider fallbackQuery "freeipa_group" config (lockedDirectory, [])
  = Ret (([], Some bindRefused), (lockedDirectory, [] ++ [svcBind])).
Proof. vm_compute. reflexivity. Qed.

Lemma searchLdap_error_returns_no_principals_witness :
  searchLdap provider fallbackQuery "freeipa_group" config (lockedDirectory, [])
  = Ret (([], Some bindRefused), (lockedDirectory, [] ++ [svcBind]))
  /\ @nil Principal = [].
Proof.
  split; [exact locked_search_run|].
  exact (searchLdap_error_returns_no_principals provider fallbackQuery "freeipa_group"
           config _ _ [] bindRefused locked_search_run).
Defined.

Lemma searchLdap_binds_then_searches_once_witness :
  searchLdap provider fallbackQuery "freeipa_group" config (nestedDirectory, [])
  = Ret (([engPrincipal], None), afterFallback)
  /\ exists req,
       snd afterFallback = [] ++ [svcBind; EvSearchWithPaging req 1000]
       /\ Filter req = fallbackQuery /\ Scope req = ScopeWholeSubtree
       /\ BaseDN req = "dc=x".
Proof.
  split; [exact fallback_search_run|].
  destruct (searchLdap_binds_then_searches_once provider fallbackQuery "freeipa_group"
              config nestedDirectory nestedDirectory [] (snd afterFallback)
              ([engPrincipal], None) fallback_search_run)
    as [[Hlog _]|(req & Hlog & Hfilter & Hscope & Hbase)]; [discriminate Hlog|].
  exists req. repeat split; auto.
  injection Hlog as <-. reflexivity.
Defined.

Lemma searchLdap_maps_every_entry_witness :
  searchLdap provider fallbackQuery "freeipa_group" config (nestedDirectory, [])
  = Ret (([engPrincipal], None), afterFallback)
  /\ exists entityType c1 results serr,
       nth_error (Str.Split "freeipa_group" "_"%char) 1 = Some entityType
       /\ conn_SearchWithPaging (searchLdap_request fallbackQuery entityType config) 1000 c1
          = ((Some results, serr), nestedDirectory)
       /\ length [engPrincipal] = length (Entries results)
       /\ Forall2 (fun e pr => entryPrincipal provider "freeipa_group" entityType config e
                               = (Some pr, None)) (Entries results) [engPrincipal].
Proof.
  split; [exact fallback_search_run|].
  exact (searchLdap_maps_every_entry provider fallbackQuery "freeipa_group" config
           nestedDirectory nestedDirectory [] (snd afterFallback) [engPrincipal]
           fallback_search_run).
Defined.

Lemma searchLdap_scope_without_underscore_panics_witness :
  searchLdap provider fallbackQuery "freeipagroup" config (nestedDirectory, []) = Panic.
Proof.
  apply searchLdap_scope_without_underscore_panics.
  intros ch Hin. simpl in Hin.
  repeat (destruct Hin as [<-|Hin]; [discriminate|]). contradiction.
Defined.

Lemma searchLdap_bind_failure_no_search_witness :
  conn_Bind "uid=svc,cn=users,dc=x" "svc-secret" lockedDirectory
  = (Some invalidCredentials, lockedDirectory)
  /\ searchLdap provider fallbackQuery "freeipa_group" config (lockedDirectory, [])
     = Ret (([], Some bindRefused), (lockedDirectory, [] ++ [svcBind])).
Proof.
  split; [reflexivity|].
  exact (searchLdap_bind_failure_no_search provider fallbackQuery "freeipa_group" "group"
           config lockedDirectory lockedDirectory [] invalidCredentials eq_refl eq_refl).
Defined.

(** ** Searching for principals *)

Definition dev : Entry := person "uid=dev1,cn=users,dc=x" "dev1" "Dev One" [].
Definition devs : Entry := group "cn=devs,cn=groups,dc=x" "devs" ["uid=dev1,cn=users,dc=x"].
Definition devPrincipal : Principal :=
  {| Name := "freeipa_user://uid=dev1,cn=users,dc=x"; DisplayName := "Dev One";
     LoginName := "dev1"; PrincipalType := "user" |}.
Definition devsPrincipal : Principal := principalOf "freeipa_group" devs "devs" "group".

Definition findDirectory : Directory :=
  {| bindError := None;
     table :=
       [("(&(objectClass=inetOrgPerson)(|(uid=dev*)(sn=dev*)(uidNumber=dev)))", found [dev]);
        ("(&(objectClass=groupOfNames)(cn=*dev*))", found [devs])];
     byEntryDN := [] |}.

Definition afterUsers : World Directory :=
  Eval vm_compute in
    match searchUser provider "dev" config (findDirectory, []) with
    | Ret (_, w) => w
    | _ => (findDirectory, [])
    end.

Definition afterGroups : World Directory :=
  Eval vm_compute in
    match searchGroup provider "dev" config afterUsers with
    | Ret (_, w) => w
    | _ => (findDirectory, [])
    end.

Lemma find_all_run :
  searchPrincipals provider "dev" "" config (findDirectory, [])
  = Ret (([devPrincipal; devsPrincipal], None), afterGroups).
Proof. vm_compute. reflexivity. Qed.

Lemma searchPrincipals_users_then_groups_witness :
  searchPrincipals provider "dev" "" config (findDirectory, [])
  = Ret (([devPrincipal; devsPrincipal], None), afterGroups)
  /\ exists users groups w1,
       searchUser provider "dev" config (findDirectory, []) = Ret ((users, None), w1)
       /\ searchGroup provider "dev" config w1 = Ret ((groups, None), afterGroups)
       /\ [devPrincipal; devsPrincipal] = users ++ groups.
Proof.
  split; [exact find_all_run|].
  exact (searchPrincipals_users_then_groups provider "dev" config _ _ _ find_all_run).
Defined.

Lemma searchPrincipals_unknown_type_witness :
  searchPrincipals provider "dev" "role" config (findDirectory, [])
  = Ret (([], None), (findDirectory, [])).
Proof.
  apply searchPrincipals_unknown_type; discriminate.
Defined.

(** The configuration of [Sample.config] with other filter overrides. *)
Definition configWith (loginFilter userFilter groupFilter : string) : LdapConfig :=
  {| Enabled := true;
     AccessMode := "unrestricted";
     AllowedPrincipalIDs := [];
     ServiceAccountDistinguishedName := "uid=svc,cn=users,dc=x";
     ServiceAccountPassword := "svc-secret";
     SearchUsingServiceAccount := false;
     UserSearchBase := "dc=x";
     UserObjectClass := "inetOrgPerson";
     UserLoginAttribute := "uid";
     UserNameAttribute := "cn";
     UserMemberAttribute := "memberOf";
     UserSearchAttribute := "uid|sn|uidNumber";
     UserLoginFilter := loginFilter;
     UserSearchFilter := userFilter;
     UserEnabledAttribute := "";
     UserDisabledBitMask := 0;
     GroupSearchBase := "";
     GroupObjectClass := "groupOfNames";
     GroupNameAttribute := "cn";
     GroupDNAttribute := "entryDN";
     GroupMemberUserAttribute := "entryDN";
     GroupMemberMappingAttribute := "member";
     GroupSearchAttribute := "cn";
     GroupSearchFilter := groupFilter;
     NestedGroupMembershipEnabled := false |}.

Lemma searchPrincipals_invalid_user_filter_witness :
  CompileFilter (UserSearchFilter (configWith "" "(mail=*" "")) = Some unclosed
  /\ searchPrincipals provider "dev" "" (configWith "" "(mail=*" "") (findDirectory, [])
     = Ret (([], Some (PlainError "invalid user search filter")), (findDirectory, [])).
Proof.
  split; [reflexivity|].
  apply (searchPrincipals_invalid_user_filter provider "dev" "" (configWith "" "(mail=*" "")
           unclosed (findDirectory, [])).
  - by left.
  - discriminate.
  - reflexivity.
Defined.

(** ** Looking up one principal *)

Definition engDN : string := "cn=eng,cn=groups,dc=x".

Definition engFromDN : Principal :=
  {| Name := "freeipa_group://cn=eng,cn=groups,dc=x"; DisplayName := engDN;
     LoginName := engDN; PrincipalType := "group" |}.

Lemma locked_lookup_run :
  getPrincipal (Collaborators0 := collaborators lockedDirectory) provider
    engDN "freeipa_group" config tt
  = Ret ((Some engFromDN, None), [svcBind; EvClose]).
Proof. vm_compute. reflexivity. Qed.

Lemma getPrincipal_principal_or_error_witness :
  getPrincipal (Collaborators0 := collaborators lockedDirectory) provider
    engDN "freeipa_group" config tt
  = Ret ((Some engFromDN, None), [svcBind; EvClose])
  /\ (Some engFromDN = None \/ @None error = None).
Proof.
  split; [exact locked_lookup_run|].
  exact (getPrincipal_principal_or_error (Collaborators0 := collaborators lockedDirectory)
           provider engDN "freeipa_group" config tt _ _ _ locked_lookup_run).
Defined.

Lemma getPrincipal_connection_use_witness :
  getPrincipal (Collaborators0 := collaborators lockedDirectory) provider
    engDN "freeipa_group" config tt
  = Ret ((Some engFromDN, None), [svcBind; EvClose])
  /\ (([svcBind; EvClose] = [] /\ Some engFromDN = None)
      \/ [svcBind; EvClose] = [svcBind; EvClose]
      \/ exists req,
           [svcBind; EvClose] = [svcBind; EvSearch req; EvClose]
           /\ BaseDN req = engDN /\ Scope req = ScopeBaseObject).
Proof.
  split; [exact locked_lookup_run|].
  exact (getPrincipal_connection_use (Collaborators0 := collaborators lockedDirectory)
           provider engDN "freeipa_group" config tt _ _ _ locked_lookup_run).
Defined.

(** The group [eng] is found by the base-object search at its DN. *)
Definition lookupDirectory : Directory :=
  {| bindError := None;
     table := [("(objectClass=groupOfNames)", found [eng])];
     byEntryDN := [] |}.

Definition engLookupRequest : SearchRequest :=
  NewBaseObjectSearchRequest engDN "(objectClass=groupOfNames)"
    ["objectClass"; "cn"; "entryDN"].

Lemma found_lookup_run :
  getPrincipal (Collaborators0 := collaborators lookupDirectory) provider
    engDN "freeipa_group" config tt
  = Ret ((Some engPrincipal, None), [svcBind; EvSearch engLookupRequest; EvClose]).
Proof. vm_compute. reflexivity. Qed.

Lemma getPrincipal_principal_origin_witness :
  getPrincipal (Collaborators0 := collaborators lookupDirectory) provider
    engDN "freeipa_group" config tt
  = Ret ((Some engPrincipal, None), [svcBind; EvSearch engLookupRequest; EvClose])
  /\ exists entityType,
       nth_error (Str.Split "freeipa_group" "_"%char) 1 = Some entityType
       /\ ((engPrincipal = principalFromDN engDN "freeipa_group" entityType
            /\ Forall (fun ev => is_search ev = false)
                 [svcBind; EvSearch engLookupRequest; EvClose])
           \/ exists (c1 c' : Directory) res entry serr,
                conn_Search (getPrincipal_request engDN entityType config) c1
                = ((Some res, serr), c')
                /\ Entries res = [entry]
                /\ permissionCheck (Attributes entry) config = true
                /\ AttributesToPrincipal (Attributes entry) engDN "freeipa_group"
                     (providerName provider) (UserObjectClass config)
                     (UserNameAttribute config) (UserLoginAttribute config)
                     (GroupObjectClass config) (GroupNameAttribute config)
                   = (Some engPrincipal, None)).
Proof.
  split; [exact found_lookup_run|].
  exact (getPrincipal_principal_origin (Collaborators0 := collaborators lookupDirectory)
           provider engDN "freeipa_group" config tt _ _ _ found_lookup_run).
Defined.

Definition noSuchObject : error := LdapError 32 "No Such Object".

(** The base-object search at the DN fails: there is no such entry. *)
Definition goneDirectory : Directory :=
  {| bindError := None;
     table := [("(objectClass=groupOfNames)", (None, Some noSuchObject))];
     byEntryDN := [] |}.

Lemma getPrincipal_search_failure_witness :
  conn_Search (getPrincipal_request engDN "group" config) goneDirectory
  = ((None, Some noSuchObject), goneDirectory)
  /\ exists err log,
       getPrincipal (Collaborators0 := collaborators goneDirectory) provider
         engDN "freeipa_group" config tt = Ret ((None, Some err), log)
       /\ api_code err = Some NotFound.
Proof.
  split; [reflexivity|].
  apply (getPrincipal_search_failure (Collaborators0 := collaborators goneDirectory)
           provider engDN "freeipa_group" "group" config tt
           [[("cn", "eng")]; [("cn", "groups")]; [("dc", "x")]]
           goneDirectory goneDirectory goneDirectory None noSuchObject).
  - right. reflexivity.
  - reflexivity.
  - right. reflexivity.
  - reflexivity.
  - reflexivity.
  - reflexivity.
  - reflexivity.
Defined.

(** ** Logging in *)

Definition ambiguous : error :=
  APIError Unauthorized "Unauthorized"
    (Some (PlainError "ldap user search found more than one result")).

Lemma twin_login_run :
  loginUser (Collaborators0 := collaborators twinDirectory) provider aliceLogin config
    (twinDirectory, [])
  = Ret ((Principal_zero, [], Some ambiguous),
         (twinDirectory, [svcBind; EvSearch (loginSearchRequest aliceLogin config)])).
Proof. vm_compute. reflexivity. Qed.

Lemma loginUser_error_returns_nothing_witness :
  loginUser (Collaborators0 := collaborators twinDirectory) provider aliceLogin config
    (twinDirectory, [])
  = Ret ((Principal_zero, [], Some ambiguous),
         (twinDirectory, [svcBind; EvSearch (loginSearchRequest aliceLogin config)]))
  /\ Principal_zero = Principal_zero /\ @nil Principal = [].
Proof.
  split; [exact twin_login_run|].
  exact (loginUser_error_returns_nothing (Collaborators0 := collaborators twinDirectory)
           provider aliceLogin config _ _ _ _ _ twin_login_run).
Defined.

(** Alice is found by her login name, is a member of [eng], and [eng]
    of [staff]. *)
Definition loginDirectory : Directory :=
  {| bindError := None;
     table :=
       [("(&(objectClass=inetOrgPerson)(uid=alice))", found [alice]);
        ("(objectClass=inetOrgPerson)", found [alice]);
        ("(&(member=uid=alice,cn=users,dc=x)(objectClass=groupOfNames))", found [eng]);
        ("(&(member=cn=eng,cn=groups,dc=x)(objectClass=groupOfNames))", found [staff])];
     byEntryDN := [] |}.

Definition afterLogin : World Directory :=
  Eval vm_compute in
    match loginUser (Collaborators0 := collaborators loginDirectory) provider aliceLogin
            config (loginDirectory, []) with
    | Ret (_, w) => w
    | _ => (loginDirectory, [])
    end.

Lemma alice_login_run :
  loginUser (Collaborators0 := collaborators loginDirectory) provider aliceLogin config
    (loginDirectory, [])
  = Ret ((alicePrincipal, [engPrincipal; staffPrincipal], None), afterLogin).
Proof. vm_compute. reflexivity. Qed.

Lemma loginUser_success_requires_witness :
  loginUser (Collaborators0 := collaborators loginDirectory) provider aliceLogin config
    (loginDirectory, [])
  = Ret ((alicePrincipal, [engPrincipal; staffPrincipal], None), afterLogin)
  /\ Password aliceLogin <> ""
  /\ exists (c1 c2 c3 : Directory) result entry,
       conn_Search (loginSearchRequest aliceLogin config) c1 = ((Some result, None), c2)
       /\ Entries result = [entry]
       /\ conn_Bind (DN entry) (Password aliceLogin) c2 = (None, c3)
       /\ CheckAccess (AccessMode config) (AllowedPrincipalIDs config)
            (Name alicePrincipal) [engPrincipal; staffPrincipal]
          = (true, None).
Proof.
  split; [exact alice_login_run|].
  exact (loginUser_success_requires (Collaborators0 := collaborators loginDirectory)
           provider aliceLogin config _ _ _ _ alice_login_run).
Defined.

(** A connection that checks the password of every bind against its
    accounts and answers searches from a directory. *)
Record Checked := { directory : Directory; accounts : list (string * string) }.

Definition checkedBind (dn password : string) (s : Checked) : option error :=
  if existsb (fun a => Str.eqb (fst a) dn && Str.eqb (snd a) password) (accounts s)
  then None else Some invalidCredentials.

#[export] Instance Checked_Client : Client Checked := {|
  conn_Bind dn password s := (checkedBind dn password s, s);
  conn_Search req s := (answerSearch (directory s) req, s);
  conn_SearchWithPaging req _ s := (answerSearch (directory s) req, s);
|}.

Definition checkedCollaborators : Collaborators Checked := {|
  CertPool := unit;
  Connect := fun _ _ => (None, Some (PlainError "no server"));
  AuthenticateServiceAccountUser := AuthenticateServiceAccountUser_model;
  GatherParentGroups := GatherParentGroups_model 16;
|}.

Definition office : Checked :=
  {| directory := loginDirectory;
     accounts := [("uid=svc,cn=users,dc=x", "svc-secret");
                  ("uid=alice,cn=users,dc=x", "wonderland")] |}.

Definition wrongLogin : BasicLogin := {| Username := "alice"; Password := "rabbit" |}.

Lemma loginUser_user_bind_failure_witness :
  conn_Bind (DN alice) (Password wrongLogin) office = (Some invalidCredentials, office)
  /\ loginUser (Collaborators0 := checkedCollaborators) provider wrongLogin config (office, [])
     = Ret ((Principal_zero, [],
              Some (APIError Unauthorized "Unauthorized" (Some invalidCredentials))),
            (office, ([svcBind] ++ [EvSearch (loginSearchRequest wrongLogin config)])
                       ++ [EvBind (DN alice) (Password wrongLogin)])).
Proof.
  split; [reflexivity|].
  exact (loginUser_user_bind_failure (Collaborators0 := checkedCollaborators)
           provider wrongLogin config (office, []) office office office [svcBind]
           {| Entries := [alice] |} alice invalidCredentials
           ltac:(discriminate) eq_refl (or_introl eq_refl) eq_refl eq_refl eq_refl).
Defined.

(** ** Resolving groups *)

Lemma directGroups_rebinds_before_every_search_witness :
  directGroups provider aliceResult aliceResult config (nestedDirectory, [])
  = Ret (Groups alicePrincipal [engPrincipal] true, afterFallback)
  /\ exists rounds,
       snd afterFallback = [] ++ concat rounds /\ Forall (service_round config) rounds.
Proof.
  split; [exact nestedDirectory_direct|].
  exact (directGroups_rebinds_before_every_search provider aliceResult aliceResult config
           nestedDirectory nestedDirectory [] (snd afterFallback) _ nestedDirectory_direct).
Defined.

Definition afterTraversal : World Directory :=
  Eval vm_compute in
    match getPrincipalsFromSearchResult (Collaborators0 := collaborators nestedDirectory)
            provider aliceResult aliceResult config (nestedDirectory, []) with
    | Ret (_, w) => w
    | _ => (nestedDirectory, [])
    end.

Lemma nested_resolution_run :
  getPrincipalsFromSearchResult (Collaborators0 := collaborators nestedDirectory)
    provider aliceResult aliceResult config (nestedDirectory, [])
  = Ret ((alicePrincipal, [engPrincipal; staffPrincipal], None), afterTraversal).
Proof. vm_compute. reflexivity. Qed.

Lemma getPrincipalsFromSearchResult_user_principal_witness :
  getPrincipalsFromSearchResult (Collaborators0 := collaborators nestedDirectory)
    provider aliceResult aliceResult config (nestedDirectory, [])
  = Ret ((alicePrincipal, [engPrincipal; staffPrincipal], None), afterTraversal)
  /\ ((alicePrincipal = Principal_zero /\ [engPrincipal; staffPrincipal] = [])
      \/ exists entry,
           nth_error (Entries aliceResult) 0 = Some entry
           /\ AttributesToPrincipal (Attributes entry) (DN entry) (userScope provider)
                (providerName provider) (UserObjectClass config) (UserNameAttribute config)
                (UserLoginAttribute config) (GroupObjectClass config)
                (GroupNameAttribute config) = (Some alicePrincipal, None)).
Proof.
  split; [exact nested_resolution_run|].
  exact (getPrincipalsFromSearchResult_user_principal
           (Collaborators0 := collaborators nestedDirectory)
           provider aliceResult aliceResult config _ _ _ _ _ nested_resolution_run).
Defined.

Lemma getPrincipalsFromSearchResult_not_a_user_witness :
  IsType (Attributes eng) (UserObjectClass config) = false
  /\ getPrincipalsFromSearchResult (Collaborators0 := collaborators nestedDirectory)
       provider {| Entries := [eng] |} {| Entries := [eng] |} config (nestedDirectory, [])
     = Ret ((Principal_zero, [], None), (nestedDirectory, [])).
Proof.
  split; [reflexivity|].
  apply (getPrincipalsFromSearchResult_not_a_user
           (Collaborators0 := collaborators nestedDirectory) provider
           {| Entries := [eng] |} {| Entries := [eng] |} config (nestedDirectory, []) eng).
  - reflexivity.
  - reflexivity.
  - reflexivity.
  - right. discriminate.
Defined.

Definition carolTeams : list Principal :=
  Eval vm_compute in
    match forwardBatches (length carolGroups) provider config carolGroups 0 []
            (teamsDirectory, []) with
    | Ret ((gs, _), _) => gs
    | _ => []
    end.

Definition afterBatches : list Event :=
  Eval vm_compute in
    match forwardBatches (length carolGroups) provider config carolGroups 0 []
            (teamsDirectory, []) with
    | Ret (_, (_, log)) => log
    | _ => []
    end.

Lemma carol_batches_run :
  forwardBatches (length carolGroups) provider config carolGroups 0 [] (teamsDirectory, [])
  = Ret ((carolTeams, None), (teamsDirectory, afterBatches)).
Proof. vm_compute. reflexivity. Qed.

Lemma forwardBatches_one_search_per_batch_witness :
  forwardBatches (length carolGroups) provider config carolGroups 0 [] (teamsDirectory, [])
  = Ret ((carolTeams, None), (teamsDirectory, afterBatches))
  /\ length (List.filter is_search afterBatches) = 2%nat.
Proof.
  split; [exact carol_batches_run|].
  destruct (forwardBatches_one_search_per_batch provider config carolGroups "group"
              teamsDirectory teamsDirectory [] afterBatches carolTeams eq_refl
              carol_batches_run) as [Hlog Hcount].
  rewrite Hlog. exact Hcount.
Defined.

(** ** Refetching the groups of a principal *)

Definition storedConfig (p : ldapProvider) : (LdapConfig * unit) + error := inl (config, tt).

Definition dnOfPrincipalID (p : ldapProvider) (principalID : string)
  : string * string * option error :=
  match externalIDOfName principalID with
  | Some dn => (dn, userScope p, None)
  | None => ("", "", Some (PlainError "invalid id"))
  end.

Definition aliceID : string := "freeipa_user://uid=alice,cn=users,dc=x".

Definition afterRefetch : list Event :=
  Eval vm_compute in
    match RefetchGroupPrincipals (Collaborators0 := collaborators loginDirectory)
            storedConfig dnOfPrincipalID provider aliceID "" with
    | Ret (_, log) => log
    | _ => []
    end.

Lemma alice_refetch_run :
  RefetchGroupPrincipals (Collaborators0 := collaborators loginDirectory)
    storedConfig dnOfPrincipalID provider aliceID ""
  = Ret (([engPrincipal; staffPrincipal], None), afterRefetch).
Proof. vm_compute. reflexivity. Qed.

Lemma RefetchGroupPrincipals_groups_or_error_witness :
  RefetchGroupPrincipals (Collaborators0 := collaborators loginDirectory)
    storedConfig dnOfPrincipalID provider aliceID ""
  = Ret (([engPrincipal; staffPrincipal], None), afterRefetch)
  /\ ((@None error <> None /\ [engPrincipal; staffPrincipal] = [])
      \/ (@None error = None
          /\ exists cfg caPool result opResult entry u (w1 w2 : World Directory),
               storedConfig provider = inl (cfg, caPool)
               /\ Entries result = [entry]
               /\ Entries opResult <> []
               /\ getPrincipalsFromSearchResult
                    (Collaborators0 := collaborators loginDirectory)
                    provider result opResult cfg w1
                  = Ret ((u, [engPrincipal; staffPrincipal], None), w2))).
Proof.
  split; [exact alice_refetch_run|].
  exact (RefetchGroupPrincipals_groups_or_error
           (Collaborators0 := collaborators loginDirectory)
           storedConfig dnOfPrincipalID provider aliceID "" _ _ _ alice_refetch_run).
Defined.

(** Two entries answer the base-object search for Alice. *)
Definition twinLookupDirectory : Directory :=
  {| bindError := None;
     table := [("(objectClass=inetOrgPerson)", found [alice; alice2])];
     byEntryDN := [] |}.

Lemma RefetchGroupPrincipals_lookup_failure_witness :
  conn_Search (refetchRequest "uid=alice,cn=users,dc=x" config) twinLookupDirectory
  = (found [alice; alice2], twinLookupDirectory)
  /\ RefetchGroupPrincipals (Collaborators0 := collaborators twinLookupDirectory)
       storedConfig dnOfPrincipalID provider aliceID ""
     = Ret (([], Some (PlainError "ldap: user search found more than one result")),
            ([svcBind] ++ [EvSearch (refetchRequest "uid=alice,cn=users,dc=x" config)])
              ++ [EvClose]).
Proof.
  split; [reflexivity|].
  apply (RefetchGroupPrincipals_lookup_failure
           (Collaborators0 := collaborators twinLookupDirectory)
           storedConfig dnOfPrincipalID provider aliceID "" "uid=alice,cn=users,dc=x"
           "freeipa_user" config tt twinLookupDirectory twinLookupDirectory
           twinLookupDirectory [svcBind] (found [alice; alice2])).
  - reflexivity.
  - reflexivity.
  - reflexivity.
  - reflexivity.
  - reflexivity.
  - right. exists {| Entries := [alice; alice2] |}. split; [reflexivity|]. simpl. lia.
Defined.

End Runs.
